(** * APS: verification of selected components

    A shallow embedding of parts of the [aps] speech toolkit:
    - [aps/trainer/apex.py]         (module [Apex]);
    - [aps/asr/transformer/impl.py] (module [Impl]);
    - [aps/asr/att.py]              (module [Att]);
    - [aps/asr/enh/conv.py]         (module [Conv]);
    - [aps/task/unsuper.py]         (module [Unsuper]);
    - [aps/sep/enh/phasen.py]       (module [Phasen]).

    Python exceptions are values of [exn], fallible code returns [result],
    the trainer is a state-and-exception monad over the trainer object.
    Scalars handled by the trainer ([loss], [norm], learning rates) are
    binary64 floats; entries of tensors in the numeric front-ends are real
    numbers. *)

From Stdlib Require Import ZArith List String Bool Lia PrimFloat.
From Stdlib Require Import Reals Lra Psatz.
From Stdlib Require Import Floats.SpecFloat.
From stdpp Require Import base option list gmap strings pretty.

Local Open Scope string_scope.

(** ** Python exceptions and results *)

Inductive exn : Type :=
| RuntimeError (msg : string)
| ValueError (msg : string)
| TypeError (msg : string)
| KeyError (key : string)
| IndexError (msg : string)
| AttributeError (name : string)
| AssertionError (msg : string)
| ZeroDivisionError (msg : string).

Inductive result (A : Type) : Type :=
| Ok (a : A)
| Raise (e : exn).
Arguments Ok {A} a.
Arguments Raise {A} e.

Definition raises {A : Type} (r : result A) : Prop :=
  match r with Ok _ => False | Raise _ => True end.

Definition is_runtime_error {A : Type} (r : result A) : bool :=
  match r with Raise (RuntimeError _) => true | _ => false end.

Definition rbind {A B : Type} (r : result A) (k : A -> result B) : result B :=
  match r with Ok a => k a | Raise e => Raise e end.

Declare Scope result_scope.
Delimit Scope result_scope with result.
Notation "x <- r ;; k" := (rbind r (fun x => k))
  (at level 100, r at next level, right associativity) : result_scope.
Notation "e1 ;; e2" := (rbind e1 (fun _ => e2))
  (at level 100, right associativity) : result_scope.

(** ** Tensors

    A tensor is a shape and its entries in row-major order, as a contiguous
    tensor of the runtime stores them.  [permute] materialises the permuted
    tensor, so [contiguous] is the identity; [view] is only applied to
    contiguous tensors in the code modelled below. *)

Module Tensor.

Section Tensor.

Context {A : Type}.
Variable zero : A.

Record tensor : Type := Tensor {
  shape : list nat;
  data : list A
}.

Definition numel (s : list nat) : nat := fold_right Nat.mul 1%nat s.

(** The entries fill the shape. *)
Definition well_formed (t : tensor) : Prop :=
  length (data t) = numel (shape t).

(** Row-major strides of a shape. *)
Fixpoint strides (s : list nat) : list nat :=
  match s with
  | [] => []
  | _ :: s' => numel s' :: strides s'
  end.

(** The multi-indices of a shape, in row-major order. *)
Fixpoint indices (s : list nat) : list (list nat) :=
  match s with
  | [] => [[]]
  | d :: s' => flat_map (fun i => map (cons i) (indices s')) (seq 0 d)
  end.

Definition offset (st idx : list nat) : nat :=
  fold_right Nat.add 0%nat (zip_with Nat.mul st idx).

(** An index within the bounds of a shape. *)
Definition valid_index (s idx : list nat) : Prop :=
  Forall2 (fun i d => (i < d)%nat) idx s.

(** [t[idx]] *)
Definition get (t : tensor) (idx : list nat) : A :=
  nth (offset (strides (shape t)) idx) (data t) zero.

(** [th.zeros(shape)] *)
Definition zeros (s : list nat) : tensor := Tensor s (repeat zero (numel s)).

(** [t.permute(perm)]: axis [k] of the result is axis [perm[k]] of [t]. *)
Definition permute (perm : list nat) (t : tensor) : tensor :=
  let s' := map (fun a => nth a (shape t) 0%nat) perm in
  let st := map (fun a => nth a (strides (shape t)) 0%nat) perm in
  Tensor s' (map (fun idx => nth (offset st idx) (data t) zero) (indices s')).

(** [th.einsum] with an index string that only relabels the axes of one
    operand, such as ["lnhs->lsnh"]: the operand must have as many axes as
    the string has letters. *)
Definition einsum_permute (perm : list nat) (t : tensor) : result tensor :=
  if decide (length (shape t) = length perm)
  then Ok (permute perm t)
  else Raise (RuntimeError "einsum(): subscripts do not match the operand").

(** The axes [0 .. n-1] with [i] and [j] exchanged. *)
Definition swap_axes (i j n : nat) : list nat :=
  map (fun a => if decide (a = i) then j else if decide (a = j) then i else a)
      (seq 0 n).

(** [t.transpose(i, j)] *)
Definition transpose (i j : nat) (t : tensor) : result tensor :=
  let n := length (shape t) in
  if decide (i < n /\ j < n)%nat
  then Ok (permute (swap_axes i j n) t)
  else Raise (IndexError "Dimension out of range").

(** [t.contiguous()] *)
Definition contiguous (t : tensor) : tensor := t.

(** The first [k] rows of [n] entries of a list. *)
Fixpoint rows (k n : nat) (l : list A) : list (list A) :=
  match k with
  | O => []
  | S k' => take n l :: rows k' n (drop n l)
  end.

(** [th.cat([a, b], dim=-1)] *)
Definition cat_last (a b : tensor) : result tensor :=
  match shape a, shape b with
  | [], _ | _, [] =>
      Raise (RuntimeError "zero-dimensional tensor cannot be concatenated")
  | _, _ =>
      let da := removelast (shape a) in
      let db := removelast (shape b) in
      let sa := List.last (shape a) 0%nat in
      let sb := List.last (shape b) 0%nat in
      if decide (da = db)
      then Ok (Tensor (da ++ [sa + sb]%nat)
                 (concat (zip_with app (rows (numel da) sa (data a))
                                       (rows (numel da) sb (data b)))))
      else Raise (RuntimeError "Sizes of tensors must match except in dimension")
  end.

(** [t[:k]] *)
Definition slice_first (k : nat) (t : tensor) : result tensor :=
  match shape t with
  | [] => Raise (IndexError "slice() cannot be applied to a 0-dim tensor")
  | d :: s' => Ok (Tensor (Nat.min k d :: s') (take (Nat.min k d * numel s') (data t)))
  end.

(** The shape [t.view(dims)] resolves to for a tensor of [n] entries: one
    entry of [dims] may be [-1] and is inferred. *)
Definition view_shape (n : nat) (dims : list Z) : result (list nat) :=
  if decide (Exists (fun d => d < -1)%Z dims)
  then Raise (RuntimeError "invalid shape dimension")
  else
    let known := filter (fun d => d <> (-1)%Z) dims in
    let p := numel (map Z.to_nat known) in
    match (length dims - length known)%nat with
    | 0%nat =>
        if decide (p = n) then Ok (map Z.to_nat dims)
        else Raise (RuntimeError "shape is invalid for input size")
    | 1%nat =>
        if decide (p = 0)%nat
        then Raise (RuntimeError
                      "cannot reshape: the unspecified dimension is ambiguous or the shape is invalid")
        else if decide (n mod p = 0)%nat
        then Ok (map (fun d => if decide (d = (-1)%Z) then (n / p)%nat
                               else Z.to_nat d) dims)
        else Raise (RuntimeError "shape is invalid for input size")
    | _ => Raise (RuntimeError "only one dimension can be inferred")
    end.

(** [t.view(dims)] on a contiguous tensor. *)
Definition view (dims : list Z) (t : tensor) : result tensor :=
  (s <- view_shape (numel (shape t)) dims ;;
   Ok (Tensor s (data t)))%result.

(** Entry-wise operation on one tensor. *)
Definition map1 (f : A -> A) (t : tensor) : tensor :=
  Tensor (shape t) (map f (data t)).

(** Broadcasting of two shapes given last axis first: axes are matched from
    the last one, a missing axis or an axis of size one stretches. *)
Fixpoint broadcast_rev (a b : list nat) : option (list nat) :=
  match a, b with
  | [], s | s, [] => Some s
  | x :: a', y :: b' =>
      match broadcast_rev a' b' with
      | None => None
      | Some r =>
          if decide (x = y) then Some (x :: r)
          else if decide (x = 1%nat) then Some (y :: r)
          else if decide (y = 1%nat) then Some (x :: r)
          else None
      end
  end.

Definition broadcast_shape (a b : list nat) : option (list nat) :=
  match broadcast_rev (rev a) (rev b) with
  | Some r => Some (rev r)
  | None => None
  end.

(** Strides with which a tensor of shape [s] is read at the indices of the
    broadcast shape [t]: zero along the stretched axes. *)
Definition broadcast_strides (s t : list nat) : list nat :=
  (repeat 0%nat (length t - length s)
   ++ zip_with (fun d st => if decide (d = 1%nat) then 0%nat else st)
               s (strides s))%list.

(** Entry-wise operation on two tensors, with broadcasting. *)
Definition map2 (f : A -> A -> A) (a b : tensor) : result tensor :=
  match broadcast_shape (shape a) (shape b) with
  | Some s =>
      let sa := broadcast_strides (shape a) s in
      let sb := broadcast_strides (shape b) s in
      Ok (Tensor s (map (fun idx => f (nth (offset sa idx) (data a) zero)
                                      (nth (offset sb idx) (data b) zero))
                        (indices s)))
  | None =>
      Raise (RuntimeError
               "The size of tensor a must match the size of tensor b at non-singleton dimension")
  end.

(** [th.cat([a, b], dim=-2)] *)
Definition cat_penultimate (a b : tensor) : result tensor :=
  match rev (shape a), rev (shape b) with
  | ca :: ra :: la, cb :: rb :: lb =>
      if decide (ca = cb /\ la = lb)
      then Ok (Tensor (rev la ++ [ra + rb; ca]%nat)
                 (concat (zip_with app
                            (rows (numel la) (ra * ca) (data a))
                            (rows (numel la) (rb * cb) (data b)))))
      else Raise (RuntimeError "Sizes of tensors must match except in dimension")
  | _, _ => Raise (IndexError "Dimension out of range")
  end.

(** Every other entry of a list, starting with the first. *)
Fixpoint every_other (l : list A) : list A :=
  match l with
  | x :: _ :: l' => x :: every_other l'
  | [x] => [x]
  | [] => []
  end.

(** [t[..., ::2]] *)
Definition stride2_last (t : tensor) : result tensor :=
  match rev (shape t) with
  | c :: l =>
      Ok (Tensor (rev l ++ [Nat.div2 (c + 1)])
            (concat (map every_other (rows (numel l) c (data t)))))
  | [] => Raise (IndexError "too many indices for tensor of dimension 0")
  end.

(** [t[..., -1]] *)
Definition select_last (t : tensor) : result tensor :=
  match rev (shape t) with
  | O :: _ => Raise (IndexError "index -1 is out of bounds for dimension with size 0")
  | c :: l =>
      Ok (Tensor (rev l) (map (fun r => List.last r zero) (rows (numel l) c (data t))))
  | [] => Raise (IndexError "too many indices for tensor of dimension 0")
  end.

(** [t[..., None]] *)
Definition unsqueeze_last (t : tensor) : tensor :=
  Tensor (shape t ++ [1%nat]) (data t).

(** The tensor of shape [s] whose entry at index [idx] is [g idx]. *)
Definition tabulate (s : list nat) (g : list nat -> A) : tensor :=
  Tensor s (map g (indices s)).

(** [t[:, c]] *)
Definition select_axis1 (c : nat) (t : tensor) : result tensor :=
  match shape t with
  | d0 :: d1 :: s' =>
      if decide (c < d1)%nat
      then Ok (tabulate (d0 :: s')
                 (fun idx => match idx with
                             | i :: rest => get t (i :: c :: rest)
                             | [] => zero
                             end))
      else Raise (IndexError "index is out of bounds for dimension 1")
  | _ => Raise (IndexError "too many indices for tensor")
  end.

(** [t[:, None]] *)
Definition unsqueeze_axis1 (t : tensor) : result tensor :=
  match shape t with
  | d0 :: s' => Ok (Tensor (d0 :: 1%nat :: s') (data t))
  | [] => Raise (IndexError "too many indices for tensor of dimension 0")
  end.

(** [t.unsqueeze(-2)] *)
Definition unsqueeze_penultimate (t : tensor) : result tensor :=
  match rev (shape t) with
  | c :: l => Ok (Tensor (rev l ++ [1%nat; c]) (data t))
  | [] => Raise (IndexError "Dimension out of range")
  end.

(** [t[i]] *)
Definition select_first (i : nat) (t : tensor) : result tensor :=
  match shape t with
  | d :: s' =>
      if decide (i < d)%nat
      then Ok (Tensor s' (take (numel s') (drop (i * numel s') (data t))))
      else Raise (IndexError "index is out of bounds for dimension 0")
  | [] => Raise (IndexError "invalid index of a 0-dim tensor")
  end.

End Tensor.

Arguments tensor : clear implicits.
Arguments valid_index : clear implicits.

Section TwoTypes.

Context {A B C : Type}.
Variable za : A.
Variable zb : B.

(** Entry-wise conversion. *)
Definition tmap (f : A -> C) (t : tensor A) : tensor C :=
  Tensor (shape t) (map f (data t)).

(** Entry-wise combination of tensors of two entry types, with
    broadcasting. *)
Definition zip_broadcast (f : A -> B -> C) (a : tensor A) (b : tensor B)
    : result (tensor C) :=
  match broadcast_shape (shape a) (shape b) with
  | Some s =>
      let sa := broadcast_strides (shape a) s in
      let sb := broadcast_strides (shape b) s in
      Ok (Tensor s (map (fun idx => f (nth (offset sa idx) (data a) za)
                                      (nth (offset sb idx) (data b) zb))
                        (indices s)))
  | None =>
      Raise (RuntimeError
               "The size of tensor a must match the size of tensor b at non-singleton dimension")
  end.

End TwoTypes.

(** [t[lo:hi]] *)
Definition slice_rows {A : Type} (lo hi : nat) (t : tensor A) : result (tensor A) :=
  match shape t with
  | d :: s' =>
      let lo' := Nat.min lo d in
      let n := (Nat.min hi d - lo')%nat in
      Ok (Tensor (n :: s') (take (n * numel s') (drop (lo' * numel s') (data t))))
  | [] => Raise (IndexError "slice() cannot be applied to a 0-dim tensor")
  end.

End Tensor.

Abbreviation rtensor := (Tensor.tensor R).

Definition Rsum (l : list R) : R := fold_right Rplus 0%R l.

(** ** Single-precision numbers

    The numeric code of [aps/task/unsuper.py] and [aps/sep/enh/phasen.py]
    is modelled on IEEE 754 binary32 values, the default tensor type of the
    runtime: precision 24, maximal exponent 128, operations rounded to
    nearest even as [Stdlib.Floats.SpecFloat] specifies them.  A value is a
    zero, an infinity, NaN, or [(-1)^s * m * 2^e]. *)

Module F32.

Definition prec : Z := 24.
Definition emax : Z := 128.

Definition t : Type := spec_float.

Definition add : t -> t -> t := SFadd prec emax.
Definition sub : t -> t -> t := SFsub prec emax.
Definition mul : t -> t -> t := SFmul prec emax.
Definition div : t -> t -> t := SFdiv prec emax.
Definition sqrt : t -> t := SFsqrt prec emax.
Definition opp : t -> t := SFopp.
Definition ltb : t -> t -> bool := SFltb.
Definition leb : t -> t -> bool := SFleb.

Definition is_nan (x : t) : bool :=
  match x with S754_nan => true | _ => false end.

Definition is_finite (x : t) : bool :=
  match x with S754_zero _ | S754_finite _ _ _ => true | _ => false end.

Definition zero : t := S754_zero false.
Definition nan : t := S754_nan.

(** The value an integer is converted to. *)
Definition of_Z (z : Z) : t := binary_normalize prec emax z 0 false.

Definition one : t := of_Z 1.
Definition two : t := of_Z 2.

(** The values a binary32 variable can hold: a finite one has its mantissa
    in canonical position and its exponent within the range. *)
Definition valid (x : t) : bool := valid_binary prec emax x.

(** Values whose sign bit is clear, and NaN. *)
Definition nonneg_or_nan (x : t) : Prop :=
  match x with
  | S754_zero s | S754_infinity s | S754_finite s _ _ => s = false
  | S754_nan => True
  end.

(** A positive number, finite or infinite, whose exponent is not below the
    least exponent [3 - emax - prec = -149] of the format. *)
Definition positive_number (x : t) : Prop :=
  match x with
  | S754_finite false _ e => (-149 <= e)%Z
  | S754_infinity false => True
  | _ => False
  end.

End F32.

Abbreviation ftensor := (Tensor.tensor F32.t).

(** [torch_complex.tensor.ComplexTensor] over single-precision entries. *)
Module ComplexTensor32.

Record t : Type := Complex {
  real : ftensor;
  imag : ftensor
}.

(** [x.shape] *)
Definition shape (x : t) : list nat := Tensor.shape (real x).

(** [x.transpose(i, j)] *)
Definition transpose (i j : nat) (x : t) : result t :=
  (r <- Tensor.transpose F32.zero i j (real x) ;;
   m <- Tensor.transpose F32.zero i j (imag x) ;;
   Ok (Complex r m))%result.

End ComplexTensor32.

(** ** aps/asr/transformer/impl.py *)

Module Impl.

Import Tensor.

(** The activation modules of the runtime. *)
Inductive activation_fn : Type := ReLU | GELU.

Definition _get_activation_fn (activation : string) : result activation_fn :=
  if decide (activation = "relu") then Ok ReLU
  else if decide (activation = "gelu") then Ok GELU
  else Raise (RuntimeError ("activation should be relu/gelu, not " ++ activation)).

Section RelShift.

Context {A : Type}.
Variable zero : A.

(** [XlMultiheadAttention._rel_shift] *)
Definition _rel_shift (rel_pos : tensor A) : result (tensor A) :=
  match shape rel_pos with
  | [L; N; H; S_] =>
      (let zero_pad := zeros zero [L; N; H; 1%nat] in
       (* L x N x H x S+1 *)
       rel_pos_pad <- cat_last rel_pos zero_pad ;;
       (* L x S+1 x N x H *)
       rel_pos_pad <- einsum_permute zero [0; 3; 1; 2]%nat rel_pos_pad ;;
       let rel_pos_pad := contiguous rel_pos_pad in
       (* S+1 x L x N x H *)
       rel_pos_pad <-
         view [Z.of_nat (S_ + 1); Z.of_nat L; Z.of_nat N; Z.of_nat H] rel_pos_pad ;;
       rel_pos_pad <- slice_first 1 rel_pos_pad ;;
       (* S x L x N x H *)
       rel_pos_pad <- einsum_permute zero [1; 2; 3; 0]%nat rel_pos_pad ;;
       Ok (contiguous rel_pos_pad))%result
  | _ => Raise (ValueError "not enough or too many values to unpack (expected 4)")
  end.

End RelShift.

(** *** [ApsMultiheadAttention] *)

(** The values of a logit and of an additive mask: a real number, an
    infinity or NaN.  The arithmetic of numbers is exact; the infinities and
    NaN combine as the floating-point values of the runtime do. *)
Inductive score : Type :=
| Finite (r : R)
| NegInf
| PosInf
| SNaN.

Definition score_add (a b : score) : score :=
  match a, b with
  | Finite x, Finite y => Finite (x + y)
  | SNaN, _ | _, SNaN => SNaN
  | NegInf, PosInf | PosInf, NegInf => SNaN
  | NegInf, _ | _, NegInf => NegInf
  | PosInf, _ | _, PosInf => PosInf
  end.

(** [x / d**0.5] for a real [x] and an integer [d] that is not negative:
    the division by [0.0] gives an infinity, and NaN for [0 / 0.0]. *)
Definition scale (d : Z) (x : R) : score :=
  if decide (0 < d)%Z then Finite (x / sqrt (IZR d))
  else if Rlt_dec 0 x then PosInf
  else if Rlt_dec x 0 then NegInf
  else SNaN.

(** The values of the weights and of the context: a real number or NaN. *)
Inductive val : Type :=
| Num (r : R)
| NaN.

Definition vadd (a b : val) : val :=
  match a, b with
  | Num x, Num y => Num (x + y)
  | _, _ => NaN
  end.

(** The product with a real number. *)
Definition vscale (a : val) (c : R) : val :=
  match a with
  | Num x => Num (x * c)
  | NaN => NaN
  end.

Definition Vsum (l : list val) : val := fold_right vadd (Num 0) l.

(** The number a value holds, zero standing for NaN. *)
Definition number (a : val) : R :=
  match a with
  | Num x => x
  | NaN => 0%R
  end.

(** The quotient by a count; [0 / 0] is NaN. *)
Definition vdiv (a : val) (n : nat) : val :=
  match a with
  | Num x => if decide (n = 0%nat) then NaN else Num (x / INR n)
  | NaN => NaN
  end.

Definition is_neg_inf (a : score) : bool :=
  match a with NegInf => true | _ => false end.

Definition is_number_or_neg_inf (a : score) : bool :=
  match a with Finite _ | NegInf => true | _ => false end.

(** The exponential of an entry of a row of numbers and [-inf]. *)
Definition score_exp (a : score) : R :=
  match a with
  | Finite x => exp x
  | _ => 0%R
  end.

(** [th.softmax] of one row: [exp(a - m) / sum(exp(a' - m))] for the largest
    entry [m] of the row.  When [m] is a number this is
    [exp(a) / sum(exp(a'))]; when the row holds NaN or [+inf], or nothing
    but [-inf], the differences [a - m] are NaN and so is the whole row. *)
Definition softmax_row (l : list score) : list val :=
  if forallb is_number_or_neg_inf l && negb (forallb is_neg_inf l)
  then let z := Rsum (map score_exp l) in
       map (fun a => Num (score_exp a / z)%R) l
  else map (fun _ => NaN) l.

(** [th.softmax(t, dim=-1)] *)
Definition softmax_last (t : tensor score) : result (tensor val) :=
  match rev (shape t) with
  | c :: lead =>
      Ok (Tensor (shape t) (concat (map softmax_row (rows (numel lead) c (data t)))))
  | [] => Raise (IndexError "Dimension out of range")
  end.

(** [tf.linear(x, W, b)]: [x @ W.T + b] *)
Definition linear (x W : rtensor) (b : option rtensor) : result rtensor :=
  match rev (shape x), shape W with
  | i :: lead, [o; i'] =>
      if decide (i <> i')
      then Raise (RuntimeError "mat1 and mat2 shapes cannot be multiplied")
      else
        let y :=
          Tensor (rev lead ++ [o])
            (concat
               (map (fun r =>
                       map (fun k =>
                              Rsum (zip_with Rmult r (take i (drop (k * i) (data W)))))
                           (seq 0 o))
                    (rows (numel lead) i (data x)))) in
        match b with
        | None => Ok y
        | Some b => map2 0%R Rplus y b
        end
  | _, _ => Raise (RuntimeError "linear(): the operands cannot be multiplied")
  end.

(** [tf.linear(x, W, b)] for an [x] whose entries may be NaN. *)
Definition vlinear (x : tensor val) (W : rtensor) (b : option rtensor)
    : result (tensor val) :=
  match rev (shape x), shape W with
  | i :: lead, [o; i'] =>
      if decide (i <> i')
      then Raise (RuntimeError "mat1 and mat2 shapes cannot be multiplied")
      else
        let y :=
          Tensor (rev lead ++ [o])
            (concat
               (map (fun r =>
                       map (fun k =>
                              Vsum (zip_with vscale r (take i (drop (k * i) (data W)))))
                           (seq 0 o))
                    (rows (numel lead) i (data x)))) in
        match b with
        | None => Ok y
        | Some b => zip_broadcast (Num 0) 0%R (fun v c => vadd v (Num c)) y b
        end
  | _, _ => Raise (RuntimeError "linear(): the operands cannot be multiplied")
  end.

(** The position a bound [i] of a slice stands for on an axis of size [d]:
    a negative bound counts from the end, and bounds are clipped. *)
Definition slice_bound (i : Z) (d : nat) : nat :=
  Z.to_nat (if decide (i < 0)%Z then Z.max (i + Z.of_nat d) 0
            else Z.min i (Z.of_nat d)).

(** [t[slice(lo, hi)]] *)
Definition slice {A : Type} (lo hi : Z) (t : tensor A) : result (tensor A) :=
  match shape t with
  | d :: _ => slice_rows (slice_bound lo d) (slice_bound hi d) t
  | [] => Raise (IndexError "slice() cannot be applied to a 0-dim tensor")
  end.

(** [p[slice(lo, hi)]] for a parameter that may be [None]. *)
Definition subscript (p : option rtensor) (lo hi : Z) : result rtensor :=
  match p with
  | Some t => slice lo hi t
  | None => Raise (TypeError "'NoneType' object is not subscriptable")
  end.

(** Sizes of one einsum label in two operands: equal, or one of them 1. *)
Definition bdim (a b : nat) : option nat :=
  if decide (a = b) then Some a
  else if decide (a = 1%nat) then Some b
  else if decide (b = 1%nat) then Some a
  else None.

Definition bidx (d i : nat) : nat := if decide (d = 1%nat) then 0%nat else i.

(** [th.einsum("lnhd,snhd->lnhs", q, k)] *)
Definition einsum_lnhd_snhd (q k : rtensor) : result rtensor :=
  match shape q, shape k with
  | [L; N; H; D], [S_; N'; H'; D'] =>
      match bdim N N', bdim H H', bdim D D' with
      | Some n, Some h, Some d =>
          Ok (tabulate [L; n; h; S_]
                (fun idx =>
                   match idx with
                   | [l; a; b; s] =>
                       Rsum (map (fun c =>
                               (get 0 q [l; bidx N a; bidx H b; bidx D c]
                                * get 0 k [s; bidx N' a; bidx H' b; bidx D' c])%R)
                               (seq 0 d))
                   | _ => 0%R
                   end))
      | _, _, _ => Raise (RuntimeError "einsum(): operands do not broadcast")
      end
  | _, _ => Raise (RuntimeError "einsum(): subscripts do not match the operands")
  end.

(** [th.einsum("lnhs,snhd->lnhd", weight, value)] *)
Definition einsum_lnhs_snhd (w : tensor val) (v : rtensor) : result (tensor val) :=
  match shape w, shape v with
  | [L; N; H; S_], [S'; N'; H'; D] =>
      match bdim N N', bdim H H', bdim S_ S' with
      | Some n, Some h, Some s =>
          Ok (tabulate [L; n; h; D]
                (fun idx =>
                   match idx with
                   | [l; a; b; d] =>
                       Vsum (map (fun c =>
                               vscale (get (Num 0) w [l; bidx N a; bidx H b; bidx S_ c])
                                      (get 0%R v [bidx S' c; bidx N' a; bidx H' b; d]))
                               (seq 0 s))
                   | _ => Num 0
                   end))
      | _, _, _ => Raise (RuntimeError "einsum(): operands do not broadcast")
      end
  | _, _ => Raise (RuntimeError "einsum(): subscripts do not match the operands")
  end.

(** [mask[None, :, None, :]] *)
Definition index_none_colon_none_colon {A : Type} (m : tensor A) : result (tensor A) :=
  match shape m with
  | [a; b] => Ok (Tensor [1%nat; a; 1%nat; b] (data m))
  | _ => Raise (IndexError "too many indices for tensor")
  end.

(** [mask[:, None, None, :]] *)
Definition index_colon_none_none_colon {A : Type} (m : tensor A) : result (tensor A) :=
  match shape m with
  | [a; b] => Ok (Tensor [a; 1%nat; 1%nat; b] (data m))
  | _ => Raise (IndexError "too many indices for tensor")
  end.

(** [t.masked_fill(mask, v)]: the mask is broadcast to the shape of [t]. *)
Definition masked_fill (t : tensor score) (mask : tensor bool) (v : score)
    : result (tensor score) :=
  (r <- zip_broadcast NegInf false (fun x (m : bool) => if m then v else x) t mask ;;
   if decide (shape r = shape t) then Ok r
   else Raise (RuntimeError "mask is not broadcastable to the tensor"))%result.

(** [t += m]: in place, so [m] is broadcast to the shape of [t]. *)
Definition add_ (t m : tensor score) : result (tensor score) :=
  (r <- zip_broadcast NegInf NegInf score_add t m ;;
   if decide (shape r = shape t) then Ok r
   else Raise (RuntimeError "output with shape doesn't match the broadcast shape"))%result.

(** [t.mean(-2)] *)
Definition mean_penultimate (t : tensor val) : result (tensor val) :=
  match rev (shape t) with
  | c :: h :: lead =>
      Ok (tabulate (rev lead ++ [c])
            (fun idx =>
               vdiv (Vsum (map (fun j => get (Num 0) t
                                           (removelast idx ++ [j; List.last idx 0%nat]))
                               (seq 0 h)))
                    h))
  | _ => Raise (IndexError "Dimension out of range")
  end.

(** [t.size(0)] *)
Definition size0 {A : Type} (t : tensor A) : result nat :=
  match shape t with
  | d :: _ => Ok d
  | [] => Raise (IndexError "Dimension specified as 0 but tensor has no dimensions")
  end.

Module ApsMultiheadAttention.

Record t : Type := Make {
  embed_dim : Z;
  num_heads : Z;
  head_dim : Z;
  in_proj_weight : rtensor;
  in_proj_bias : option rtensor;
  out_proj_weight : rtensor;
  out_proj_bias : rtensor;
  dropout_p : float;
  training : bool
}.

(** The test of [nn.Dropout] and of [tf.dropout] on the probability. *)
Definition bad_probability (p : float) : bool :=
  ((p <? 0) || (1 <? p))%float.

Section Init.

(** The random initial values: [nn.init.xavier_uniform_] for a matrix of the
    given size, and the weight and bias [nn.Linear] draws. *)
Variable xavier_uniform_ : nat -> nat -> list R.
Variable linear_init : nat -> nat -> list R * list R.

(** Lines 28-47.  [//] rounds towards minus infinity, as [Z.div] does;
    [th.empty] rejects a negative size; [xavier_uniform_] divides by
    [fan_in + fan_out], which is zero for an empty matrix; [nn.Dropout]
    rejects a probability outside [0, 1] (its message ends with the
    value). *)
Definition __init__ (embed_dim num_heads : Z) (dropout : float) (bias : bool)
    : result t :=
  if decide (num_heads = 0)%Z
  then Raise (ZeroDivisionError "integer division or modulo by zero")
  else
    let head_dim := (embed_dim / num_heads)%Z in
    if decide (head_dim * num_heads <> embed_dim)%Z
    then Raise (AssertionError "embed_dim must be divisible by num_heads")
    else if decide (embed_dim < 0)%Z
    then Raise (RuntimeError
                  ("Trying to create tensor with negative dimension "
                   ++ pretty (3 * embed_dim)%Z ++ ": ["
                   ++ pretty (3 * embed_dim)%Z ++ ", " ++ pretty embed_dim ++ "]"))
    else if decide (embed_dim = 0)%Z
    then Raise (ZeroDivisionError "float division by zero")
    else
      let E := Z.to_nat embed_dim in
      let in_proj_weight :=
        Tensor [(3 * E)%nat; E] (xavier_uniform_ (3 * E) E) in
      let in_proj_bias :=
        if bias then Some (zeros 0%R [(3 * E)%nat]) else None in
      let out := linear_init E E in
      if bad_probability dropout
      then Raise (ValueError "dropout probability has to be between 0 and 1")
      else
        Ok (Make embed_dim num_heads head_dim in_proj_weight in_proj_bias
                 (Tensor [E; E] (fst out))
                 (Tensor [E] (snd out))
                 dropout true).

End Init.

Section Forward.

(** What [nn.Dropout] does to its input when it is active (training mode,
    non-zero probability, an input that is not empty): it draws a random
    mask. *)
Variable drop : float -> tensor val -> tensor val.

Variable self : t.

(** [self.dropout(x)] *)
Definition dropout (x : tensor val) : result (tensor val) :=
  if bad_probability (dropout_p self)
  then Raise (ValueError "dropout probability has to be between 0 and 1")
  else if (dropout_p self =? 0)%float || negb (training self)
          || (numel (shape x) =? 0)%nat
  then Ok x
  else Ok (drop (dropout_p self) x).

(** [_proj(base, mat)] of [inp_proj] *)
Definition _proj (base : Z) (mat : rtensor) : result rtensor :=
  let lo := (base * embed_dim self)%Z in
  let hi := ((base + 1) * embed_dim self)%Z in
  (W <- slice lo hi (in_proj_weight self) ;;
   b <- subscript (in_proj_bias self) lo hi ;;
   mat <- linear mat W (Some b) ;;
   n <- size0 mat ;;
   view [Z.of_nat n; (-1)%Z; num_heads self; head_dim self] mat)%result.

(** [inp_proj([query, key, value])], unpacked *)
Definition inp_proj (query key value : rtensor)
    : result (rtensor * rtensor * rtensor) :=
  (q <- _proj 0 query ;;
   k <- _proj 1 key ;;
   v <- _proj 2 value ;;
   Ok (q, k, v))%result.

(** Lines 65-90.  For a negative [head_dim] the scale [head_dim**0.5] is a
    complex number and so are the logits, which [th.softmax] rejects once
    the masks have been applied. *)
Definition context_weight (logit value : rtensor)
    (key_padding_mask : option (tensor bool))
    (attn_mask : option (tensor score)) : result (tensor val * tensor val) :=
  (let logit := tmap (scale (head_dim self)) logit in
   logit <- match key_padding_mask with
            | Some m => (m <- index_none_colon_none_colon m ;;
                         masked_fill logit m NegInf)
            | None => Ok logit
            end ;;
   logit <- match attn_mask with
            | Some m => (m <- index_colon_none_none_colon m ;; add_ logit m)
            | None => Ok logit
            end ;;
   (* L x N x H x S *)
   w <- (if decide (head_dim self < 0)%Z
         then Raise (RuntimeError "softmax is not implemented for complex tensors")
         else softmax_last logit) ;;
   weight <- dropout w ;;
   (* L x N x H x D *)
   context <- einsum_lnhs_snhd weight value ;;
   Ok (context, weight))%result.

Definition wrap_out (context weight : tensor val) : result (tensor val * tensor val) :=
  match shape context with
  | [L; _; _; _] =>
      ((* L x N x HD *)
       context <- view [Z.of_nat L; (-1)%Z; embed_dim self] (contiguous context) ;;
       (* L x N x E *)
       context <- vlinear context (out_proj_weight self) (Some (out_proj_bias self)) ;;
       (* L x N x S => N x L x S *)
       weight <- mean_penultimate weight ;;
       weight <- transpose (Num 0) 0 1 weight ;;
       Ok (context, weight))%result
  | _ => Raise (ValueError "not enough or too many values to unpack (expected 4)")
  end.

Definition forward (query key value : rtensor)
    (key_padding_mask : option (tensor bool))
    (attn_mask : option (tensor score)) : result (tensor val * tensor val) :=
  (qkv <- inp_proj query key value ;;
   let query := fst (fst qkv) in
   let key := snd (fst qkv) in
   let value := snd qkv in
   (* L x N x H x S *)
   logit <- einsum_lnhd_snhd query key ;;
   cw <- context_weight logit value key_padding_mask attn_mask ;;
   wrap_out (fst cw) (snd cw))%result.

End Forward.

End ApsMultiheadAttention.

(** *** The masks: [padding_mask] and [prep_sub_mask] *)

(** [vec.max()] *)
Definition tensor_max (vec : tensor Z) : result Z :=
  match data vec with
  | [] =>
      Raise (RuntimeError
               "max(): Expected reduction dim to be specified for input.numel() == 0")
  | v :: vs => Ok (fold_right Z.max v vs)
  end.

(** [th.arange(M)] *)
Definition arange (M : Z) : result (tensor Z) :=
  if decide (M < 0)%Z
  then Raise (RuntimeError "upper bound and larger bound inconsistent with step sign")
  else Ok (Tensor [Z.to_nat M] (map Z.of_nat (seq 0 (Z.to_nat M)))).

(** [t.repeat([n, 1])] *)
Definition repeat_rows (n : nat) (t : tensor Z) : result (tensor Z) :=
  match shape t with
  | [] => Ok (Tensor [n; 1%nat] (concat (repeat (data t) n)))
  | [m] => Ok (Tensor [n; m] (concat (repeat (data t) n)))
  | [r; m] => Ok (Tensor [(n * r)%nat; m] (concat (repeat (data t) n)))
  | _ =>
      Raise (RuntimeError
               "Number of dimensions of repeat dims can not be smaller than number of dimensions of tensor")
  end.

(** [padding_mask(vec)]: [True] marks the padded positions. *)
Definition padding_mask (vec : tensor Z) : result (tensor bool) :=
  (let N := numel (shape vec) in
   M <- tensor_max vec ;;
   ar <- arange M ;;
   templ <- repeat_rows N ar ;;
   v <- unsqueeze_axis1 vec ;;
   zip_broadcast 0%Z 0%Z Z.geb templ v)%result.

(** [th.ones(dims)] *)
Definition ones (dims : list Z) : result rtensor :=
  if decide (Exists (fun d => d < 0)%Z dims)
  then Raise (RuntimeError "Trying to create tensor with negative dimension")
  else Ok (Tensor (map Z.to_nat dims) (repeat 1%R (numel (map Z.to_nat dims)))).

(** [th.triu(t, diagonal=k)]: the entries below the [k]-th diagonal of each
    matrix are replaced by zero. *)
Definition triu (k : nat) (t : rtensor) : result rtensor :=
  let n := length (shape t) in
  if decide (2 <= n)%nat
  then Ok (tabulate (shape t)
             (fun idx =>
                if decide (nth (n - 2) idx 0 + k <= nth (n - 1) idx 0)%nat
                then get 0%R t idx else 0%R))
  else Raise (RuntimeError "triu: input tensor must have at least 2 dimensions").

(** [t == v] *)
Definition eq_scalar (v : R) (t : rtensor) : tensor bool :=
  tmap (fun x => if Req_dec_T x v then true else false) t.

(** [t.float()] for a tensor of booleans *)
Definition to_float (t : tensor bool) : rtensor :=
  tmap (fun b : bool => if b then 1%R else 0%R) t.

(** [prep_sub_mask(T)]: the additive mask that hides the later positions. *)
Definition prep_sub_mask (T : Z) : result (tensor score) :=
  (o <- ones [T; T] ;;
   u <- triu 1 o ;;
   let mask := to_float (eq_scalar 1%R u) in
   masked_fill (tmap Finite mask) (eq_scalar 1%R mask) NegInf)%result.

(** The parameters of a layer have the sizes the constructor gives them
    when it is called with [bias=True], an embedding size [E] and [H] heads
    of size [D]. *)
Definition sized (self : ApsMultiheadAttention.t) (E H D : nat) : Prop :=
  ApsMultiheadAttention.embed_dim self = Z.of_nat E /\
  ApsMultiheadAttention.num_heads self = Z.of_nat H /\
  ApsMultiheadAttention.head_dim self = Z.of_nat D /\
  E = (H * D)%nat /\
  shape (ApsMultiheadAttention.in_proj_weight self) = [(3 * E)%nat; E] /\
  (exists b, ApsMultiheadAttention.in_proj_bias self = Some b /\
             shape b = [(3 * E)%nat]) /\
  shape (ApsMultiheadAttention.out_proj_weight self) = [E; E] /\
  shape (ApsMultiheadAttention.out_proj_bias self) = [E].

(** Dropout leaves its input as it is: the probability is zero, or it is
    within [0, 1] and the layer is in evaluation mode. *)
Definition dropout_inactive (self : ApsMultiheadAttention.t) : Prop :=
  ApsMultiheadAttention.bad_probability (ApsMultiheadAttention.dropout_p self) = false /\
  ((ApsMultiheadAttention.dropout_p self =? 0)%float = true \/
   ApsMultiheadAttention.training self = false).

(** Key position [s] is hidden from query position [l] of utterance [n]:
    the key padding mask is [True] there, or the additive mask is [-inf]. *)
Definition hidden (key_padding_mask : option (tensor bool))
    (attn_mask : option (tensor score)) (l n s : nat) : Prop :=
  match key_padding_mask with
  | Some m => get false m [n; s] = true
  | None => False
  end \/
  match attn_mask with
  | Some a => get NegInf a [l; s] = NegInf
  | None => False
  end.

(** The additive mask holds numbers and [-inf] on the first [S_] keys of
    query position [l]. *)
Definition additive (attn_mask : option (tensor score)) (l S_ : nat) : Prop :=
  match attn_mask with
  | Some a =>
      forall s, (s < S_)%nat -> is_number_or_neg_inf (get NegInf a [l; s]) = true
  | None => True
  end.

End Impl.

(** ** Complex tensors (torch_complex.tensor.ComplexTensor) and modules *)

Module ComplexTensor.

Import Tensor.

Record t : Type := Complex {
  real : rtensor;
  imag : rtensor
}.

(** [x.shape] *)
Definition shape (x : t) : list nat := Tensor.shape (real x).

(** [x.transpose(i, j)] *)
Definition transpose (i j : nat) (x : t) : result t :=
  (r <- Tensor.transpose 0%R i j (real x) ;;
   m <- Tensor.transpose 0%R i j (imag x) ;;
   Ok (Complex r m))%result.

(** [x.contiguous()] *)
Definition contiguous (x : t) : t :=
  Complex (Tensor.contiguous (real x)) (Tensor.contiguous (imag x)).

(** [x.view(dims)] *)
Definition view (dims : list Z) (x : t) : result t :=
  (r <- Tensor.view dims (real x) ;;
   m <- Tensor.view dims (imag x) ;;
   Ok (Complex r m))%result.

End ComplexTensor.

(** What a Python caller may hand to a layer. *)
Inductive pyobj : Type :=
| PyComplexTensor (x : ComplexTensor.t)
| PyTensor (x : rtensor).

Definition type_name (x : pyobj) : string :=
  match x with
  | PyComplexTensor _ => "<class 'torch_complex.tensor.ComplexTensor'>"
  | PyTensor _ => "<class 'torch.Tensor'>"
  end.

(** A layer of the runtime: something with a [forward] on real tensors. *)
Class NNModule (M : Type) : Type :=
  module_forward : M -> rtensor -> result rtensor.

(** ** aps/asr/enh/conv.py *)

Module Conv.

Import Tensor.

(** [torch.nn.Conv1d] with stride 1, no padding and no bias, as the
    front-ends build it.  [in_channels], [out_channels] and [kernel_size]
    are the attributes the constructor records; [forward] passes the weight
    (out_channels x in_channels/groups x kernel_size) and [groups] to the
    convolution, which reads the sizes off the weight.  [data_attr] is the
    attribute [data] that [TimeInvariantEnh.__init__] sets on the layer. *)
Module Conv1d.

Record t : Type := Make {
  in_channels : nat;
  out_channels : nat;
  kernel_size : nat;
  groups : nat;
  weight : rtensor;
  data_attr : option rtensor
}.

Definition entry (m : t) (x : rtensor) (b o k : nat) : R :=
  match shape (weight m) with
  | [oc; ipg; ks] =>
      let opg := (oc / groups m)%nat in
      Rsum (map (fun c =>
              Rsum (map (fun j =>
                      (get 0 (weight m) [o; c; j]
                       * get 0 x [b; (o / opg * ipg + c)%nat; (k + j)%nat])%R)
                      (seq 0 ks)))
              (seq 0 ipg))
  | _ => 0%R
  end.

Definition forward (m : t) (x : rtensor) : result rtensor :=
  match shape (weight m), shape x with
  | [oc; ipg; ks], [n; c; l] =>
      if decide (groups m = 0%nat \/ (oc mod groups m)%nat <> 0%nat)
      then Raise (RuntimeError
                    ("Given groups=" ++ pretty (groups m)
                     ++ ", expected weight to be divisible by "
                     ++ pretty (groups m) ++ " at dimension 0"))
      else if decide (c <> (ipg * groups m)%nat)
      then Raise (RuntimeError
                    ("Given groups=" ++ pretty (groups m)
                     ++ ", expected input to have " ++ pretty (ipg * groups m)%nat
                     ++ " channels, but got " ++ pretty c
                     ++ " channels instead"))
      else if decide (l < ks)%nat
      then Raise (RuntimeError
                    "Kernel size can't be greater than actual input size")
      else
        let s := [n; oc; (l - ks + 1)%nat] in
        Ok (Tensor s (map (fun idx =>
                             match idx with
                             | [b; o; k] => entry m x b o k
                             | _ => 0%R
                             end) (indices s)))
  | _, _ => Raise (RuntimeError "Expected 3-dimensional input for 3-dimensional weight")
  end.

#[global] Instance nn_module : NNModule t := forward.

End Conv1d.

(** [torch.nn.Linear] without bias.  [in_features] and [out_features] are
    the attributes the constructor records; [forward] multiplies by the
    weight as it is (out x in, or a vector of length in), whatever these
    attributes say. *)
Module Linear.

Record t : Type := Make {
  in_features : nat;
  out_features : nat;
  weight : rtensor
}.

Definition forward (m : t) (x : rtensor) : result rtensor :=
  match shape (weight m), rev (shape x) with
  | [o; k], i :: l =>
      if decide (i <> k)
      then Raise (RuntimeError "mat1 and mat2 shapes cannot be multiplied")
      else
        Ok (Tensor (rev l ++ [o])
              (concat
                 (map (fun r =>
                         map (fun j =>
                                Rsum (zip_with Rmult r
                                        (take i (drop (j * i) (data (weight m))))))
                             (seq 0 o))
                      (rows (numel l) i (data x)))))
  | [k], i :: l =>
      if decide (i <> k)
      then Raise (RuntimeError "size mismatch")
      else
        Ok (Tensor (rev l)
              (map (fun r => Rsum (zip_with Rmult r (data (weight m))))
                   (rows (numel l) i (data x))))
  | [_; _], [] | [_], [] =>
      Raise (RuntimeError "both arguments to matmul need to be at least 1D")
  | _, _ => Raise (RuntimeError "t() expects a tensor with <= 2 dimensions")
  end.

#[global] Instance nn_module : NNModule t := forward.

End Linear.

(** [torch.nn.BatchNorm2d].  The normalisation itself, with the statistics
    it keeps, is a function of the layer. *)
Module BatchNorm2d.

Record t : Type := Make {
  num_features : nat;
  training : bool;
  normalize : rtensor -> list R
}.

Definition forward (m : t) (x : rtensor) : result rtensor :=
  match shape x with
  | [n; c; h; w] =>
      if decide (c <> num_features m)
      then Raise (RuntimeError
                    ("running_mean should contain " ++ pretty c
                     ++ " elements not " ++ pretty (num_features m)))
      else if training m && (n * h * w <=? 1)%nat
      then Raise (ValueError "Expected more than 1 value per channel when training")
      else Ok (Tensor (shape x) (normalize m x))
  | _ => Raise (ValueError "expected 4D input")
  end.

#[global] Instance nn_module : NNModule t := forward.

End BatchNorm2d.

(** What [ComplexConvXd.forward] returns: a complex tensor, or the
    magnitude when [add_abs] is set. *)
Inductive conv_out : Type :=
| OutComplex (c : ComplexTensor.t)
| OutReal (m : rtensor).

Module ComplexConvXd.

Record t (M : Type) : Type := Make {
  real : M;
  imag : M
}.
Arguments Make {M} real imag.
Arguments real {M} _.
Arguments imag {M} _.

Definition forward {M : Type} `{NNModule M}
    (self : t M) (x : pyobj) (add_abs : bool) (eps : R) : result conv_out :=
  match x with
  | PyComplexTensor x =>
      let xr := ComplexTensor.real x in
      let xi := ComplexTensor.imag x in
      (rr <- module_forward (real self) xr ;;
       ii <- module_forward (imag self) xi ;;
       br <- map2 0%R Rminus rr ii ;;
       ri <- module_forward (real self) xi ;;
       ir <- module_forward (imag self) xr ;;
       bi <- map2 0%R Rplus ri ir ;;
       if negb add_abs
       then Ok (OutComplex (ComplexTensor.Complex br bi))
       else
         sq <- map2 0%R Rplus (map1 (fun v => v ^ 2)%R br)
                              (map1 (fun v => v ^ 2)%R bi) ;;
         Ok (OutReal (map1 sqrt (map1 (fun v => v + eps)%R sq))))%result
  | _ =>
      Raise (RuntimeError
               ("Expect ComplexTensor object, got " ++ type_name x ++ " instead"))
  end.

End ComplexConvXd.

Module TimeInvariantEnh.

(** The keyword arguments of the constructor. *)
Record kwargs : Type := Kwargs {
  num_bins : Z;
  weight : option string;
  num_channels : Z;
  spatial_filters : Z;
  spectra_filters : Z;
  spectra_init : string;
  batchnorm : bool;
  apply_log : bool
}.

Definition defaults : kwargs :=
  Kwargs 257 None 4 8 80 "random" true true.

Record t : Type := Make {
  conv : ComplexConvXd.t Conv1d.t;
  proj : Linear.t;
  norm : option BatchNorm2d.t;
  B : Z;
  C : Z;
  log_applied : bool
}.

(** [bool(weight)] for a path that may be [None]. *)
Definition path_given (w : option string) : bool :=
  match w with
  | Some p => negb (bool_decide (p = ""))
  | None => false
  end.

(** [w.shape[i]] *)
Definition shape_at (w : rtensor) (i : nat) : result Z :=
  match shape w !! i with
  | Some d => Ok (Z.of_nat d)
  | None => Raise (IndexError "tuple index out of range")
  end.

Section Init.

(** Constructors of the runtime's layers (their weights are drawn at
    random), the deserialiser, the mel filter bank of
    aps/transform/utils.py, and [view] on a tensor that is not contiguous,
    which succeeds or not depending on its strides. *)
Variable new_Conv1d : Z -> Z -> Z -> Z -> result Conv1d.t.
Variable new_Linear : Z -> Z -> result Linear.t.
Variable new_BatchNorm2d : Z -> result BatchNorm2d.t.
Variable th_load : string -> result rtensor.
Variable init_melfilter : Z -> result rtensor.
Variable strided_view : list Z -> rtensor -> result rtensor.

(** Lines 81-97: the pretrained filters. *)
Definition load_weight (a : kwargs) (conv : ComplexConvXd.t Conv1d.t)
    : result (ComplexConvXd.t Conv1d.t) :=
  (w <- th_load (default "" (weight a)) ;;
   b <- shape_at w 1 ;;
   if decide (b <> spatial_filters a)
   then Raise (RuntimeError
                 ("Number of beam got from " ++ pretty b
                  ++ " don't match parameter " ++ pretty (spatial_filters a)))
   else
     c <- shape_at w 2 ;;
     if decide (c <> num_channels a)
     then Raise (RuntimeError
                   ("Number of channels got from " ++ pretty c
                    ++ " don't match parameter " ++ pretty (num_channels a)))
     else
       let n := length (shape w) in
       w <- transpose 0%R (n - 1) (n - 2) w ;;
       w <- strided_view [2; -1; 1; num_channels a]%Z w ;;
       w0 <- select_first 0 w ;;
       let re := ComplexConvXd.real conv in
       let re := Conv1d.Make (Conv1d.in_channels re) (Conv1d.out_channels re)
                   (Conv1d.kernel_size re) (Conv1d.groups re)
                   (Conv1d.weight re) (Some w0) in
       w1 <- select_first 1 w ;;
       let im := ComplexConvXd.imag conv in
       let im := Conv1d.Make (Conv1d.in_channels im) (Conv1d.out_channels im)
                   (Conv1d.kernel_size im) (Conv1d.groups im)
                   (Conv1d.weight im) (Some w1) in
       Ok (ComplexConvXd.Make re im))%result.

Definition __init__ (a : kwargs) : result t :=
  if negb (bool_decide (spectra_init a ∈ ["mel"; "random"]))
  then Raise (ValueError ("Unsupported init method: " ++ spectra_init a))
  else
    (re <- new_Conv1d (num_bins a) (spatial_filters a * num_bins a)
                      (num_channels a) (num_bins a) ;;
     im <- new_Conv1d (num_bins a) (spatial_filters a * num_bins a)
                      (num_channels a) (num_bins a) ;;
     conv <- (if path_given (weight a)
              then load_weight a (ComplexConvXd.Make re im)
              else Ok (ComplexConvXd.Make re im)) ;;
     proj <- new_Linear (num_bins a) (spectra_filters a) ;;
     proj <- (if bool_decide (spectra_init a = "mel")
              then (mel_filter <- init_melfilter (num_bins a) ;;
                    Ok (Linear.Make (Linear.in_features proj)
                                    (Linear.out_features proj) mel_filter))
              else Ok proj) ;;
     norm <- (if batchnorm a
              then (bn <- new_BatchNorm2d (spatial_filters a) ;; Ok (Some bn))
              else Ok None) ;;
     Ok (Make conv proj norm (spatial_filters a) (num_channels a)
              (apply_log a)))%result.

End Init.

(** What the constructor leaves in a front-end built for [F0] frequency
    bins, [C0] channels and [B0] spatial filters: the convolutions have the
    weights and groups lines 75-80 ask for, the normalisation the features
    of line 102.  [D] is the number of rows of the weight of [proj], which
    is [spectra_filters] x [num_bins] as line 98 builds it and the filter
    bank of line 100 after line 101. *)
Definition built_with (self : t) (F0 C0 B0 D : nat) : Prop :=
  let sized (m : Conv1d.t) :=
    shape (Conv1d.weight m) = [(B0 * F0)%nat; 1%nat; C0] /\
    Conv1d.groups m = F0 in
  sized (ComplexConvXd.real (conv self)) /\
  sized (ComplexConvXd.imag (conv self)) /\
  shape (Linear.weight (proj self)) = [D; F0] /\
  (forall bn, norm self = Some bn -> BatchNorm2d.num_features bn = B0) /\
  B self = Z.of_nat B0 /\
  C self = Z.of_nat C0.

(** Batch normalisation accepts an input with [n] values per channel: there
    is no such layer, or it is in evaluation mode, or [n > 1]. *)
Definition norm_accepts (self : t) (n : nat) : Prop :=
  forall bn, norm self = Some bn ->
             BatchNorm2d.training bn = false \/ (1 < n)%nat.

(** The magnitude [ComplexConvXd.forward] returns under [add_abs=True]. *)
Definition magnitude (o : conv_out) : result rtensor :=
  match o with
  | OutReal m => Ok m
  | OutComplex _ => Raise (TypeError "expected a real tensor")
  end.

Definition forward (self : t) (x : ComplexTensor.t) (eps : R) : result rtensor :=
  match ComplexTensor.shape x with
  | [N; C_; F; T] =>
      if decide (Z.of_nat C_ <> C self)
      then Raise (RuntimeError
                    ("Expect input channel " ++ pretty (C self)
                     ++ ", but " ++ pretty C_))
      else
        ((* N x C x F x T => N x T x F x C *)
         x <- ComplexTensor.transpose 1 3 x ;;
         let x := ComplexTensor.contiguous x in
         (* NT x F x C *)
         x <- ComplexTensor.view [-1; Z.of_nat F; Z.of_nat C_]%Z x ;;
         (* NT x FB x 1 *)
         b <- ComplexConvXd.forward (conv self) (PyComplexTensor x) true eps ;;
         b <- magnitude b ;;
         (* NT x F x B *)
         b <- view [-1; Z.of_nat F; B self]%Z b ;;
         (* NT x B x F *)
         b <- transpose 0%R 1 2 b ;;
         (* NT x B x D *)
         f <- Linear.forward (proj self) b ;;
         let f := map1 (Rmax 0) f in
         let f := if log_applied self
                  then map1 ln (map1 (fun v => v + eps)%R f)
                  else f in
         (* N x T x B x D *)
         f <- view [Z.of_nat N; Z.of_nat T; B self; -1]%Z f ;;
         (* N x B x T x D *)
         f <- transpose 0%R 1 2 f ;;
         f <- match norm self with
              | Some bn => BatchNorm2d.forward bn f
              | None => Ok f
              end ;;
         (* N x B x T x D => N x T x B x D *)
         f <- transpose 0%R 1 2 f ;;
         let f := contiguous f in
         (* N x T x BD *)
         view [Z.of_nat N; Z.of_nat T; -1]%Z f)%result
  | _ => Raise (ValueError "not enough or too many values to unpack (expected 4)")
  end.

End TimeInvariantEnh.

End Conv.

(** ** aps/asr/att.py *)

Module Att.

Section AttASR.

(** Encoders, attentions and decoders are built by aps/asr/base, outside
    the sources at hand; the constructor only stores what they return. *)
Context {Encoder Attention Decoder CtcLinear Transform : Type}.
Context {EncoderKw AttKw DecoderKw : Type}.

Variable encoder_instance : string -> Z -> Z -> EncoderKw -> result Encoder.
Variable att_instance : string -> Z -> Z -> AttKw -> result Attention.
Variable TorchDecoder : Z -> Z -> Attention -> DecoderKw -> result Decoder.
Variable new_Linear : Z -> Z -> result CtcLinear.

Record kwargs : Type := Kwargs {
  input_size : Z;
  vocab_size : Z;
  sos : Z;
  eos : Z;
  ctc : bool;
  asr_transform : option Transform;
  att_type : string;
  att_kwargs : option AttKw;
  encoder_type : string;
  encoder_proj : Z;
  encoder_kwargs : option EncoderKw;
  decoder_dim : Z;
  decoder_kwargs : option DecoderKw
}.

Record t : Type := Make {
  encoder : Encoder;
  decoder : Decoder;
  self_sos : Z;
  self_eos : Z;
  self_ctc : option CtcLinear;
  self_asr_transform : option Transform
}.

(** [**kw] in a call *)
Definition unpack {K : Type} (kw : option K) : result K :=
  match kw with
  | Some k => Ok k
  | None => Raise (TypeError "argument after ** must be a mapping, not NoneType")
  end.

Definition __init__ (a : kwargs) : result t :=
  (ekw <- unpack (encoder_kwargs a) ;;
   enc <- encoder_instance (encoder_type a) (input_size a) (encoder_proj a) ekw ;;
   akw <- unpack (att_kwargs a) ;;
   att <- att_instance (att_type a) (encoder_proj a) (decoder_dim a) akw ;;
   dkw <- unpack (decoder_kwargs a) ;;
   dec <- TorchDecoder (encoder_proj a)
            (if ctc a then vocab_size a - 1 else vocab_size a)%Z att dkw ;;
   if decide (eos a < 0 \/ sos a < 0)%Z
   then Raise (RuntimeError
                 ("Unsupported SOS/EOS value: " ++ pretty (sos a) ++ "/"
                  ++ pretty (eos a)))
   else
     lin <- (if ctc a
             then (l <- new_Linear (encoder_proj a) (vocab_size a) ;; Ok (Some l))
             else Ok None) ;;
     Ok (Make enc dec (sos a) (eos a) lin (asr_transform a)))%result.

End AttASR.

End Att.

(** ** aps/sep/enh/phasen.py *)

Module Phasen.

Import Tensor.

Section PhaseNormalisation.

(** [EPSILON] of aps/const.py, which is not among the sources: the
    single-precision value the constant has when it is added to a tensor. *)
Variable EPSILON : F32.t.

(** Line 289: [th.sqrt(pha[:, 0]**2 + pha[:, 1]**2 + EPSILON)]; the runtime
    computes the power [v**2] as the product [v * v]. *)
Definition phase_magnitude (pha : ftensor) : result ftensor :=
  (p0 <- select_axis1 F32.zero 0 pha ;;
   p1 <- select_axis1 F32.zero 1 pha ;;
   sq <- map2 F32.zero F32.add
           (map1 (fun v => F32.mul v v) p0) (map1 (fun v => F32.mul v v) p1) ;;
   Ok (map1 F32.sqrt (map1 (fun v => F32.add v EPSILON) sq)))%result.

(** Lines 289-290 of [Phasen._forward]: the magnitude and [pha / mag[:, None]]
    for the output [pha] (N x 2 x F x T) of the phase stream. *)
Definition normalize_phase (pha : ftensor) : result (ftensor * ftensor) :=
  (mag <- phase_magnitude pha ;;
   m <- unsqueeze_axis1 mag ;;
   pha <- map2 F32.zero F32.div pha m ;;
   Ok (mag, pha))%result.

End PhaseNormalisation.

End Phasen.

(** ** aps/task/unsuper.py *)

Module Unsuper.

Import Tensor.

(** [th.finfo(th.float32).eps], that is [2^-23] *)
Definition EPSILON : F32.t := S754_finite false 8388608 (-46).

(** [th.clamp(x, min=m)] on one entry: NaN is not below [m] and is
    returned as it is. *)
Definition clamp_scalar (m x : F32.t) : F32.t :=
  if F32.ltb x m then m else x.

(** [th.clamp(t, min=m)] *)
Definition clamp_min (m : F32.t) (t : ftensor) : ftensor :=
  map1 (clamp_scalar m) t.

(** What the clamp guarantees of an entry: it is NaN, or at least [m]. *)
Definition nan_or_at_least (m v : F32.t) : Prop :=
  F32.is_nan v = true \/ F32.leb m v = true.

(** Running products of a list. *)
Fixpoint cumprod_from (acc : F32.t) (l : list F32.t) : list F32.t :=
  match l with
  | [] => []
  | x :: l' => F32.mul acc x :: cumprod_from (F32.mul acc x) l'
  end.

(** [th.cumprod(t, dim=-1)] *)
Definition cumprod_last (t : ftensor) : result ftensor :=
  match rev (shape t) with
  | c :: l =>
      Ok (Tensor (shape t)
            (concat (map (cumprod_from F32.one) (rows (numel l) c (data t)))))
  | [] => Raise (IndexError "Dimension out of range")
  end.

(** [th.eye(n)] *)
Definition eye (n : nat) : ftensor :=
  tabulate [n; n] (fun idx => match idx with
                              | [i; j] => if decide (i = j) then F32.one else F32.zero
                              | _ => F32.zero
                              end).

(** Arithmetic of [ComplexTensor] with real operands. *)
Definition conj (x : ComplexTensor32.t) : ComplexTensor32.t :=
  ComplexTensor32.Complex (ComplexTensor32.real x)
                          (map1 F32.opp (ComplexTensor32.imag x)).

Definition cscale (k : F32.t) (x : ComplexTensor32.t) : ComplexTensor32.t :=
  ComplexTensor32.Complex (map1 (F32.mul k) (ComplexTensor32.real x))
                          (map1 (F32.mul k) (ComplexTensor32.imag x)).

(** [x / k] for a number [k] *)
Definition cdiv_scalar (x : ComplexTensor32.t) (k : F32.t) : ComplexTensor32.t :=
  ComplexTensor32.Complex (map1 (fun v => F32.div v k) (ComplexTensor32.real x))
                          (map1 (fun v => F32.div v k) (ComplexTensor32.imag x)).

Definition cmul_real (x : ComplexTensor32.t) (m : ftensor)
    : result ComplexTensor32.t :=
  (r <- map2 F32.zero F32.mul (ComplexTensor32.real x) m ;;
   i <- map2 F32.zero F32.mul (ComplexTensor32.imag x) m ;;
   Ok (ComplexTensor32.Complex r i))%result.

Definition cdiv_real (x : ComplexTensor32.t) (m : ftensor)
    : result ComplexTensor32.t :=
  (r <- map2 F32.zero F32.div (ComplexTensor32.real x) m ;;
   i <- map2 F32.zero F32.div (ComplexTensor32.imag x) m ;;
   Ok (ComplexTensor32.Complex r i))%result.

Definition cadd_real (x : ComplexTensor32.t) (m : ftensor)
    : result ComplexTensor32.t :=
  (r <- map2 F32.zero F32.add (ComplexTensor32.real x) m ;;
   Ok (ComplexTensor32.Complex r (ComplexTensor32.imag x)))%result.

Definition cadd (x y : ComplexTensor32.t) : result ComplexTensor32.t :=
  (r <- map2 F32.zero F32.add (ComplexTensor32.real x) (ComplexTensor32.real y) ;;
   i <- map2 F32.zero F32.add (ComplexTensor32.imag x) (ComplexTensor32.imag y) ;;
   Ok (ComplexTensor32.Complex r i))%result.

(** [x.transpose(-1, -2)] *)
Definition ctranspose_last2 (x : ComplexTensor32.t) : result ComplexTensor32.t :=
  let n := length (ComplexTensor32.shape x) in
  ComplexTensor32.transpose (n - 1) (n - 2) x.

Section Task.

(** Numerical routines of the runtime: the sum of the entries of a row
    (the order of its additions is the runtime's), the eigenvalue
    decomposition of symmetric matrices, the complex [einsum], the complex
    matrix inverse and the logarithm. *)
Variable th_sum : list F32.t -> F32.t.
Variable symeig : ftensor -> result (ftensor * ftensor).
Variable cf_einsum : string -> list ComplexTensor32.t -> result ComplexTensor32.t.
Variable inverse : ComplexTensor32.t -> result ComplexTensor32.t.
Variable th_log : F32.t -> F32.t.

(** [t.sum(-1, keepdims=True)] *)
Definition sum_last_keepdims (t : ftensor) : ftensor :=
  match rev (shape t) with
  | c :: l => Tensor (rev l ++ [1%nat]) (map th_sum (rows (numel l) c (data t)))
  | [] => Tensor [] [th_sum (data t)]
  end.

Definition hermitian_det (Bk : ComplexTensor32.t) (eps : F32.t) : result ftensor :=
  ((* N x F x C x 2C *)
   m <- cat_last (ComplexTensor32.real Bk) (map1 F32.opp (ComplexTensor32.imag Bk)) ;;
   (* N x F x C x 2C *)
   n <- cat_last (ComplexTensor32.imag Bk) (ComplexTensor32.real Bk) ;;
   (* N x F x 2C x 2C *)
   Rk <- cat_penultimate m n ;;
   (* N x F x 2C *)
   ev <- symeig Rk ;;
   (* N x F x C *)
   ev2 <- stride2_last (fst ev) ;;
   det <- cumprod_last ev2 ;;
   (* N x F, non-negative *)
   det <- select_last F32.zero det ;;
   Ok (clamp_min eps det))%result.

Definition estimate_covar (mask : ftensor) (obs : ComplexTensor32.t) (eps : F32.t)
    : result ComplexTensor32.t :=
  match ComplexTensor32.shape obs with
  | [_; _; C; _] =>
      ((* N x F x 1 x T *)
       mask <- unsqueeze_penultimate mask ;;
       (* N x F x C x C *)
       om <- cmul_real obs mask ;;
       nominator <- cf_einsum "...it,...jt->...ij" [om; conj obs] ;;
       (* N x F x 1 x 1 *)
       let denominator := clamp_min eps (sum_last_keepdims mask) in
       (* N x F x C x C *)
       Bk <- cdiv_real (cscale (F32.of_Z (Z.of_nat C)) nominator) denominator ;;
       (* N x F x C x C *)
       Bkt <- ctranspose_last2 Bk ;;
       Bk <- cadd Bk (conj Bkt) ;;
       Ok (cdiv_scalar Bk F32.two))%result
  | _ => Raise (ValueError "not enough or too many values to unpack (expected 4)")
  end.

(** [UnsuperEnhTask]: the network and [eps]. *)
Record t (Nnet : Type) : Type := Make {
  nnet : Nnet;
  eps : F32.t
}.
Arguments nnet {Nnet} _.
Arguments eps {Nnet} _.

(** Lines 74-86 of [log_pdf]: the two tensors handed to [th.log], [K] and
    [Dk[..., None]]. *)
Definition log_arguments {Nnet : Type} (self : t Nnet)
    (mask : ftensor) (obs : ComplexTensor32.t) : result (ftensor * ftensor) :=
  match ComplexTensor32.shape obs with
  | [_; _; C; _] =>
      ((* N x F x C x C *)
       Bk <- estimate_covar mask obs (eps self) ;;
       (* add to diag *)
       let I := eye C in
       Bk <- cadd_real Bk (map1 (fun v => F32.mul v (eps self)) I) ;;
       (* N x F *)
       Dk <- hermitian_det Bk (eps self) ;;
       (* N x F x C x C *)
       Bk_inv <- inverse Bk ;;
       (* N x F x T *)
       K <- cf_einsum "...xt,...xy,...yt->...t" [conj obs; Bk_inv; obs] ;;
       let K := clamp_min (eps self) (ComplexTensor32.real K) in
       Ok (K, unsqueeze_last Dk))%result
  | _ => Raise (ValueError "not enough or too many values to unpack (expected 4)")
  end.

(** [UnsuperEnhTask.log_pdf]: [-C * th.log(K) - th.log(Dk[..., None])] *)
Definition log_pdf {Nnet : Type} (self : t Nnet)
    (mask : ftensor) (obs : ComplexTensor32.t) : result ftensor :=
  (args <- log_arguments self mask obs ;;
   let C := nth 2 (ComplexTensor32.shape obs) 0%nat in
   map2 F32.zero F32.sub
     (map1 (F32.mul (F32.of_Z (- Z.of_nat C))) (map1 th_log (fst args)))
     (map1 th_log (snd args)))%result.

End Task.

Arguments nnet {Nnet} _.
Arguments eps {Nnet} _.

End Unsuper.

(** ** aps/trainer/apex.py *)

Module Apex.

(** Calls into the runtime, recorded in program order.  The log is
    instrumentation: it lets a statement say that [optimizer.step] was or
    was not called. *)
Inductive call : Type :=
| ZeroGrad
| TaskForward
| ScaledBackward
| ClipGradNorm
| OptimizerStep
| AddGaussianNoise
| ReporterLog
| ReporterUpdate
| LrSchedulerStep
| AmpInitialize
| AmpLoadStateDict.

#[global] Instance call_eq_dec : EqDecision call.
Proof. solve_decision. Defined.

(** A call that stores into a model parameter. *)
Definition writes_params (c : call) : bool :=
  match c with
  | OptimizerStep | AddGaussianNoise => true
  | _ => false
  end.

(** Lines written by [self.reporter]. *)
Inductive report : Type :=
| LogText (msg : string)
| LogInvalidLoss (loss : float)
| LogInvalidGradient (norm : float)
| Update (stats : gmap string float).

(** [bool(x)] for an [Optional[float]] attribute. *)
Definition truthy (x : option float) : bool :=
  match x with
  | None => false
  | Some f => negb (f =? 0)%float
  end.

Section Trainer.

(** Objects of the deep-learning runtime the trainer only passes around. *)
Context {Egs Buffers OptimInner SchedState AmpState Rng : Type}.

(** The network of a task: parameter values and the other entries of
    its state dict. *)
Record nnet : Type := Nnet {
  params : list float;
  buffers : Buffers
}.

(** [self.task]: a task module holding [nnet], possibly wrapped by
    [apex.parallel.DistributedDataParallel], which keeps the wrapped
    module under the attribute [module]. *)
Inductive task_obj : Type :=
| TaskModule (net : nnet)
| DistributedDataParallel (module : task_obj).

Fixpoint task_nnet (t : task_obj) : nnet :=
  match t with
  | TaskModule n => n
  | DistributedDataParallel m => task_nnet m
  end.

Fixpoint task_set_nnet (n : nnet) (t : task_obj) : task_obj :=
  match t with
  | TaskModule _ => TaskModule n
  | DistributedDataParallel m => DistributedDataParallel (task_set_nnet n m)
  end.

(** Attribute access [t.module] and [t.nnet]. *)
Definition get_module (t : task_obj) : result task_obj :=
  match t with
  | DistributedDataParallel m => Ok m
  | TaskModule _ => Raise (AttributeError "module")
  end.

Definition get_nnet (t : task_obj) : result nnet :=
  match t with
  | TaskModule n => Ok n
  | DistributedDataParallel _ => Raise (AttributeError "nnet")
  end.

Record optim : Type := Optim {
  param_groups : list (gmap string float);
  optim_inner : OptimInner
}.

(** Values stored in a checkpoint dictionary. *)
Inductive cpt_value : Type :=
| CptEpoch (epoch : Z)
| CptAmp (a : AmpState)
| CptModel (n : nnet)
| CptOptim (o : optim)
| CptSched (s : SchedState).

Record trainer : Type := Trainer {
  task : task_obj;
  grads : list float;
  optimizer : optim;
  lr_scheduler : SchedState;
  amp : AmpState;
  reporter : list report;
  rng : Rng;
  ssr : float;
  clip_gradient : option float;
  gaussian_noise_std : option float;
  cuda_devices : Z;
  distributed : bool;
  cpt_stats : option (gmap string cpt_value);
  calls : list call
}.

Definition model_params (t : trainer) : list float :=
  params (task_nnet (task t)).

(** The runtime operations the trainer calls.  Their types fix what each
    one reads and writes: the forward pass reads the parameters and may
    refresh buffers, backward and clipping write gradients, only the
    optimizer step produces new parameter values. *)
Record runtime : Type := Runtime {
  task_forward : nnet -> Egs -> float -> gmap string float * Buffers;
  zero_grad : list float -> list float;
  scaled_backward :
    AmpState -> gmap string float -> nnet -> list float ->
    AmpState * list float;
  clip_grad_norm_ : list float -> float -> list float * float;
  optimizer_step_fn : optim -> list float -> list float -> optim * list float;
  randn : Rng -> nat -> list float * Rng;
  scheduler_step : SchedState -> optim -> SchedState * optim;
  amp_initialize : string -> AmpState -> optim -> AmpState * optim;
  amp_load_state_dict : AmpState -> AmpState -> AmpState;
  convert_syncbn_model : nnet -> nnet
}.

Variable rt : runtime.

(** *** The trainer monad: state and exceptions *)

Definition M (A : Type) : Type := trainer -> result A * trainer.

Definition ret {A : Type} (a : A) : M A := fun t => (Ok a, t).

Definition raise {A : Type} (e : exn) : M A := fun t => (Raise e, t).

Definition bind {A B : Type} (m : M A) (k : A -> M B) : M B :=
  fun t =>
    match m t with
    | (Ok a, t') => k a t'
    | (Raise e, t') => (Raise e, t')
    end.

Definition lift {A : Type} (r : result A) : M A := fun t => (r, t).

Definition get {A : Type} (f : trainer -> A) : M A := fun t => (Ok (f t), t).

Definition record_call (c : call) (t : trainer) : trainer :=
  Trainer (task t) (grads t) (optimizer t) (lr_scheduler t) (amp t)
          (reporter t) (rng t) (ssr t) (clip_gradient t)
          (gaussian_noise_std t) (cuda_devices t) (distributed t)
          (cpt_stats t) (calls t ++ [c]).

Definition set_task (k : task_obj) (t : trainer) : trainer :=
  Trainer k (grads t) (optimizer t) (lr_scheduler t) (amp t)
          (reporter t) (rng t) (ssr t) (clip_gradient t)
          (gaussian_noise_std t) (cuda_devices t) (distributed t)
          (cpt_stats t) (calls t).

Definition set_grads (g : list float) (t : trainer) : trainer :=
  Trainer (task t) g (optimizer t) (lr_scheduler t) (amp t)
          (reporter t) (rng t) (ssr t) (clip_gradient t)
          (gaussian_noise_std t) (cuda_devices t) (distributed t)
          (cpt_stats t) (calls t).

Definition set_optimizer (o : optim) (t : trainer) : trainer :=
  Trainer (task t) (grads t) o (lr_scheduler t) (amp t)
          (reporter t) (rng t) (ssr t) (clip_gradient t)
          (gaussian_noise_std t) (cuda_devices t) (distributed t)
          (cpt_stats t) (calls t).

Definition set_lr_scheduler (s : SchedState) (t : trainer) : trainer :=
  Trainer (task t) (grads t) (optimizer t) s (amp t)
          (reporter t) (rng t) (ssr t) (clip_gradient t)
          (gaussian_noise_std t) (cuda_devices t) (distributed t)
          (cpt_stats t) (calls t).

Definition set_amp (a : AmpState) (t : trainer) : trainer :=
  Trainer (task t) (grads t) (optimizer t) (lr_scheduler t) a
          (reporter t) (rng t) (ssr t) (clip_gradient t)
          (gaussian_noise_std t) (cuda_devices t) (distributed t)
          (cpt_stats t) (calls t).

Definition set_reporter (r : list report) (t : trainer) : trainer :=
  Trainer (task t) (grads t) (optimizer t) (lr_scheduler t) (amp t)
          r (rng t) (ssr t) (clip_gradient t)
          (gaussian_noise_std t) (cuda_devices t) (distributed t)
          (cpt_stats t) (calls t).

Definition set_rng (g : Rng) (t : trainer) : trainer :=
  Trainer (task t) (grads t) (optimizer t) (lr_scheduler t) (amp t)
          (reporter t) g (ssr t) (clip_gradient t)
          (gaussian_noise_std t) (cuda_devices t) (distributed t)
          (cpt_stats t) (calls t).

Definition set_distributed (d : bool) (t : trainer) : trainer :=
  Trainer (task t) (grads t) (optimizer t) (lr_scheduler t) (amp t)
          (reporter t) (rng t) (ssr t) (clip_gradient t)
          (gaussian_noise_std t) (cuda_devices t) d
          (cpt_stats t) (calls t).

Definition set_params (p : list float) (t : trainer) : trainer :=
  let n := task_nnet (task t) in
  set_task (task_set_nnet (Nnet p (buffers n)) (task t)) t.

Definition set_buffers (b : Buffers) (t : trainer) : trainer :=
  let n := task_nnet (task t) in
  set_task (task_set_nnet (Nnet (params n) b) (task t)) t.

Declare Scope trainer_scope.
Delimit Scope trainer_scope with trainer.
Notation "x <- m ;; k" := (bind m (fun x => k))
  (at level 100, m at next level, right associativity) : trainer_scope.
Notation "e1 ;; e2" := (bind e1 (fun _ => e2))
  (at level 100, right associativity) : trainer_scope.
Local Open Scope trainer_scope.

(** *** Calls into the runtime *)

(** [self.optimizer.zero_grad()] *)
Definition optimizer_zero_grad : M unit := fun t =>
  (Ok tt, record_call ZeroGrad (set_grads (zero_grad rt (grads t)) t)).

(** [self.task(egs, ssr=self.ssr)] *)
Definition task_call (egs : Egs) : M (gmap string float) := fun t =>
  let out := task_forward rt (task_nnet (task t)) egs (ssr t) in
  (Ok (fst out), record_call TaskForward (set_buffers (snd out) t)).

(** [d[k]] on a dictionary of scalars *)
Definition getitem (d : gmap string float) (k : string) : result float :=
  match d !! k with
  | Some v => Ok v
  | None => Raise (KeyError k)
  end.

(** [with apex.amp.scale_loss(stats["loss"], self.optimizer) as scaled_loss:
       scaled_loss.backward()] *)
Definition amp_scale_loss_backward (stats : gmap string float) : M unit :=
  fun t =>
    let out := scaled_backward rt (amp t) stats (task_nnet (task t)) (grads t) in
    (Ok tt, record_call ScaledBackward (set_grads (snd out) (set_amp (fst out) t))).

(** [clip_grad_norm_(apex.amp.master_params(self.optimizer), max_norm)] *)
Definition clip_grad_norm (max_norm : float) : M float := fun t =>
  let out := clip_grad_norm_ rt (grads t) max_norm in
  (Ok (snd out), record_call ClipGradNorm (set_grads (fst out) t)).

(** [self.optimizer.step()] *)
Definition optimizer_step : M unit := fun t =>
  let out := optimizer_step_fn rt (optimizer t) (model_params t) (grads t) in
  (Ok tt,
   record_call OptimizerStep (set_params (snd out) (set_optimizer (fst out) t))).

(** Modelled from the spec: [add_gaussian_noise] is defined in
    aps/trainer/base.py, which is not among the sources.  The spec calls
    it "Gaussian noise injection into parameters": every parameter value
    receives a fresh normal sample scaled by [std]. *)
Definition add_gaussian_noise (std : float) : M unit := fun t =>
  let out := randn rt (rng t) (length (model_params t)) in
  let p := zip_with (fun p n => (p + n * std)%float) (model_params t) (fst out) in
  (Ok tt, record_call AddGaussianNoise (set_params p (set_rng (snd out) t))).

(** [self.reporter.log(...)] *)
Definition reporter_log (r : report) : M unit := fun t =>
  (Ok tt, record_call ReporterLog (set_reporter (reporter t ++ [r]) t)).

(** [self.reporter.update(stats)] *)
Definition reporter_update (stats : gmap string float) : M unit := fun t =>
  (Ok tt,
   record_call ReporterUpdate (set_reporter (reporter t ++ [Update stats]) t)).

(** [self.lr_scheduler_step(None, end_at="step")] *)
Definition lr_scheduler_step : M unit := fun t =>
  let out := scheduler_step rt (lr_scheduler t) (optimizer t) in
  (Ok tt,
   record_call LrSchedulerStep
     (set_optimizer (snd out) (set_lr_scheduler (fst out) t))).

(** [self.optimizer.param_groups[0]["lr"]] *)
Definition current_lr (o : optim) : result float :=
  match param_groups o with
  | [] => Raise (IndexError "list index out of range")
  | g :: _ => getitem g "lr"
  end.

(** *** [ApexTrainer.train_one_step] *)

(** Lines 137-144: what the successful branch does once
    [self.optimizer.step()] has returned. *)
Definition after_optimizer_step
    (stats : gmap string float) (norm : float) : M bool :=
  std <- get gaussian_noise_std ;;
  (if truthy std
   then add_gaussian_noise (default 0%float std)
   else ret tt) ;;
  let stats :=
    if negb (norm =? -1)%float then <["norm" := norm]> stats else stats in
  o <- get optimizer ;;
  rate <- lift (current_lr o) ;;
  let stats := <["rate" := rate]> stats in
  reporter_update stats ;;
  lr_scheduler_step ;;
  ret true.

Definition train_one_step (egs : Egs) : M bool :=
  optimizer_zero_grad ;;
  stats <- task_call egs ;;
  loss <- lift (getitem stats "loss") ;;
  if is_finite loss then
    amp_scale_loss_backward stats ;;
    cg <- get clip_gradient ;;
    norm <- (if truthy cg
             then clip_grad_norm (default 0%float cg)
             else ret (-1)%float) ;;
    if is_finite norm then
      optimizer_step ;;
      after_optimizer_step stats norm
    else
      reporter_log (LogInvalidGradient norm) ;;
      ret false
  else
    reporter_log (LogInvalidLoss loss) ;;
    ret false.

(** The trainer as line 129 finds it when the loss is finite: gradients
    zeroed, forward pass and scaled backward pass done. *)
Definition backward_done (egs : Egs) (t : trainer) : trainer :=
  snd ((optimizer_zero_grad ;;
        stats <- task_call egs ;;
        amp_scale_loss_backward stats) t).

(** The statistics the forward pass of this step returns. *)
Definition forward_stats (egs : Egs) (t : trainer) : gmap string float :=
  fst (task_forward rt (task_nnet (task t)) egs (ssr t)).

(** The gradients [self.optimizer.step()] is called with: those left by the
    backward pass, clipped when clipping is enabled. *)
Definition step_grads (egs : Egs) (t : trainer) : list float :=
  let g := grads (backward_done egs t) in
  if truthy (clip_gradient t)
  then fst (clip_grad_norm_ rt g (default 0%float (clip_gradient t)))
  else g.

(** The parameter values [self.optimizer.step()] stores in this step. *)
Definition stepped_params (egs : Egs) (t : trainer) : list float :=
  snd (optimizer_step_fn rt (optimizer t) (model_params t) (step_grads egs t)).

(** *** [ApexTrainer.checkpoint_states] *)

Definition checkpoint_states (epoch : Z) (t : trainer)
    : result (gmap string cpt_value) :=
  (model <- (if distributed t
             then (m <- get_module (task t) ;; get_nnet m)
             else get_nnet (task t)) ;;
   Ok (<["lr_scheduler_dict" := CptSched (lr_scheduler t)]>
       (<["optim_state_dict" := CptOptim (optimizer t)]>
        (<["model_state_dict" := CptModel model]>
         (<["amp_state_dict" := CptAmp (amp t)]>
          (<["epoch" := CptEpoch epoch]> ∅))))))%result.

(** *** [ApexTrainer.setup_distributed] *)

Definition setup_distributed (opt_level : string) : M unit :=
  (* self.task = apex.parallel.convert_syncbn_model(self.task) *)
  (fun t =>
     (Ok tt,
      set_task (task_set_nnet (convert_syncbn_model rt (task_nnet (task t)))
                              (task t)) t)) ;;
  (* self.task, self.optimizer = apex.amp.initialize(...) *)
  (fun t =>
     let out := amp_initialize rt opt_level (amp t) (optimizer t) in
     (Ok tt,
      record_call AmpInitialize (set_optimizer (snd out) (set_amp (fst out) t)))) ;;
  reporter_log (LogText ("Apex: Using opt-level " ++ opt_level)) ;;
  n <- get cuda_devices ;;
  (if (2 <=? n)%Z then
     (fun t => (Ok tt, set_distributed true t)) ;;
     reporter_log (LogText "Apex: using distributed data parallel (DDP)") ;;
     (fun t => (Ok tt, set_task (DistributedDataParallel (task t)) t))
   else
     (fun t => (Ok tt, set_distributed false t))) ;;
  (* restore amp stats *)
  cpt <- get cpt_stats ;;
  match cpt with
  | None => ret tt
  | Some d =>
      if decide (d = ∅) then ret tt
      else
        match d !! "amp_state_dict" with
        | None => raise (KeyError "amp_state_dict")
        | Some (CptAmp a) =>
            fun t =>
              (Ok tt,
               record_call AmpLoadStateDict
                 (set_amp (amp_load_state_dict rt (amp t) a) t))
        | Some _ => raise (TypeError "amp_state_dict")
        end
  end.

(** The flag [distributed] agrees with the shape of [task]: wrapped once
    when set, a bare task module otherwise. *)
Definition wrapped_as_flagged (t : trainer) : bool :=
  match task t, distributed t with
  | DistributedDataParallel (TaskModule _), true => true
  | TaskModule _, false => true
  | _, _ => false
  end.

End Trainer.

Arguments nnet : clear implicits.
Arguments task_obj : clear implicits.
Arguments optim : clear implicits.
Arguments cpt_value : clear implicits.
Arguments trainer : clear implicits.
Arguments runtime : clear implicits.
Arguments M : clear implicits.

End Apex.

(** ** A small front-end

    A [TimeInvariantEnh] with two frequency bins, one channel, one spatial
    filter and one spectral filter, all weights equal to one, batch
    normalisation in evaluation mode standing for the identity. *)

Module ConvDemo.

Import Tensor.

Definition ones (s : list nat) : rtensor := Tensor s (repeat 1%R (numel s)).

(** [nn.Conv1d(2, 2, 1, groups=2, padding=0, bias=False)] *)
Definition conv1d : Conv.Conv1d.t :=
  Conv.Conv1d.Make 2 2 1 2 (ones [2; 1; 1]%nat) None.

Definition enh : Conv.TimeInvariantEnh.t :=
  Conv.TimeInvariantEnh.Make
    (Conv.ComplexConvXd.Make conv1d conv1d)
    (Conv.Linear.Make 2 1 (ones [1; 2]%nat))
    (Some (Conv.BatchNorm2d.Make 1 false data))
    1 1 true.

(** A complex input of shape N x C x F x T with all entries [1 + i]. *)
Definition input (N C F T : nat) : ComplexTensor.t :=
  ComplexTensor.Complex (ones [N; C; F; T]) (ones [N; C; F; T]).

(** Constructors of the layers in which every random draw is replaced by
    one: [nn.Conv1d(i, o, k, groups=g, bias=False)], [nn.Linear(i, o,
    bias=False)] and [nn.BatchNorm2d(n)] in evaluation mode. *)
Definition new_Conv1d (i o k g : Z) : result Conv.Conv1d.t :=
  if decide (g = 0)%Z
  then Raise (ZeroDivisionError "integer division or modulo by zero")
  else if decide (i mod g <> 0 \/ o mod g <> 0)%Z
  then Raise (ValueError "in_channels and out_channels must be divisible by groups")
  else if decide (o < 0 \/ i / g < 0 \/ k < 0)%Z
  then Raise (RuntimeError "Trying to create tensor with negative dimension")
  else Ok (Conv.Conv1d.Make (Z.to_nat i) (Z.to_nat o) (Z.to_nat k) (Z.to_nat g)
             (ones [Z.to_nat o; Z.to_nat (i / g); Z.to_nat k]) None).

Definition new_Linear (i o : Z) : result Conv.Linear.t :=
  if decide (i < 0 \/ o < 0)%Z
  then Raise (RuntimeError "Trying to create tensor with negative dimension")
  else Ok (Conv.Linear.Make (Z.to_nat i) (Z.to_nat o) (ones [Z.to_nat o; Z.to_nat i])).

Definition new_BatchNorm2d (n : Z) : result Conv.BatchNorm2d.t :=
  if decide (n < 0)%Z
  then Raise (RuntimeError "Trying to create tensor with negative dimension")
  else Ok (Conv.BatchNorm2d.Make (Z.to_nat n) false data).

(** A filter bank of three filters. *)
Definition init_melfilter (num_bins : Z) : result rtensor :=
  Ok (ones [3%nat; Z.to_nat num_bins]).

Definition th_load (path : string) : result rtensor :=
  Raise (RuntimeError "no such file").

End ConvDemo.

(** ** A one-bin observation for the unsupervised task

    One utterance, one frequency bin, one channel, one frame.  In this
    setting the matrices are 1 x 1 and the numerical routines reduce to
    arithmetic on one complex number: each [einsum] is a product, the
    inverse is the reciprocal and the real 2 x 2 matrix handed to [symeig]
    is [a] times the identity, with the double eigenvalue [a]; on a matrix
    whose entries are not finite the eigenvalue routine returns NaN. *)

Module UnsuperDemo.

Import Tensor.

Definition entry (t : ftensor) : F32.t := nth 0 (data t) F32.nan.

(** The product of two complex numbers. *)
Definition cmul (a b : F32.t * F32.t) : F32.t * F32.t :=
  (F32.sub (F32.mul (fst a) (fst b)) (F32.mul (snd a) (snd b)),
   F32.add (F32.mul (fst a) (snd b)) (F32.mul (snd a) (fst b))).

Definition number (x : ComplexTensor32.t) : F32.t * F32.t :=
  (entry (ComplexTensor32.real x), entry (ComplexTensor32.imag x)).

Definition complex (s : list nat) (z : F32.t * F32.t) : ComplexTensor32.t :=
  ComplexTensor32.Complex (Tensor s [fst z]) (Tensor s [snd z]).

Definition th_sum (l : list F32.t) : F32.t := fold_right F32.add F32.zero l.

Definition symeig (Rk : ftensor) : result (ftensor * ftensor) :=
  let a := entry Rk in
  let ev := if F32.is_finite a then a else F32.nan in
  Ok (Tensor [1; 1; 2]%nat [ev; ev], Rk).

Definition cf_einsum (eq : string) (ops : list ComplexTensor32.t)
    : result ComplexTensor32.t :=
  match ops with
  | [a; b] => Ok (complex [1; 1; 1; 1]%nat (cmul (number a) (number b)))
  | [a; b; c] =>
      Ok (complex [1; 1; 1]%nat (cmul (cmul (number a) (number b)) (number c)))
  | _ => Raise (ValueError "einsum(): operands do not match the subscripts")
  end.

Definition inverse (x : ComplexTensor32.t) : result ComplexTensor32.t :=
  let a := fst (number x) in
  let b := snd (number x) in
  let n := F32.add (F32.mul a a) (F32.mul b b) in
  Ok (complex (ComplexTensor32.shape x) (F32.div a n, F32.div (F32.opp b) n)).

Definition task : Unsuper.t unit := Unsuper.Make unit tt Unsuper.EPSILON.

Definition mask : ftensor := Tensor [1; 1; 1]%nat [F32.one].

(** The observation [x + 0i]. *)
Definition obs (x : F32.t) : ComplexTensor32.t :=
  complex [1; 1; 1; 1]%nat (x, F32.zero).

End UnsuperDemo.

(** ** A small attention layer

    Embedding size two, one head, built without bias as the constructor
    allows; every random draw is replaced by ones. *)

Module AttentionDemo.

Definition ones_init (o i : nat) : list R := repeat 1%R (o * i).

Definition linear_ones (o i : nat) : list R * list R :=
  (repeat 1%R (o * i), repeat 1%R o).

Definition no_drop (p : float) (x : Tensor.tensor Impl.val) : Tensor.tensor Impl.val := x.

(** One position, one utterance: a tensor 1 x 1 x 2. *)
Definition token : rtensor := Tensor.Tensor [1; 1; 2]%nat [1%R; 2%R].

End AttentionDemo.

(** ** Masked attention on two positions

    The layer of the previous section built with its bias, two positions of
    one utterance, and the masks of an utterance of length one. *)

Module MaskedAttentionDemo.

(** What [ApsMultiheadAttention(2, 1, dropout=0)] is when every random draw
    is replaced by ones. *)
Definition layer : Impl.ApsMultiheadAttention.t :=
  Impl.ApsMultiheadAttention.Make 2 1 2
    (Tensor.Tensor [6; 2]%nat (AttentionDemo.ones_init 6 2))
    (Some (Tensor.zeros 0%R [6%nat]))
    (Tensor.Tensor [2; 2]%nat (fst (AttentionDemo.linear_ones 2 2)))
    (Tensor.Tensor [2]%nat (snd (AttentionDemo.linear_ones 2 2)))
    0%float true.

(** Two positions, one utterance: a tensor 2 x 1 x 2. *)
Definition tokens : rtensor :=
  Tensor.Tensor [2; 1; 2]%nat [1%R; 2%R; 3%R; 4%R].

(** Logits 2 x 1 x 1 x 2 and values 2 x 1 x 1 x 2 of one head. *)
Definition logit : rtensor :=
  Tensor.Tensor [2; 1; 1; 2]%nat [0%R; 0%R; 0%R; 0%R].

Definition value : rtensor :=
  Tensor.Tensor [2; 1; 1; 2]%nat [1%R; 2%R; 3%R; 4%R].

(** The second key is padding. *)
Definition key_padding_mask : Tensor.tensor bool :=
  Tensor.Tensor [1; 2]%nat [false; true].

(** Every key is padding. *)
Definition all_padding : Tensor.tensor bool :=
  Tensor.Tensor [1; 2]%nat [true; true].

End MaskedAttentionDemo.

(** ** A small concrete runtime

    One-parameter models trained by plain gradient descent, used to run the
    trainer on explicit inputs.  The forward pass reports the loss [loss],
    clipping reports the norm [norm], the noise generator returns ones. *)

Module ApexDemo.

Definition demo_rt (loss norm : float)
    : Apex.runtime unit unit unit unit unit unit :=
  {| Apex.task_forward := fun _ _ _ => ({["loss" := loss]}, tt);
     Apex.zero_grad := map (fun _ => 0%float);
     Apex.scaled_backward := fun a _ _ g => (a, map (fun _ => 1%float) g);
     Apex.clip_grad_norm_ := fun g _ => (g, norm);
     Apex.optimizer_step_fn :=
       fun o p g => (o, zip_with (fun p g => (p - 0.5 * g)%float) p g);
     Apex.randn := fun r n => (repeat 1%float n, r);
     Apex.scheduler_step := fun s o => (s, o);
     Apex.amp_initialize := fun _ a o => (a, o);
     Apex.amp_load_state_dict := fun a _ => a;
     Apex.convert_syncbn_model := fun n => n |}.

(** A trainer over the model with the single parameter [2.0], learning
    rate [0.5], and the given clipping threshold and noise deviation. *)
Definition demo_trainer (clip noise : option float)
    : Apex.trainer unit unit unit unit unit :=
  {| Apex.task := Apex.TaskModule (Apex.Nnet [2%float] tt);
     Apex.grads := [0%float];
     Apex.optimizer := Apex.Optim [{["lr" := 0.5%float]}] tt;
     Apex.lr_scheduler := tt;
     Apex.amp := tt;
     Apex.reporter := [];
     Apex.rng := tt;
     Apex.ssr := 0%float;
     Apex.clip_gradient := clip;
     Apex.gaussian_noise_std := noise;
     Apex.cuda_devices := 1%Z;
     Apex.distributed := false;
     Apex.cpt_stats := None;
     Apex.calls := [] |}.

End ApexDemo.

(** ** Resuming from a checkpoint

    The trainer of the previous section with the checkpoint of an earlier
    run to resume from, and a runtime whose forward pass reports no loss. *)

Module ResumeDemo.

(** The checkpoint [checkpoint_states(3)] returns for the demo trainer. *)
Definition saved : gmap string (Apex.cpt_value unit unit unit unit) :=
  match Apex.checkpoint_states 3 (ApexDemo.demo_trainer None None) with
  | Ok d => d
  | Raise _ => ∅
  end.

(** The demo trainer with [cpt_stats] set. *)
Definition resumed (d : gmap string (Apex.cpt_value unit unit unit unit))
    : Apex.trainer unit unit unit unit unit :=
  {| Apex.task := Apex.TaskModule (Apex.Nnet [2%float] tt);
     Apex.grads := [0%float];
     Apex.optimizer := Apex.Optim [{["lr" := 0.5%float]}] tt;
     Apex.lr_scheduler := tt;
     Apex.amp := tt;
     Apex.reporter := [];
     Apex.rng := tt;
     Apex.ssr := 0%float;
     Apex.clip_gradient := None;
     Apex.gaussian_noise_std := None;
     Apex.cuda_devices := 1%Z;
     Apex.distributed := false;
     Apex.cpt_stats := Some d;
     Apex.calls := [] |}.

(** A task whose forward pass returns statistics without a loss. *)
Definition silent_rt : Apex.runtime unit unit unit unit unit unit :=
  {| Apex.task_forward := fun _ _ _ => ({["accu" := 1%float]}, tt);
     Apex.zero_grad := map (fun _ => 0%float);
     Apex.scaled_backward := fun a _ _ g => (a, map (fun _ => 1%float) g);
     Apex.clip_grad_norm_ := fun g _ => (g, 0%float);
     Apex.optimizer_step_fn :=
       fun o p g => (o, zip_with (fun p g => (p - 0.5 * g)%float) p g);
     Apex.randn := fun r n => (repeat 1%float n, r);
     Apex.scheduler_step := fun s o => (s, o);
     Apex.amp_initialize := fun _ a o => (a, o);
     Apex.amp_load_state_dict := fun a _ => a;
     Apex.convert_syncbn_model := fun n => n |}.

End ResumeDemo.

(** * Properties *)

(** ** Tensors: indices, offsets and entry-wise operations *)

Section TensorFacts.

Context {A : Type}.
Variable zero : A.

Import Tensor.

Lemma length_indices (s : list nat) : length (indices s) = numel s.
Proof.
  induction s as [| d s IH]; [reflexivity |].
  cbn [indices numel fold_right]. fold (numel s).
  generalize 0%nat at 1. induction d as [| d IHd]; intros k; [reflexivity |].
  cbn [seq flat_map]. rewrite length_app, length_map, IH, IHd. lia.
Qed.

Lemma flat_map_seq_blocks (n d k : nat) :
  flat_map (fun i => seq (i * n) n) (seq k d) = seq (k * n) (d * n).
Proof.
  revert k. induction d as [| d IH]; intros k; [reflexivity |].
  cbn [seq flat_map]. rewrite IH.
  replace (S d * n)%nat with (n + d * n)%nat by lia.
  rewrite seq_app. do 2 f_equal. lia.
Qed.

Lemma map_add_seq (a k n : nat) :
  map (fun o => (a + o)%nat) (seq k n) = seq (a + k) n.
Proof.
  revert k. induction n as [| n IH]; intros k; [reflexivity |].
  cbn [seq map]. rewrite IH. do 2 f_equal. lia.
Qed.

(** Reading the indices of a shape in order visits the offsets
    [0, 1, ..., numel - 1], also when the strides of axes of size one are
    replaced by anything. *)
Lemma offsets_of_indices (s st : list nat) :
  length st = length s ->
  (forall i, (i < length s)%nat ->
             nth i s 0%nat = 1%nat \/ nth i st 0%nat = nth i (strides s) 0%nat) ->
  map (offset st) (indices s) = seq 0 (numel s).
Proof.
  revert st.
  induction s as [| d s IH]; intros st Hlen Hst.
  - destruct st; [reflexivity | discriminate].
  - destruct st as [| k st']; [discriminate |].
    cbn [indices numel fold_right]. fold (numel s).
    assert (IHs : map (offset st') (indices s) = seq 0 (numel s)).
    { apply IH; [cbn in Hlen; lia |]. intros i Hi.
      exact (Hst (S i) ltac:(cbn; lia)). }
    assert (Hk : d = 1%nat \/ k = numel s).
    { exact (Hst 0%nat ltac:(cbn; lia)). }
    assert (Hblock : forall i,
               map (offset (k :: st')) (map (cons i) (indices s))
               = map (fun o => (i * k + o)%nat) (seq 0 (numel s))).
    { intros i. rewrite map_map. rewrite <- IHs, map_map.
      apply map_ext. intros idx. unfold offset. cbn. lia. }
    rewrite flat_map_concat_map, concat_map, map_map.
    rewrite <- flat_map_concat_map.
    rewrite (flat_map_ext _ (fun i => map (fun o => (i * k + o)%nat) (seq 0 (numel s))))
      by (intros i; apply Hblock).
    destruct Hk as [-> | ->].
    + cbn. rewrite app_nil_r, Nat.add_0_r. rewrite <- (map_id (seq 0 (numel s))) at 2.
      apply map_ext. intros o. reflexivity.
    + rewrite (flat_map_ext _ (fun i => seq (i * numel s) (numel s))).
      * apply (flat_map_seq_blocks (numel s) d 0).
      * intros i. rewrite map_add_seq. f_equal. lia.
Qed.

Lemma length_strides (s : list nat) : length (strides s) = length s.
Proof. induction s as [| d s IH]; cbn; [reflexivity | now rewrite IH]. Qed.

Lemma offsets_of_strides (s : list nat) :
  map (offset (strides s)) (indices s) = seq 0 (numel s).
Proof.
  apply offsets_of_indices; [apply length_strides | intros i _; now right].
Qed.

Lemma broadcast_strides_same (s : list nat) :
  broadcast_strides s s
  = zip_with (fun d st => if decide (d = 1%nat) then 0%nat else st) s (strides s).
Proof. unfold broadcast_strides. now rewrite Nat.sub_diag. Qed.

Lemma offsets_of_broadcast_same (s : list nat) :
  map (offset (broadcast_strides s s)) (indices s) = seq 0 (numel s).
Proof.
  rewrite broadcast_strides_same. apply offsets_of_indices.
  - rewrite length_zip_with, length_strides. lia.
  - intros i Hi.
    assert (Hlen := length_strides s).
    remember (strides s) as st eqn:E. clear E.
    revert st i Hi Hlen. induction s as [| d s IH]; intros st i Hi Hlen.
    + cbn in Hi. lia.
    + destruct st as [| k st]; [discriminate |].
      destruct i as [| i]; cbn.
      * destruct (decide (d = 1%nat)); [now left | now right].
      * apply IH; cbn in *; lia.
Qed.

Lemma broadcast_rev_same (l : list nat) : broadcast_rev l l = Some l.
Proof.
  induction l as [| x l IH]; [reflexivity |].
  cbn. rewrite IH. now rewrite decide_True.
Qed.

Lemma broadcast_shape_same (s : list nat) : broadcast_shape s s = Some s.
Proof.
  unfold broadcast_shape. rewrite broadcast_rev_same. now rewrite rev_involutive.
Qed.

Lemma map_nth_seq_all (l : list A) :
  map (fun i => nth i l zero) (seq 0 (length l)) = l.
Proof.
  induction l as [| x l IH]; [reflexivity |].
  cbn [length seq map nth]. f_equal.
  rewrite <- seq_shift, map_map. exact IH.
Qed.

Lemma zip_with_map_same {B C D E : Type} (f : C -> D -> E) (g : B -> C) (h : B -> D)
    (l : list B) :
  zip_with f (map g l) (map h l) = map (fun x => f (g x) (h x)) l.
Proof. induction l as [| x l IH]; cbn; [reflexivity | now rewrite IH]. Qed.

(** On well-formed tensors of one shape the broadcasting operation is the
    plain entry-wise one. *)
Lemma map2_same_shape (f : A -> A -> A) (a b : tensor A) :
  well_formed a -> well_formed b -> shape b = shape a ->
  map2 zero f a b = Ok (Tensor (shape a) (zip_with f (data a) (data b))).
Proof.
  unfold well_formed, map2. intros Ha Hb Hs. rewrite Hs, broadcast_shape_same.
  do 2 f_equal.
  rewrite <- (map_map (offset (broadcast_strides (shape a) (shape a)))
                      (fun o => f (nth o (data a) zero) (nth o (data b) zero))).
  rewrite offsets_of_broadcast_same.
  rewrite <- (zip_with_map_same f (fun o => nth o (data a) zero)
                                  (fun o => nth o (data b) zero)).
  assert (Hb' : length (data b) = numel (shape a)) by congruence.
  rewrite <- Ha at 1. rewrite map_nth_seq_all.
  rewrite <- Hb'. now rewrite map_nth_seq_all.
Qed.

Lemma offset_broadcast_strides (s st idx : list nat) :
  valid_index s idx ->
  offset (zip_with (fun d k => if decide (d = 1%nat) then 0%nat else k) s st) idx
  = offset st idx.
Proof.
  intros H. revert st.
  induction H as [| i d idx s Hi _ IH]; intros st.
  - destruct st; reflexivity.
  - destruct st as [| k st]; [reflexivity |].
    unfold offset in *. cbn. rewrite IH.
    destruct (decide (d = 1%nat)); [| reflexivity].
    assert (i = 0%nat) as -> by lia. lia.
Qed.

Lemma valid_index_in_indices (s idx : list nat) :
  valid_index s idx -> In idx (indices s).
Proof.
  intros H. induction H as [| i d idx s Hi _ IH]; [now left |].
  cbn [indices]. apply in_flat_map. exists i. split.
  - apply in_seq. lia.
  - now apply in_map.
Qed.

Lemma indices_lookup (s idx : list nat) :
  valid_index s idx -> indices s !! offset (strides s) idx = Some idx.
Proof.
  intros H. apply valid_index_in_indices in H.
  apply list_elem_of_In, list_elem_of_lookup in H as [p Hp].
  assert (Hseq : seq 0 (numel s) !! p = Some (offset (strides s) idx)).
  { rewrite <- offsets_of_strides, list_lookup_fmap, Hp. reflexivity. }
  apply lookup_seq in Hseq as [-> _]. exact Hp.
Qed.

(** Reading a tabulated tensor at a valid index. *)
Lemma get_tabulate (s idx : list nat) (g : list nat -> A) :
  valid_index s idx -> get zero (tabulate s g) idx = g idx.
Proof.
  intros H. unfold get, tabulate. cbn [shape data].
  rewrite nth_lookup, list_lookup_fmap, (indices_lookup _ _ H). reflexivity.
Qed.

Lemma well_formed_tabulate (s : list nat) (g : list nat -> A) :
  well_formed (tabulate s g).
Proof. unfold well_formed, tabulate. cbn. now rewrite length_map, length_indices. Qed.

End TensorFacts.

(** ** aps/asr/transformer/impl.py: [ApsMultiheadAttention.forward] *)

Section AttentionFacts.

Import Tensor.

Variable xavier_uniform_ : nat -> nat -> list R.
Variable linear_init : nat -> nat -> list R * list R.
Variable drop : float -> tensor Impl.val -> tensor Impl.val.

(** C1 (what the code does).  A layer the constructor builds with
    [bias=False] has [in_proj_bias = None]; [forward] subscripts it in
    [inp_proj] and raises [TypeError] on every input, so it returns neither
    the context nor the weights the reference computation returns for that
    layer. *)
Theorem forward_without_bias_raises
    (embed_dim num_heads : Z) (p : float) (self : Impl.ApsMultiheadAttention.t)
    (query key value : rtensor)
    (key_padding_mask : option (tensor bool))
    (attn_mask : option (tensor Impl.score)) :
  Impl.ApsMultiheadAttention.__init__ xavier_uniform_ linear_init
    embed_dim num_heads p false = Ok self ->
  Impl.ApsMultiheadAttention.in_proj_bias self = None /\
  Impl.ApsMultiheadAttention.forward drop self query key value
    key_padding_mask attn_mask
  = Raise (TypeError "'NoneType' object is not subscriptable").
Proof.
  unfold Impl.ApsMultiheadAttention.__init__. intros Hinit.
  repeat (destruct (decide _); [discriminate Hinit |]).
  destruct (Impl.ApsMultiheadAttention.bad_probability p); [discriminate Hinit |].
  injection Hinit as <-. split; [reflexivity |].
  unfold Impl.ApsMultiheadAttention.forward, Impl.ApsMultiheadAttention.inp_proj,
    Impl.ApsMultiheadAttention._proj.
  cbn [Impl.ApsMultiheadAttention.in_proj_weight
       Impl.ApsMultiheadAttention.in_proj_bias
       Impl.ApsMultiheadAttention.embed_dim].
  unfold Impl.slice, slice_rows, Impl.subscript. cbn [shape rbind]. reflexivity.
Qed.

End AttentionFacts.

Lemma forward_without_bias_raises_witness :
  exists self,
    Impl.ApsMultiheadAttention.__init__ AttentionDemo.ones_init
      AttentionDemo.linear_ones 2 1 0%float false = Ok self /\
    Impl.ApsMultiheadAttention.forward AttentionDemo.no_drop self
      AttentionDemo.token AttentionDemo.token AttentionDemo.token None None
    = Raise (TypeError "'NoneType' object is not subscriptable").
Proof.
  eexists. split; [reflexivity |].
  refine (proj2 (forward_without_bias_raises AttentionDemo.ones_init
                   AttentionDemo.linear_ones AttentionDemo.no_drop 2 1 0%float _
                   AttentionDemo.token AttentionDemo.token AttentionDemo.token
                   None None eq_refl)).
Defined.

(** ** aps/asr/transformer/impl.py: [_rel_shift] *)

Lemma filter_all_true {B : Type} (P : B -> Prop) `{forall x, Decision (P x)}
    (l : list B) :
  Forall P l -> filter P l = l.
Proof.
  induction 1 as [| x l Hx _ IH]; [reflexivity |].
  rewrite filter_cons_True by exact Hx. now rewrite IH.
Qed.

(** [view] with fully specified, non-negative sizes of the right product. *)
Lemma view_shape_exact (n : nat) (dims : list nat) :
  Tensor.numel dims = n ->
  Tensor.view_shape n (map Z.of_nat dims) = Ok dims.
Proof.
  intros Hn. unfold Tensor.view_shape.
  assert (Hnn : Forall (fun d => d <> (-1)%Z) (map Z.of_nat dims)).
  { apply Forall_forall. intros d Hd.
    apply list_elem_of_In, in_map_iff in Hd as (k & <- & _). lia. }
  rewrite decide_False.
  2:{ intros HE. apply Exists_exists in HE as (d & Hd & Hlt).
      apply list_elem_of_In, in_map_iff in Hd as (k & <- & _). lia. }
  cbv zeta. rewrite (filter_all_true _ _ Hnn), Nat.sub_diag.
  rewrite map_map, (map_ext _ (fun x => x)) by (intros; apply Nat2Z.id).
  rewrite map_id. now rewrite decide_True.
Qed.

Section RelShiftFacts.

Import Tensor.

Context {A : Type}.
Variable zero : A.

(** C3 (what the code does).  On every input of shape L x N x H x S,
    [_rel_shift] returns a tensor of shape L x N x H x 1: the slice [[:1]]
    keeps one row of the S+1 rows of the padded view, so the key axis is
    lost and the result has the documented shape L x N x H x S only when
    S = 1. *)
Theorem rel_shift_returns_one_column (L N H S_ : nat) (d : list A) :
  exists d',
    Impl._rel_shift zero (Tensor [L; N; H; S_] d) = Ok (Tensor [L; N; H; 1%nat] d').
Proof.
  unfold Impl._rel_shift. cbn [shape].
  unfold cat_last, zeros. cbn [shape removelast List.last data].
  rewrite decide_True by reflexivity. cbn [rbind].
  unfold einsum_permute at 1. cbn [shape length app]. rewrite decide_True by reflexivity.
  cbn [rbind]. unfold contiguous, view.
  unfold permute at 1. cbn [shape map nth data].
  change [Z.of_nat (S_ + 1); Z.of_nat L; Z.of_nat N; Z.of_nat H]
    with (map Z.of_nat [(S_ + 1)%nat; L; N; H]).
  rewrite view_shape_exact by (cbn; lia).
  cbn [rbind]. unfold slice_first. cbn [shape rbind].
  unfold einsum_permute. cbn [shape length]. rewrite decide_True by reflexivity.
  cbn [rbind]. unfold permute. cbn [shape map nth].
  replace (Nat.min 1 (S_ + 1)) with 1%nat by lia.
  eexists. reflexivity.
Qed.

End RelShiftFacts.

(** The same on a concrete input: two query positions, two key positions. *)
Example rel_shift_2x1x1x2 :
  Impl._rel_shift 0%Z (Tensor.Tensor [2; 1; 1; 2]%nat [1; 2; 3; 4]%Z)
  = Ok (Tensor.Tensor [2; 1; 1; 1]%nat [1; 2]%Z).
Proof. vm_compute. reflexivity. Qed.

(** ** Construction-time validation *)

(** C7.  The constructors validate their arguments and raise, returning
    no object: [AttASR.__init__] whenever [sos < 0] or [eos < 0];
    [TimeInvariantEnh.__init__] with [ValueError] whenever [spectra_init]
    is neither ["mel"] nor ["random"], and whenever the loaded weight tensor
    has a beam dimension [w.shape[1]] other than [spatial_filters] or a
    channel dimension [w.shape[2]] other than [num_channels];
    [_get_activation_fn] with [RuntimeError] on every name other than
    ["relu"] and ["gelu"]. *)
Theorem construction_time_validation :
  (forall (Encoder Attention Decoder CtcLinear Transform EncoderKw AttKw DecoderKw : Type)
          (encoder_instance : string -> Z -> Z -> EncoderKw -> result Encoder)
          (att_instance : string -> Z -> Z -> AttKw -> result Attention)
          (TorchDecoder : Z -> Z -> Attention -> DecoderKw -> result Decoder)
          (new_Linear : Z -> Z -> result CtcLinear)
          (a : @Att.kwargs Transform EncoderKw AttKw DecoderKw),
      (Att.sos a < 0 \/ Att.eos a < 0)%Z ->
      raises (Att.__init__ encoder_instance att_instance TorchDecoder new_Linear a)) /\
  (forall new_Conv1d new_Linear new_BatchNorm2d th_load init_melfilter strided_view
          (a : Conv.TimeInvariantEnh.kwargs),
      Conv.TimeInvariantEnh.spectra_init a <> "mel" ->
      Conv.TimeInvariantEnh.spectra_init a <> "random" ->
      Conv.TimeInvariantEnh.__init__ new_Conv1d new_Linear new_BatchNorm2d
        th_load init_melfilter strided_view a
      = Raise (ValueError ("Unsupported init method: "
                           ++ Conv.TimeInvariantEnh.spectra_init a))) /\
  (forall new_Conv1d new_Linear new_BatchNorm2d th_load init_melfilter strided_view
          (a : Conv.TimeInvariantEnh.kwargs) (path : string) (w : rtensor),
      Conv.TimeInvariantEnh.weight a = Some path ->
      path <> "" ->
      th_load path = Ok w ->
      Conv.TimeInvariantEnh.shape_at w 1
        <> Ok (Conv.TimeInvariantEnh.spatial_filters a) \/
      Conv.TimeInvariantEnh.shape_at w 2
        <> Ok (Conv.TimeInvariantEnh.num_channels a) ->
      raises (Conv.TimeInvariantEnh.__init__ new_Conv1d new_Linear new_BatchNorm2d
                th_load init_melfilter strided_view a)) /\
  (forall activation : string,
      activation <> "relu" -> activation <> "gelu" ->
      Impl._get_activation_fn activation
      = Raise (RuntimeError ("activation should be relu/gelu, not " ++ activation))).
Proof.
  repeat split.
  - intros * Hneg. unfold Att.__init__, Att.unpack.
    destruct (Att.encoder_kwargs a); cbn [rbind]; [| exact I].
    destruct (encoder_instance _ _ _ _); cbn [rbind]; [| exact I].
    destruct (Att.att_kwargs a); cbn [rbind]; [| exact I].
    destruct (att_instance _ _ _ _); cbn [rbind]; [| exact I].
    destruct (Att.decoder_kwargs a); cbn [rbind]; [| exact I].
    destruct (TorchDecoder _ _ _ _); cbn [rbind]; [| exact I].
    rewrite decide_True by tauto. exact I.
  - intros * Hmel Hrandom. unfold Conv.TimeInvariantEnh.__init__.
    rewrite bool_decide_eq_false_2; [reflexivity |].
    intros Hin. apply elem_of_cons in Hin as [? | Hin]; [contradiction |].
    apply elem_of_cons in Hin as [? | Hin]; [contradiction |].
    now apply elem_of_nil in Hin.
  - intros * Hw Hpath Hload Hdims. unfold Conv.TimeInvariantEnh.__init__.
    destruct (negb _); [exact I |].
    destruct (new_Conv1d _ _ _ _); cbn [rbind]; [| exact I].
    unfold Conv.TimeInvariantEnh.path_given. rewrite Hw.
    rewrite bool_decide_eq_false_2 by exact Hpath. cbn [negb].
    unfold Conv.TimeInvariantEnh.load_weight. rewrite Hw.
    change (default "" (Some path)) with path. rewrite Hload. cbn [rbind].
    destruct (Conv.TimeInvariantEnh.shape_at w 1) as [b |] eqn:Hb;
      cbn [rbind]; [| exact I].
    destruct (decide (b <> _)) as [| Hbeq]; [exact I |].
    destruct (Conv.TimeInvariantEnh.shape_at w 2) as [c |] eqn:Hc;
      cbn [rbind]; [| exact I].
    destruct (decide (c <> _)) as [| Hceq]; [exact I |].
    exfalso. apply dec_stable in Hbeq, Hceq. subst b c.
    destruct Hdims as [Hd | Hd]; now apply Hd.
  - intros activation Hrelu Hgelu. unfold Impl._get_activation_fn.
    rewrite decide_False by exact Hrelu. now rewrite decide_False by exact Hgelu.
Qed.

Lemma construction_time_validation_witness :
  raises (Att.__init__ (fun _ _ _ (_ : unit) => Ok tt) (fun _ _ _ (_ : unit) => Ok tt)
            (fun _ _ _ (_ : unit) => Ok tt) (fun _ _ => Ok tt)
            (Att.Kwargs (Transform := unit) 80 30 (-1) (-1) false None
                        "ctx" (Some tt) "common" 256 (Some tt) 512 (Some tt))) /\
  raises (Conv.TimeInvariantEnh.__init__
            (fun _ _ _ _ => Ok ConvDemo.conv1d)
            (fun _ _ => Ok (Conv.Linear.Make 2 1 (ConvDemo.ones [1; 2]%nat)))
            (fun _ => Ok (Conv.BatchNorm2d.Make 1 false Tensor.data))
            (fun _ => Ok (ConvDemo.ones [2; 3; 1; 2]%nat))
            (fun _ => Ok (ConvDemo.ones [1; 2]%nat))
            (fun _ t => Ok t)
            (Conv.TimeInvariantEnh.Kwargs 2 (Some "beam.pt") 1 1 1 "random" true true)) /\
  Conv.TimeInvariantEnh.__init__
    (fun _ _ _ _ => Ok ConvDemo.conv1d)
    (fun _ _ => Ok (Conv.Linear.Make 2 1 (ConvDemo.ones [1; 2]%nat)))
    (fun _ => Ok (Conv.BatchNorm2d.Make 1 false Tensor.data))
    (fun _ => Ok (ConvDemo.ones [2; 1; 1; 2]%nat))
    (fun _ => Ok (ConvDemo.ones [1; 2]%nat))
    (fun _ t => Ok t)
    (Conv.TimeInvariantEnh.Kwargs 2 None 1 1 1 "xavier" true true)
  = Raise (ValueError "Unsupported init method: xavier") /\
  Impl._get_activation_fn "tanh"
  = Raise (RuntimeError "activation should be relu/gelu, not tanh").
Proof.
  split; [| split; [| split]].
  - apply (proj1 construction_time_validation). cbn. lia.
  - apply (proj1 (proj2 (proj2 construction_time_validation))
             _ _ _ _ _ _ _ "beam.pt" (ConvDemo.ones [2; 3; 1; 2]%nat));
      [reflexivity | discriminate | reflexivity |].
    left. cbn. discriminate.
  - apply (proj1 (proj2 construction_time_validation)); discriminate.
  - apply (proj2 (proj2 (proj2 construction_time_validation))); discriminate.
Defined.

(** ** aps/task/unsuper.py: the arguments of the logarithms *)

Lemma SFcompare_antisym (x y : spec_float) :
  SFcompare y x = option_map CompOpp (SFcompare x y).
Proof.
  destruct x as [sx | sx | | sx mx ex], y as [sy | sy | | sy my ey]; cbn;
    try reflexivity;
    try (destruct sx; reflexivity); try (destruct sy; reflexivity);
    try (destruct sx, sy; reflexivity).
  destruct sx, sy; cbn; try reflexivity.
  - rewrite (Z.compare_antisym ey ex).
    destruct (ey ?= ex)%Z; cbn; try reflexivity.
    rewrite (Pos.compare_cont_antisym mx my Eq). cbn.
    now destruct (Pos.compare_cont Eq mx my).
  - rewrite (Z.compare_antisym ey ex).
    destruct (ey ?= ex)%Z; cbn; try reflexivity.
    rewrite (Pos.compare_cont_antisym mx my Eq). reflexivity.
Qed.

Lemma SFcompare_refl (x : spec_float) :
  F32.is_nan x = false -> SFcompare x x = Some Eq.
Proof.
  destruct x as [s | s | | s m e]; cbn; intros H; try reflexivity; try discriminate.
  - now destruct s.
  - rewrite Z.compare_refl.
    assert (Pos.compare_cont Eq m m = Eq) as -> by apply Pos.compare_cont_refl.
    now destruct s.
Qed.

Lemma clamp_scalar_nan_or_at_least (m x : F32.t) :
  F32.is_nan m = false -> Unsuper.nan_or_at_least m (Unsuper.clamp_scalar m x).
Proof.
  intros Hm.
  unfold Unsuper.nan_or_at_least, Unsuper.clamp_scalar, F32.ltb, F32.leb, SFltb, SFleb.
  destruct (SFcompare x m) as [[| |] |] eqn:E.
  - right. rewrite SFcompare_antisym, E. reflexivity.
  - right. now rewrite SFcompare_refl.
  - right. rewrite SFcompare_antisym, E. reflexivity.
  - left. destruct x, m; cbn in *; try discriminate; reflexivity.
Qed.

Lemma clamp_min_nan_or_at_least (m : F32.t) (t : ftensor) :
  F32.is_nan m = false ->
  Forall (Unsuper.nan_or_at_least m) (Tensor.data (Unsuper.clamp_min m t)).
Proof.
  intros Hm. apply Forall_forall. intros v Hv. cbn in Hv.
  apply list_elem_of_In, in_map_iff in Hv as (u & <- & _).
  now apply clamp_scalar_nan_or_at_least.
Qed.

Section UnsuperFacts.

Import Tensor.

Variable th_sum : list F32.t -> F32.t.
Variable symeig : ftensor -> result (ftensor * ftensor).
Variable cf_einsum : string -> list ComplexTensor32.t -> result ComplexTensor32.t.
Variable inverse : ComplexTensor32.t -> result ComplexTensor32.t.

Lemma hermitian_det_nan_or_at_least
    (Bk : ComplexTensor32.t) (e : F32.t) (det : ftensor) :
  F32.is_nan e = false ->
  Unsuper.hermitian_det symeig Bk e = Ok det ->
  Forall (Unsuper.nan_or_at_least e) (data det).
Proof.
  unfold Unsuper.hermitian_det. intros He Hdet.
  repeat match type of Hdet with
         | rbind ?r _ = _ => destruct r; cbn [rbind] in Hdet; [| discriminate Hdet]
         end.
  injection Hdet as <-. now apply clamp_min_nan_or_at_least.
Qed.

(** C8, amended.  The clamps let no value below [eps] through, but they
    let NaN through: every entry of the determinant [hermitian_det]
    returns, and every entry of the two tensors [log_pdf] hands to
    [th.log], [K] and [Dk[..., None]], is NaN or at least [eps] (for an
    [eps] that is a number).  So a logarithm is never taken of zero or of
    a negative number when [eps] is positive, as the default [EPSILON]
    is; it may be taken of NaN. *)
Theorem log_arguments_nan_or_at_least_eps :
  (forall (Bk : ComplexTensor32.t) (e : F32.t) (det : ftensor),
      F32.is_nan e = false ->
      Unsuper.hermitian_det symeig Bk e = Ok det ->
      Forall (Unsuper.nan_or_at_least e) (data det)) /\
  (forall (Nnet : Type) (self : Unsuper.t Nnet) (mask : ftensor)
          (obs : ComplexTensor32.t) (K D : ftensor),
      F32.is_nan (Unsuper.eps self) = false ->
      Unsuper.log_arguments th_sum symeig cf_einsum inverse self mask obs = Ok (K, D) ->
      Forall (Unsuper.nan_or_at_least (Unsuper.eps self)) (data K) /\
      Forall (Unsuper.nan_or_at_least (Unsuper.eps self)) (data D)) /\
  F32.ltb F32.zero Unsuper.EPSILON = true.
Proof.
  split; [exact hermitian_det_nan_or_at_least | split].
  - intros Nnet self mask obs K D He Hargs.
    unfold Unsuper.log_arguments in Hargs.
    destruct (ComplexTensor32.shape obs) as [| ? [| ? [| C [| ? [| ? ?]]]]];
      try discriminate Hargs.
    repeat match type of Hargs with
           | rbind ?r _ = _ =>
               destruct r eqn:?; cbn [rbind] in Hargs; [| discriminate Hargs]
           end.
    injection Hargs as <- <-. split.
    + now apply clamp_min_nan_or_at_least.
    + cbn [unsqueeze_last data].
      eapply hermitian_det_nan_or_at_least; eassumption.
  - reflexivity.
Qed.

End UnsuperFacts.

Lemma log_arguments_nan_or_at_least_eps_witness :
  exists K D,
    Unsuper.log_arguments UnsuperDemo.th_sum UnsuperDemo.symeig UnsuperDemo.cf_einsum
      UnsuperDemo.inverse UnsuperDemo.task UnsuperDemo.mask
      (UnsuperDemo.obs F32.one)
    = Ok (K, D) /\
    Forall (Unsuper.nan_or_at_least Unsuper.EPSILON) (Tensor.data K) /\
    Forall (Unsuper.nan_or_at_least Unsuper.EPSILON) (Tensor.data D).
Proof.
  eexists _, _.
  assert (H : Unsuper.log_arguments UnsuperDemo.th_sum UnsuperDemo.symeig UnsuperDemo.cf_einsum
                UnsuperDemo.inverse UnsuperDemo.task UnsuperDemo.mask
                (UnsuperDemo.obs F32.one)
              = Ok (Tensor.Tensor [1; 1; 1]%nat [S754_finite false 16777214 (-24)],
                    Tensor.Tensor [1; 1; 1]%nat [S754_finite false 8388609 (-23)]))
    by (vm_compute; reflexivity).
  split; [exact H |].
  exact (proj1 (proj2 (log_arguments_nan_or_at_least_eps UnsuperDemo.th_sum UnsuperDemo.symeig
                         UnsuperDemo.cf_einsum UnsuperDemo.inverse))
           unit UnsuperDemo.task UnsuperDemo.mask (UnsuperDemo.obs F32.one)
           _ _ eq_refl H).
Defined.

(** The claim as stated fails.  The observation [1e20] is finite, but its
    covariance [1e40] overflows to infinity; the eigenvalues and the
    inverse of the matrix are NaN, and [th.clamp] returns NaN for NaN: both
    arguments of the logarithms are NaN, not numbers at least [eps]. *)
Lemma clamp_passes_nan_on_overflow :
  Unsuper.log_arguments UnsuperDemo.th_sum UnsuperDemo.symeig UnsuperDemo.cf_einsum
    UnsuperDemo.inverse UnsuperDemo.task UnsuperDemo.mask
    (UnsuperDemo.obs (F32.of_Z (10 ^ 20)))
  = Ok (Tensor.Tensor [1; 1; 1]%nat [F32.nan],
        Tensor.Tensor [1; 1; 1]%nat [F32.nan]) /\
  F32.is_finite (F32.of_Z (10 ^ 20)) = true /\
  F32.leb Unsuper.EPSILON F32.nan = false /\
  Unsuper.clamp_scalar Unsuper.EPSILON F32.nan = F32.nan.
Proof. repeat split; vm_compute; reflexivity. Qed.

(** ** aps/sep/enh/phasen.py: phase normalisation *)

(** *** Rounding to single precision *)

Section Float32Facts.

Local Open Scope Z_scope.

Lemma digits2_pos_bounds (p : positive) :
  2 ^ (Z.pos (digits2_pos p) - 1) <= Z.pos p < 2 ^ Z.pos (digits2_pos p).
Proof.
  induction p as [p IH | p IH |]; cbn [digits2_pos].
  - rewrite Pos2Z.inj_succ.
    replace (Z.succ (Z.pos (digits2_pos p)) - 1) with (Z.succ (Z.pos (digits2_pos p) - 1)) by lia.
    rewrite !Z.pow_succ_r by lia. lia.
  - rewrite Pos2Z.inj_succ.
    replace (Z.succ (Z.pos (digits2_pos p)) - 1) with (Z.succ (Z.pos (digits2_pos p) - 1)) by lia.
    rewrite !Z.pow_succ_r by lia. lia.
  - cbn. lia.
Qed.

Lemma Zdigits2_mono (a b : positive) :
  (a <= b)%positive -> Z.pos (digits2_pos a) <= Z.pos (digits2_pos b).
Proof.
  intros Hab.
  pose proof (digits2_pos_bounds a) as [Ha _].
  pose proof (digits2_pos_bounds b) as [_ Hb].
  assert (Hlt : 2 ^ (Z.pos (digits2_pos a) - 1) < 2 ^ Z.pos (digits2_pos b)) by lia.
  apply Z.pow_lt_mono_r_iff in Hlt; lia.
Qed.

Lemma shr_1_m (mrs : shr_record) :
  0 <= shr_m mrs -> shr_m (shr_1 mrs) = shr_m mrs / 2.
Proof.
  destruct mrs as [m r s]. cbn [shr_m]. intros Hm.
  destruct m as [| [p | p |] | p]; cbn [shr_1 shr_m].
  - reflexivity.
  - apply Z.div_unique with (r := 1); lia.
  - apply Z.div_unique with (r := 0); lia.
  - reflexivity.
  - lia.
Qed.

Lemma iter_shr_1_m (p : positive) (mrs : shr_record) :
  0 <= shr_m mrs ->
  shr_m (SpecFloat.iter_pos shr_1 p mrs) = shr_m mrs / 2 ^ Z.pos p.
Proof.
  revert mrs. induction p as [p IH | p IH |]; intros mrs Hm; cbn [SpecFloat.iter_pos].
  - assert (H1 : 0 <= shr_m (shr_1 mrs)).
    { rewrite shr_1_m by exact Hm. apply Z.div_pos; lia. }
    assert (H2 : 0 <= shr_m (SpecFloat.iter_pos shr_1 p (shr_1 mrs))).
    { rewrite IH by exact H1. apply Z.div_pos; [exact H1 | apply Z.pow_pos_nonneg; lia]. }
    rewrite IH by exact H2. rewrite IH by exact H1. rewrite shr_1_m by exact Hm.
    rewrite !Z.div_div by (try apply Z.pow_pos_nonneg; lia).
    f_equal.
    replace (Z.pos p~1) with (1 + Z.pos p + Z.pos p) by lia.
    rewrite !Z.pow_add_r by lia. lia.
  - assert (H2 : 0 <= shr_m (SpecFloat.iter_pos shr_1 p mrs)).
    { rewrite IH by exact Hm. apply Z.div_pos; [exact Hm | apply Z.pow_pos_nonneg; lia]. }
    rewrite IH by exact H2. rewrite IH by exact Hm.
    rewrite !Z.div_div by (try apply Z.pow_pos_nonneg; lia).
    f_equal.
    replace (Z.pos p~0) with (Z.pos p + Z.pos p) by lia.
    rewrite !Z.pow_add_r by lia. lia.
  - rewrite shr_1_m by exact Hm. reflexivity.
Qed.

Lemma shr_record_of_loc_m (m : Z) (l : location) : shr_m (shr_record_of_loc m l) = m.
Proof. destruct l as [| []]; reflexivity. Qed.

Lemma round_nearest_even_ge (m : Z) (l : location) :
  m <= round_nearest_even m l <= m + 1.
Proof.
  destruct l as [| []]; cbn; try lia. destruct (Z.even m); lia.
Qed.

(** The shift to the format's exponent keeps a positive mantissa positive
    when the number is not below the least positive one. *)
Lemma shr_fexp_positive (m e : Z) (l : location) :
  0 < m -> -148 <= Zdigits2 m + e ->
  let r := shr_fexp F32.prec F32.emax m e l in
  1 <= shr_m (fst r) /\ -149 <= snd r.
Proof.
  intros Hm Hd. unfold shr_fexp, shr, fexp, emin, F32.prec, F32.emax.
  destruct m as [| p | p]; try lia. cbn [Zdigits2] in *.
  pose proof (digits2_pos_bounds p) as [Hlo Hhi].
  set (d := Z.pos (digits2_pos p)) in *.
  destruct (Z.max (d + e - 24) (3 - 128 - 24) - e) as [| n | n] eqn:En; cbn [fst snd].
  - rewrite shr_record_of_loc_m. lia.
  - rewrite iter_shr_1_m by (rewrite shr_record_of_loc_m; lia).
    rewrite shr_record_of_loc_m. split; [| lia].
    apply Z.div_le_lower_bound; [apply Z.pow_pos_nonneg; lia |].
    rewrite Z.mul_1_r.
    apply Z.le_trans with (2 ^ (d - 1)); [| exact Hlo].
    apply Z.pow_le_mono_r; lia.
  - rewrite shr_record_of_loc_m. lia.
Qed.

Lemma binary_round_aux_positive (sx : bool) (m e : Z) (l : location) :
  0 < m -> -148 <= Zdigits2 m + e ->
  (exists m' e', binary_round_aux F32.prec F32.emax sx m e l = S754_finite sx m' e'
                 /\ -149 <= e') \/
  binary_round_aux F32.prec F32.emax sx m e l = S754_infinity sx.
Proof.
  intros Hm Hd. unfold binary_round_aux.
  pose proof (shr_fexp_positive m e l Hm Hd) as H1. cbv zeta in H1.
  destruct (shr_fexp F32.prec F32.emax m e l) as [mrs' e'] eqn:E1.
  cbn [fst snd] in H1. destruct H1 as [Hm1 He1].
  pose proof (round_nearest_even_ge (shr_m mrs') (loc_of_shr_record mrs')) as Hr.
  set (m2 := round_nearest_even (shr_m mrs') (loc_of_shr_record mrs')) in *.
  assert (Hm2 : 0 < m2) by lia.
  assert (Hd2 : -148 <= Zdigits2 m2 + e').
  { destruct m2 as [| p | p]; try lia. cbn [Zdigits2]. lia. }
  pose proof (shr_fexp_positive m2 e' loc_Exact Hm2 Hd2) as H2. cbv zeta in H2.
  destruct (shr_fexp F32.prec F32.emax m2 e' loc_Exact) as [mrs'' e''] eqn:E2.
  cbn [fst snd] in H2. destruct H2 as [Hm3 He3].
  destruct (shr_m mrs'') as [| p | p]; try lia.
  destruct (e'' <=? F32.emax - F32.prec); [left; eauto | right; reflexivity].
Qed.

Lemma binary_round_aux_sign (sx : bool) (m e : Z) (l : location) :
  match binary_round_aux F32.prec F32.emax sx m e l with
  | S754_zero s | S754_infinity s | S754_finite s _ _ => s = sx
  | S754_nan => True
  end.
Proof.
  unfold binary_round_aux.
  destruct (shr_fexp _ _ m e l) as [mrs' e'].
  destruct (shr_fexp _ _ _ e' loc_Exact) as [mrs'' e''].
  destruct (shr_m mrs''); [reflexivity | | exact I].
  now destruct (e'' <=? _).
Qed.

Lemma mul_self_nonneg (x : F32.t) : F32.nonneg_or_nan (F32.mul x x).
Proof.
  destruct x as [s | s | | s m e]; cbn; try apply xorb_nilpotent; try exact I.
  pose proof (binary_round_aux_sign (xorb s s) (Z.pos (m * m)) (e + e) loc_Exact) as H.
  unfold F32.nonneg_or_nan, F32.mul, SFmul.
  destruct (binary_round_aux _ _ _ _ _ _); try rewrite H; try apply xorb_nilpotent; exact I.
Qed.

Lemma digits2_pos_iter_xO (m d : positive) :
  Z.pos (digits2_pos (Pos.iter xO m d)) = Z.pos (digits2_pos m) + Z.pos d.
Proof.
  induction d as [| d IH] using Pos.peano_ind.
  - cbn. lia.
  - rewrite Pos.iter_succ. cbn [digits2_pos]. lia.
Qed.

Lemma shl_align_digits (m : positive) (e e' : Z) :
  let r := shl_align m e e' in
  Z.pos (digits2_pos (fst r)) + snd r = Z.pos (digits2_pos m) + e /\
  (e' <= e -> snd r = e') /\ (m <= fst r)%positive.
Proof.
  unfold shl_align. destruct (e' - e) as [| d | d] eqn:E; cbn [fst snd].
  - repeat split; lia.
  - repeat split; lia.
  - rewrite digits2_pos_iter_xO. repeat split; try lia.
    clear E. induction d as [| d IH] using Pos.peano_ind.
    + cbn. lia.
    + rewrite Pos.iter_succ. lia.
Qed.

Lemma binary_round_positive (m : positive) (e : Z) :
  -148 <= Z.pos (digits2_pos m) + e ->
  (exists m' e', binary_round F32.prec F32.emax false m e = S754_finite false m' e'
                 /\ -149 <= e') \/
  binary_round F32.prec F32.emax false m e = S754_infinity false.
Proof.
  intros Hd. unfold binary_round.
  pose proof (shl_align_digits m e
                (fexp F32.prec F32.emax (Z.pos (digits2_pos m) + e))) as (H1 & _ & _).
  destruct (shl_align m e _) as [mz ez]. cbn [fst snd] in H1.
  apply binary_round_aux_positive; cbn [Zdigits2]; lia.
Qed.

Lemma add_positive (a b : F32.t) :
  F32.nonneg_or_nan a -> F32.positive_number b ->
  F32.is_nan (F32.add a b) = true \/ F32.positive_number (F32.add a b).
Proof.
  intros Ha Hb.
  destruct b as [sb | sb | | sb mb eb]; cbn in Hb; try contradiction;
    destruct sb; try contradiction.
  - (* b = +inf *)
    destruct a as [sa | sa | | sa ma ea]; cbn in Ha |- *; subst; auto.
  - destruct a as [sa | sa | | sa ma ea]; cbn in Ha; subst.
    + right. exact Hb.
    + right. exact I.
    + left. reflexivity.
    + right. unfold F32.add, SFadd. cbn [cond_Zopp].
      pose proof (shl_align_digits ma ea (Z.min ea eb)) as (A1 & A2 & A3).
      pose proof (shl_align_digits mb eb (Z.min ea eb)) as (B1 & B2 & B3).
      destruct (shl_align ma ea (Z.min ea eb)) as [ma' ea'].
      destruct (shl_align mb eb (Z.min ea eb)) as [mb' eb'].
      cbn [fst snd] in *.
      change (Z.pos ma' + Z.pos mb') with (Z.pos (ma' + mb')).
      cbn [binary_normalize].
      assert (Hd : -148 <= Z.pos (digits2_pos (ma' + mb')) + Z.min ea eb).
      { pose proof (Zdigits2_mono mb' (ma' + mb')%positive ltac:(lia)).
        specialize (B2 ltac:(lia)). lia. }
      destruct (binary_round_positive (ma' + mb') (Z.min ea eb) Hd)
        as [(m' & e' & -> & He) | ->]; [exact He | exact I].
Qed.

Lemma add_nonneg (a b : F32.t) :
  F32.nonneg_or_nan a -> F32.nonneg_or_nan b -> F32.nonneg_or_nan (F32.add a b).
Proof.
  intros Ha Hb.
  destruct a as [sa | sa | | sa ma ea], b as [sb | sb | | sb mb eb];
    cbn in Ha, Hb |- *; subst; try reflexivity; try exact I.
  unfold F32.add, SFadd. cbn [cond_Zopp].
  destruct (shl_align ma ea (Z.min ea eb)) as [ma' ea'].
  destruct (shl_align mb eb (Z.min ea eb)) as [mb' eb'].
  cbn [fst snd].
  change (Z.pos ma' + Z.pos mb') with (Z.pos (ma' + mb')).
  cbn [binary_normalize]. unfold binary_round.
  destruct (shl_align _ _ _) as [mz ez].
  pose proof (binary_round_aux_sign false (Z.pos mz) ez loc_Exact) as H.
  unfold F32.nonneg_or_nan. destruct (binary_round_aux _ _ _ _ _ _); auto.
Qed.

Lemma sqrt_positive (x : F32.t) :
  F32.positive_number x -> F32.positive_number (F32.sqrt x).
Proof.
  destruct x as [s | s | | s m e]; cbn; try contradiction; destruct s; try contradiction.
  - auto.
  - intros He. unfold F32.sqrt, SFsqrt, SFsqrt_core_binary.
    cbn [Zdigits2].
    set (e' := Z.min (fexp F32.prec F32.emax (Z.div2 (Z.pos (digits2_pos m) + e + 1)))
                     (Z.div2 e)).
    assert (He' : -149 <= e').
    { unfold e', fexp, emin, F32.prec, F32.emax.
      pose proof (Zdiv2_div e). pose proof (Z.div_le_lower_bound e 2 (-75)). lia. }
    assert (Hs : 0 <= e - 2 * e').
    { unfold e'. pose proof (Zdiv2_div e).
      pose proof (Z.mul_div_le e 2). lia. }
    set (m' := match e - 2 * e' with
               | 0 => Z.pos m
               | Z.pos _ => Z.shiftl (Z.pos m) (e - 2 * e')
               | Z.neg _ => 0
               end).
    assert (Hm' : 1 <= m').
    { unfold m'. destruct (e - 2 * e') as [| p | p] eqn:Es; try lia.
      rewrite Z.shiftl_mul_pow2 by lia.
      pose proof (Z.pow_pos_nonneg 2 (Z.pos p)). nia. }
    pose proof (Z.sqrtrem_spec m' ltac:(lia)) as Hsq.
    destruct (Z.sqrtrem m') as [q r].
    assert (Hq : 0 < q).
    {      destruct Hsq as [Heq Hr].
      assert (0 <= q) by lia.
      destruct (Z.eq_dec q 0) as [-> |]; lia. }
    set (l := if r =? 0 then loc_Exact else loc_Inexact (if r <=? q then Lt else Gt)).
    assert (Hd : -148 <= Zdigits2 q + e').
    { destruct q as [| p | p]; try lia. cbn [Zdigits2]. lia. }
    destruct (binary_round_aux_positive false q e' l Hq Hd)
      as [(m2 & e2 & -> & He2) | ->]; [exact He2 | exact I].
Qed.

Lemma shr_fexp_nonneg (m e : Z) (l : location) :
  0 <= m -> 0 <= shr_m (fst (shr_fexp F32.prec F32.emax m e l)).
Proof.
  intros Hm. unfold shr_fexp, shr.
  destruct (fexp _ _ _ - e) as [| n | n]; cbn [fst];
    try (rewrite shr_record_of_loc_m; exact Hm).
  rewrite iter_shr_1_m by (rewrite shr_record_of_loc_m; exact Hm).
  rewrite shr_record_of_loc_m. apply Z.div_pos; [exact Hm | apply Z.pow_pos_nonneg; lia].
Qed.

Lemma binary_round_aux_is_number (sx : bool) (m e : Z) (l : location) :
  0 <= m -> F32.is_nan (binary_round_aux F32.prec F32.emax sx m e l) = false.
Proof.
  intros Hm. unfold binary_round_aux.
  pose proof (shr_fexp_nonneg m e l Hm) as H1.
  destruct (shr_fexp F32.prec F32.emax m e l) as [mrs' e'].
  cbn [fst] in H1.
  pose proof (round_nearest_even_ge (shr_m mrs') (loc_of_shr_record mrs')) as Hr.
  pose proof (shr_fexp_nonneg (round_nearest_even (shr_m mrs') (loc_of_shr_record mrs'))
                e' loc_Exact ltac:(lia)) as H2.
  destruct (shr_fexp F32.prec F32.emax _ e' loc_Exact) as [mrs'' e''].
  cbn [fst] in H2.
  destruct (shr_m mrs'') as [| p | p]; try lia; [reflexivity |].
  now destruct (e'' <=? _).
Qed.

Lemma mul_self_is_nan (x : F32.t) : F32.is_nan (F32.mul x x) = F32.is_nan x.
Proof.
  destruct x as [s | s | | s m e]; try reflexivity.
  unfold F32.mul, SFmul. cbn [F32.is_nan].
  apply binary_round_aux_is_number. lia.
Qed.

Lemma add_is_nan (a b : F32.t) :
  F32.nonneg_or_nan a -> F32.nonneg_or_nan b ->
  F32.is_nan (F32.add a b) = F32.is_nan a || F32.is_nan b.
Proof.
  intros Ha Hb.
  destruct a as [sa | sa | | sa ma ea], b as [sb | sb | | sb mb eb];
    cbn in Ha, Hb; subst; try reflexivity.
  unfold F32.add, SFadd. cbn [cond_Zopp F32.is_nan orb].
  destruct (shl_align ma ea (Z.min ea eb)) as [ma' ea'].
  destruct (shl_align mb eb (Z.min ea eb)) as [mb' eb'].
  cbn [fst snd].
  change (Z.pos ma' + Z.pos mb') with (Z.pos (ma' + mb')).
  cbn [binary_normalize]. unfold binary_round.
  destruct (shl_align _ _ _) as [mz ez].
  apply binary_round_aux_is_number. lia.
Qed.

Lemma sqrt_is_nan (x : F32.t) :
  F32.nonneg_or_nan x -> F32.is_nan (F32.sqrt x) = F32.is_nan x.
Proof.
  intros Hx. destruct x as [s | s | | s m e]; cbn in Hx; subst; try reflexivity.
  unfold F32.sqrt, SFsqrt, SFsqrt_core_binary.
  cbn [Zdigits2 F32.is_nan].
  set (e' := Z.min _ _).
  set (m' := match e - 2 * e' with
             | 0 => Z.pos m
             | Z.pos _ => Z.shiftl (Z.pos m) (e - 2 * e')
             | Z.neg _ => 0
             end).
  assert (Hm' : 0 <= m').
  { unfold m'. destruct (e - 2 * e') as [| p | p] eqn:Es; try lia.
    apply Z.shiftl_nonneg. lia. }
  pose proof (Z.sqrtrem_spec m' Hm') as Hsq.
  destruct (Z.sqrtrem m') as [q r].
  apply binary_round_aux_is_number. lia.
Qed.

Lemma positive_number_ltb (x : F32.t) :
  F32.positive_number x -> F32.ltb F32.zero x = true.
Proof.
  destruct x as [s | s | | s m e]; cbn; try contradiction; now destruct s.
Qed.

Lemma positive_number_nonneg (x : F32.t) : F32.positive_number x -> F32.nonneg_or_nan x.
Proof.
  destruct x as [s | s | | s m e]; cbn; try contradiction; now destruct s.
Qed.

Lemma valid_positive (x : F32.t) :
  F32.valid x = true -> F32.ltb F32.zero x = true ->
  F32.positive_number x.
Proof.
  destruct x as [s | s | | s m e]; cbn; try discriminate.
  - now destruct s.
  - destruct s; [discriminate |]. intros Hv _.
    unfold bounded, canonical_mantissa, fexp, emin, F32.prec, F32.emax in Hv.
    apply andb_true_iff in Hv as [Hc _]. apply Z.eqb_eq in Hc. lia.
Qed.

(** The scalar content of the phase normalisation. *)
Lemma phase_divisor_scalar (eps p0 p1 : F32.t) :
  F32.positive_number eps ->
  let m := F32.sqrt (F32.add (F32.add (F32.mul p0 p0) (F32.mul p1 p1)) eps) in
  F32.is_nan m = F32.is_nan p0 || F32.is_nan p1 /\
  (F32.is_nan m = false -> F32.ltb F32.zero m = true).
Proof.
  intros Heps m.
  pose proof (mul_self_nonneg p0) as H0.
  pose proof (mul_self_nonneg p1) as H1.
  pose proof (add_nonneg _ _ H0 H1) as H01.
  pose proof (positive_number_nonneg _ Heps) as Hen.
  pose proof (add_nonneg _ _ H01 Hen) as Hs.
  assert (Hnan : F32.is_nan m = F32.is_nan p0 || F32.is_nan p1).
  { unfold m. rewrite sqrt_is_nan by exact Hs.
    rewrite add_is_nan by assumption. rewrite add_is_nan by assumption.
    rewrite !mul_self_is_nan.
    destruct eps; cbn in Heps; try contradiction; cbn; now rewrite orb_false_r. }
  split; [exact Hnan |].
  intros Hm. apply positive_number_ltb. unfold m. apply sqrt_positive.
  destruct (add_positive _ _ H01 Heps) as [Hn | Hp]; [| exact Hp].
  unfold m in Hm. rewrite sqrt_is_nan in Hm by exact Hs. congruence.
Qed.

End Float32Facts.

(** Closes [valid_index s idx] for explicit lists, the bounds being among
    the hypotheses. *)
Ltac valid_idx :=
  unfold Tensor.valid_index;
  repeat match goal with
         | |- Forall2 _ (_ :: _) (_ :: _) => constructor; [lia |]
         | |- Forall2 _ [] [] => constructor
         end.

Section PhasenFacts.

Import Tensor.

Variable EPSILON : F32.t.
Hypothesis EPSILON_valid : F32.valid EPSILON = true.
Hypothesis EPSILON_pos : F32.ltb F32.zero EPSILON = true.

Lemma phase_magnitude_entries (pha : ftensor) (N F T : nat) :
  shape pha = [N; 2; F; T]%nat ->
  Phasen.phase_magnitude EPSILON pha
  = Ok (tabulate [N; F; T]
          (fun idx =>
             let p0 := match idx with
                       | i :: rest => get F32.zero pha (i :: 0%nat :: rest)
                       | [] => F32.zero
                       end in
             let p1 := match idx with
                       | i :: rest => get F32.zero pha (i :: 1%nat :: rest)
                       | [] => F32.zero
                       end in
             F32.sqrt (F32.add (F32.add (F32.mul p0 p0) (F32.mul p1 p1)) EPSILON))).
Proof.
  intros Hs. unfold Phasen.phase_magnitude, select_axis1. rewrite Hs.
  rewrite !decide_True by lia. cbn [rbind].
  rewrite map2_same_shape.
  - cbn [rbind]. unfold map1, tabulate. cbn [shape data]. do 2 f_equal.
    rewrite !map_map, zip_with_map_same, !map_map.
    apply map_ext. intros [| i rest]; reflexivity.
  - unfold map1, well_formed. cbn [shape data tabulate].
    now rewrite !length_map, length_indices.
  - unfold map1, well_formed. cbn [shape data tabulate].
    now rewrite !length_map, length_indices.
  - reflexivity.
Qed.

(** C10, amended.  For a phase tensor of shape N x 2 x F x T and an
    [EPSILON] that is a positive single-precision number, the divisor
    [mag] is [sqrt(pha_0 * pha_0 + pha_1 * pha_1 + EPSILON)] at every
    position, the operations rounded to single precision, and the
    normalised components are [pr = pha_0 / mag], [pi = pha_1 / mag].  The
    divisor is NaN exactly when a component is NaN and is greater than zero
    otherwise: the division never divides by zero. *)
Theorem phase_divisor_is_positive (pha : ftensor) (N F T : nat) :
  shape pha = [N; 2; F; T]%nat ->
  exists mag out,
    Phasen.normalize_phase EPSILON pha = Ok (mag, out) /\
    shape mag = [N; F; T]%nat /\
    shape out = [N; 2; F; T]%nat /\
    forall n f t, (n < N)%nat -> (f < F)%nat -> (t < T)%nat ->
      let p0 := get F32.zero pha [n; 0; f; t]%nat in
      let p1 := get F32.zero pha [n; 1; f; t]%nat in
      let m := get F32.zero mag [n; f; t] in
      let pr := get F32.zero out [n; 0; f; t]%nat in
      let pi := get F32.zero out [n; 1; f; t]%nat in
      m = F32.sqrt (F32.add (F32.add (F32.mul p0 p0) (F32.mul p1 p1)) EPSILON) /\
      pr = F32.div p0 m /\ pi = F32.div p1 m /\
      F32.is_nan m = F32.is_nan p0 || F32.is_nan p1 /\
      (F32.is_nan m = false -> F32.ltb F32.zero m = true) /\
      (forall s, m <> S754_zero s).
Proof.
  intros Hs. unfold Phasen.normalize_phase.
  rewrite (phase_magnitude_entries pha N F T Hs). cbn [rbind].
  unfold unsqueeze_axis1. cbn [shape tabulate rbind data].
  unfold map2. cbn [shape]. rewrite Hs.
  assert (Hb : broadcast_shape [N; 2; F; T]%nat [N; 1; F; T]%nat
               = Some [N; 2; F; T]%nat).
  { unfold broadcast_shape. cbn.
    repeat first [ rewrite decide_True by reflexivity
                 | rewrite decide_False by lia
                 | progress cbn ].
    reflexivity. }
  rewrite Hb. cbn [rbind].
  eexists _, _. split; [reflexivity |]. split; [reflexivity |]. split; [reflexivity |].
  intros n f t Hn Hf Ht.
  set (g := fun idx : list nat =>
              let p0 := match idx with
                        | i :: rest => get F32.zero pha (i :: 0%nat :: rest)
                        | [] => F32.zero
                        end in
              let p1 := match idx with
                        | i :: rest => get F32.zero pha (i :: 1%nat :: rest)
                        | [] => F32.zero
                        end in
              F32.sqrt (F32.add (F32.add (F32.mul p0 p0) (F32.mul p1 p1)) EPSILON)).
  assert (Hmag : get F32.zero (tabulate [N; F; T] g) [n; f; t]
                 = F32.sqrt
                     (F32.add
                        (F32.add
                           (F32.mul (get F32.zero pha [n; 0; f; t]%nat)
                                    (get F32.zero pha [n; 0; f; t]%nat))
                           (F32.mul (get F32.zero pha [n; 1; f; t]%nat)
                                    (get F32.zero pha [n; 1; f; t]%nat)))
                        EPSILON)).
  { rewrite get_tabulate; [reflexivity | valid_idx]. }
  fold (tabulate [N; F; T] g).
  assert (Hout : forall c, (c < 2)%nat ->
            get F32.zero
              (tabulate [N; 2; F; T]%nat
                 (fun idx =>
                    F32.div
                      (nth (offset (broadcast_strides [N; 2; F; T]%nat [N; 2; F; T]%nat) idx)
                           (data pha) F32.zero)
                      (nth (offset (broadcast_strides [N; 1; F; T]%nat [N; 2; F; T]%nat) idx)
                           (map g (indices [N; F; T])) F32.zero)))
              [n; c; f; t]
            = F32.div (get F32.zero pha [n; c; f; t])
                      (get F32.zero (tabulate [N; F; T] g) [n; f; t])).
  { intros c Hc. rewrite get_tabulate by valid_idx.
    f_equal.
    - unfold get. rewrite Hs. f_equal.
      rewrite broadcast_strides_same.
      apply offset_broadcast_strides. valid_idx.
    - unfold get, tabulate. cbn [shape data]. f_equal.
      unfold broadcast_strides, offset. cbn.
      repeat destruct (decide _); try lia; subst; cbn; lia. }
  unfold tabulate in Hout at 1. cbv zeta. cbn [data].
  rewrite (Hout 0%nat) by lia. rewrite (Hout 1%nat) by lia. rewrite Hmag.
  pose proof (phase_divisor_scalar EPSILON
                (get F32.zero pha [n; 0; f; t]%nat) (get F32.zero pha [n; 1; f; t]%nat)
                (valid_positive EPSILON EPSILON_valid EPSILON_pos)) as (H1 & H2).
  repeat split; try assumption.
  intros s Hz. rewrite Hz in H2. specialize (H2 eq_refl). destruct s; discriminate H2.
Qed.

End PhasenFacts.

Lemma phase_divisor_is_positive_witness :
  exists mag out,
    Phasen.normalize_phase (S754_finite false 8388608 (-46))
      (Tensor.Tensor [1; 2; 1; 1]%nat [F32.of_Z 3; F32.of_Z 4]) = Ok (mag, out) /\
    Tensor.shape mag = [1; 1; 1]%nat /\
    F32.ltb F32.zero (Tensor.get F32.zero mag [0; 0; 0]%nat) = true.
Proof.
  destruct (phase_divisor_is_positive (S754_finite false 8388608 (-46))
              eq_refl eq_refl
              (Tensor.Tensor [1; 2; 1; 1]%nat [F32.of_Z 3; F32.of_Z 4]) 1 1 1 eq_refl)
    as (mag & out & Hrun & Hmag & _ & Hall).
  exists mag, out. split; [exact Hrun | split; [exact Hmag |]].
  destruct (Hall 0%nat 0%nat 0%nat ltac:(lia) ltac:(lia) ltac:(lia))
    as (_ & _ & _ & Hnan & Hpos & _).
  apply Hpos. rewrite Hnan. reflexivity.
Defined.

(** The bound [pr^2 + pi^2 < 1] of the claim fails.  With [EPSILON = 2^-23]
    and the phase [(1, 0)] the sum [1 + EPSILON] is the number after 1, its
    square root rounds to 1, and the normalised phase is [(1, 0)] again:
    [pr^2 + pi^2] is 1, exactly. *)
Lemma unit_phase_is_not_shrunk :
  let EPSILON := S754_finite false 8388608 (-46) in
  F32.valid EPSILON = true /\ F32.ltb F32.zero EPSILON = true /\
  Phasen.normalize_phase EPSILON
    (Tensor.Tensor [1; 2; 1; 1]%nat [F32.one; F32.zero])
  = Ok (Tensor.Tensor [1; 1; 1]%nat [F32.one],
        Tensor.Tensor [1; 2; 1; 1]%nat [F32.one; F32.zero]) /\
  F32.add (F32.mul F32.one F32.one) (F32.mul F32.zero F32.zero) = F32.one /\
  F32.ltb F32.one F32.one = false.
Proof. repeat split; vm_compute; reflexivity. Qed.

(** ** Shapes through the operations of the front-end *)

Lemma numel_app (a b : list nat) :
  Tensor.numel (a ++ b)%list = (Tensor.numel a * Tensor.numel b)%nat.
Proof.
  unfold Tensor.numel.
  induction a as [| x a IH]; cbn [app fold_right]; [lia |].
  rewrite IH. lia.
Qed.

Lemma map_to_nat_of_nat (l : list nat) : map Z.to_nat (map Z.of_nat l) = l.
Proof.
  rewrite map_map, (map_ext _ (fun x => x)) by (intros; apply Nat2Z.id).
  apply map_id.
Qed.

(** [view] with one inferred size among non-negative ones. *)
Lemma view_shape_infer (n k : nat) (pre post : list nat) :
  n = (k * (Tensor.numel pre * Tensor.numel post))%nat ->
  (Tensor.numel pre * Tensor.numel post)%nat <> 0%nat ->
  Tensor.view_shape n (map Z.of_nat pre ++ (-1)%Z :: map Z.of_nat post)%list
  = Ok (pre ++ k :: post)%list.
Proof.
  intros Hn Hp. unfold Tensor.view_shape.
  assert (Hne : forall l, Forall (fun d => d <> (-1)%Z) (map Z.of_nat l)).
  { intros l. apply Forall_forall. intros d Hd.
    apply list_elem_of_In, in_map_iff in Hd as (x & <- & _). lia. }
  rewrite decide_False.
  2:{ intros HE. apply Exists_exists in HE as (d & Hd & Hlt).
      apply list_elem_of_In, in_app_iff in Hd as [Hd | [<- | Hd]]; [| lia |];
        apply in_map_iff in Hd as (x & <- & _); lia. }
  cbv zeta.
  rewrite filter_app, filter_cons_False by (intros Hc; now apply Hc).
  rewrite !(filter_all_true _ _ (Hne _)).
  rewrite <- map_app, map_to_nat_of_nat, numel_app.
  replace (length (map Z.of_nat pre ++ (-1)%Z :: map Z.of_nat post)%list
           - length (map Z.of_nat (pre ++ post)%list))%nat with 1%nat
    by (rewrite length_app; cbn [length]; rewrite !length_map, length_app; lia).
  rewrite decide_False by exact Hp.
  rewrite decide_True by (subst n; apply Nat.Div0.mod_mul).
  f_equal. rewrite map_app. cbn [map]. rewrite decide_True by reflexivity.
  subst n. rewrite Nat.div_mul by exact Hp.
  assert (Hmap : forall l,
             map (fun d => if decide (d = (-1)%Z)
                           then k else Z.to_nat d) (map Z.of_nat l) = l).
  { intros l. rewrite map_map, (map_ext _ (fun x => x)); [apply map_id |].
    intros x. destruct (decide _); lia. }
  now rewrite !Hmap.
Qed.

(** [view] cannot infer a size when the given ones multiply to zero. *)
Lemma view_shape_ambiguous (n : nat) (pre post : list nat) :
  (Tensor.numel pre * Tensor.numel post)%nat = 0%nat ->
  is_runtime_error
    (Tensor.view_shape n (map Z.of_nat pre ++ (-1)%Z :: map Z.of_nat post)%list)
  = true.
Proof.
  intros Hp. unfold Tensor.view_shape.
  assert (Hne : forall l, Forall (fun d => d <> (-1)%Z) (map Z.of_nat l)).
  { intros l. apply Forall_forall. intros d Hd.
    apply list_elem_of_In, in_map_iff in Hd as (x & <- & _). lia. }
  destruct (decide (Exists _ _)); [reflexivity |].
  cbv zeta.
  rewrite filter_app, filter_cons_False by (intros Hc; now apply Hc).
  rewrite !(filter_all_true _ _ (Hne _)).
  rewrite <- map_app, map_to_nat_of_nat, numel_app.
  replace (length (map Z.of_nat pre ++ (-1)%Z :: map Z.of_nat post)%list
           - length (map Z.of_nat (pre ++ post)%list))%nat with 1%nat
    by (rewrite length_app; cbn [length]; rewrite !length_map, length_app; lia).
  now rewrite decide_True by exact Hp.
Qed.

Section ShapeFacts.

Import Tensor.

Context {A : Type}.
Variable zero : A.

Lemma transpose_shape (i j : nat) (s : list nat) (d : list A) :
  (i < length s)%nat -> (j < length s)%nat ->
  exists d',
    transpose zero i j (Tensor s d)
    = Ok (Tensor (map (fun a => nth a s 0%nat) (swap_axes i j (length s))) d').
Proof.
  intros Hi Hj. unfold transpose. cbn [shape].
  rewrite decide_True by lia. eexists. reflexivity.
Qed.

Lemma view_infer (k : nat) (pre post s : list nat) (d : list A) :
  numel s = (k * (numel pre * numel post))%nat ->
  (numel pre * numel post)%nat <> 0%nat ->
  view (map Z.of_nat pre ++ (-1)%Z :: map Z.of_nat post)%list (Tensor s d)
  = Ok (Tensor (pre ++ k :: post)%list d).
Proof.
  intros Hn Hp. unfold view. cbn [shape data].
  now rewrite (view_shape_infer _ k pre post Hn Hp).
Qed.

Lemma map2_shape (f : A -> A -> A) (s : list nat) (d1 d2 : list A) :
  exists d', map2 zero f (Tensor s d1) (Tensor s d2) = Ok (Tensor s d').
Proof.
  unfold map2. cbn [shape]. rewrite broadcast_shape_same. eexists. reflexivity.
Qed.

End ShapeFacts.

Section TransposeFacts.

Import Tensor.

Context {A : Type}.
Variable zero : A.

Lemma transpose_1_3_of_4 (a b c e : nat) (d : list A) :
  exists d', transpose zero 1 3 (Tensor [a; b; c; e] d) = Ok (Tensor [a; e; c; b] d').
Proof.
  destruct (transpose_shape zero 1 3 [a; b; c; e] d) as [d' E]; cbn; try lia.
  exists d'. rewrite E. reflexivity.
Qed.

Lemma transpose_1_2_of_3 (a b c : nat) (d : list A) :
  exists d', transpose zero 1 2 (Tensor [a; b; c] d) = Ok (Tensor [a; c; b] d').
Proof.
  destruct (transpose_shape zero 1 2 [a; b; c] d) as [d' E]; cbn; try lia.
  exists d'. rewrite E. reflexivity.
Qed.

Lemma transpose_1_2_of_4 (a b c e : nat) (d : list A) :
  exists d', transpose zero 1 2 (Tensor [a; b; c; e] d) = Ok (Tensor [a; c; b; e] d').
Proof.
  destruct (transpose_shape zero 1 2 [a; b; c; e] d) as [d' E]; cbn; try lia.
  exists d'. rewrite E. reflexivity.
Qed.

End TransposeFacts.

Lemma conv1d_shape (m : Conv.Conv1d.t) (oc ipg ks n c l : nat) (d : list R) :
  Tensor.shape (Conv.Conv1d.weight m) = [oc; ipg; ks] ->
  Conv.Conv1d.groups m <> 0%nat ->
  (oc mod Conv.Conv1d.groups m)%nat = 0%nat ->
  c = (ipg * Conv.Conv1d.groups m)%nat ->
  (ks <= l)%nat ->
  exists d',
    Conv.Conv1d.forward m (Tensor.Tensor [n; c; l] d)
    = Ok (Tensor.Tensor [n; oc; (l - ks + 1)%nat] d').
Proof.
  intros Hw Hg Hdiv Hc Hl. unfold Conv.Conv1d.forward. rewrite Hw.
  cbn [Tensor.shape].
  rewrite decide_False by (intros [? | ?]; contradiction).
  rewrite decide_False by (intros Hne; now apply Hne).
  rewrite decide_False by lia. eexists. reflexivity.
Qed.

Lemma conv1d_rejects_channels
    (m : Conv.Conv1d.t) (oc ipg ks n c l : nat) (d : list R) :
  Tensor.shape (Conv.Conv1d.weight m) = [oc; ipg; ks] ->
  c <> (ipg * Conv.Conv1d.groups m)%nat ->
  is_runtime_error (Conv.Conv1d.forward m (Tensor.Tensor [n; c; l] d)) = true.
Proof.
  intros Hw Hc. unfold Conv.Conv1d.forward. rewrite Hw. cbn [Tensor.shape].
  destruct (decide _); [reflexivity |].
  now rewrite decide_True by exact Hc.
Qed.

Lemma linear_shape (m : Conv.Linear.t) (lead : list nat) (i o : nat) (d : list R) :
  Tensor.shape (Conv.Linear.weight m) = [o; i] ->
  exists d',
    Conv.Linear.forward m (Tensor.Tensor (lead ++ [i])%list d)
    = Ok (Tensor.Tensor (lead ++ [o])%list d').
Proof.
  intros Hw. unfold Conv.Linear.forward. rewrite Hw. cbn [Tensor.shape].
  rewrite rev_unit. rewrite decide_False by (intros Hne; now apply Hne).
  rewrite rev_involutive. eexists. reflexivity.
Qed.

Lemma batchnorm_shape (bn : Conv.BatchNorm2d.t) (n c h w : nat) (d : list R) :
  c = Conv.BatchNorm2d.num_features bn ->
  Conv.BatchNorm2d.training bn = false \/ (1 < n * h * w)%nat ->
  exists d',
    Conv.BatchNorm2d.forward bn (Tensor.Tensor [n; c; h; w] d)
    = Ok (Tensor.Tensor [n; c; h; w] d').
Proof.
  intros Hc Hacc. unfold Conv.BatchNorm2d.forward. cbn [Tensor.shape].
  rewrite decide_False by (intros Hne; now apply Hne).
  assert (Hb : Conv.BatchNorm2d.training bn && (n * h * w <=? 1)%nat = false).
  { destruct Hacc as [-> | Hlt]; [reflexivity |].
    apply andb_false_intro2. apply Nat.leb_gt. exact Hlt. }
  rewrite Hb. eexists. reflexivity.
Qed.

(** ** aps/asr/enh/conv.py: [TimeInvariantEnh.forward] *)

Lemma conv1d_to_one_frame (m : Conv.Conv1d.t) (n c l o : nat) (d : list R) :
  Tensor.shape (Conv.Conv1d.weight m) = [(o * c)%nat; 1%nat; l] ->
  Conv.Conv1d.groups m = c ->
  (0 < c)%nat ->
  exists d',
    Conv.Conv1d.forward m (Tensor.Tensor [n; c; l] d)
    = Ok (Tensor.Tensor [n; (o * c)%nat; 1%nat] d').
Proof.
  intros Hw Hg Hc.
  destruct (conv1d_shape m (o * c) 1 l n c l d Hw) as [d' E]; try lia.
  - rewrite Hg. apply Nat.Div0.mod_mul.
  - exists d'. rewrite E. now rewrite Nat.sub_diag.
Qed.

Section EnhFacts.

Import Tensor.

Variable self : Conv.TimeInvariantEnh.t.
Variables F0 C0 B0 D : nat.
Hypothesis Hbuilt : Conv.TimeInvariantEnh.built_with self F0 C0 B0 D.

(** The guard of line 115. *)
Lemma forward_channel_guard (N C_ F T : nat) (dr di : list R) (eps : R) :
  Z.of_nat C_ <> Conv.TimeInvariantEnh.C self ->
  Conv.TimeInvariantEnh.forward self
    (ComplexTensor.Complex (Tensor [N; C_; F; T] dr) (Tensor [N; C_; F; T] di)) eps
  = Raise (RuntimeError
             ("Expect input channel " ++ pretty (Conv.TimeInvariantEnh.C self)
              ++ ", but " ++ pretty C_)).
Proof.
  intros Hc. unfold Conv.TimeInvariantEnh.forward, ComplexTensor.shape.
  cbn [ComplexTensor.real shape]. now rewrite decide_True by exact Hc.
Qed.

(** With the configured number of channels but another number of
    frequency bins the input is rejected as well, by [view] or by the
    convolution. *)
Lemma forward_rejects_bins (N F T : nat) (dr di : list R) (eps : R) :
  F <> F0 ->
  is_runtime_error
    (Conv.TimeInvariantEnh.forward self
       (ComplexTensor.Complex (Tensor [N; C0; F; T] dr) (Tensor [N; C0; F; T] di))
       eps) = true.
Proof.
  intros HF.
  destruct Hbuilt as ((Hw & Hg) & _ & _ & _ & _ & HC).
  unfold Conv.TimeInvariantEnh.forward, ComplexTensor.shape.
  cbn [ComplexTensor.real shape].
  rewrite decide_False by (intros Hne; now apply Hne).
  unfold ComplexTensor.transpose. cbn [ComplexTensor.real ComplexTensor.imag].
  destruct (transpose_1_3_of_4 0%R N C0 F T dr) as [dr1 ->].
  destruct (transpose_1_3_of_4 0%R N C0 F T di) as [di1 ->].
  cbn [rbind]. unfold ComplexTensor.contiguous, contiguous, ComplexTensor.view.
  cbn [ComplexTensor.real ComplexTensor.imag]. unfold view at 1. cbn [shape].
  destruct (Nat.eq_dec (numel [] * numel [F; C0]) 0) as [Hz | Hnz].
  - pose proof (view_shape_ambiguous (numel [N; T; F; C0]) [] [F; C0] Hz) as E.
    cbn [map app] in E.
    destruct (view_shape _ _) as [? | [ ]]; try discriminate E. reflexivity.
  - pose proof (view_shape_infer (numel [N; T; F; C0]) (N * T) [] [F; C0]) as E.
    cbn [map app] in E. rewrite E; [| cbn; lia | exact Hnz]. clear E.
    cbn [rbind]. unfold view. cbn [shape data].
    pose proof (view_shape_infer (numel [N; T; F; C0]) (N * T) [] [F; C0]) as E.
    cbn [map app] in E. rewrite E; [| cbn; lia | exact Hnz]. clear E.
    cbn [rbind app]. unfold Conv.ComplexConvXd.forward.
    cbn [ComplexTensor.real ComplexTensor.imag].
    unfold module_forward, Conv.Conv1d.nn_module.
    pose proof (conv1d_rejects_channels
                  (Conv.ComplexConvXd.real (Conv.TimeInvariantEnh.conv self))
                  (B0 * F0) 1 C0 (N * T) F C0 dr1 Hw ltac:(lia)) as E.
    destruct (Conv.Conv1d.forward _ _) as [? | [ ]]; try discriminate E.
    reflexivity.
Qed.

(** With the configured channels and bins, a non-empty batch and an
    accepting normalisation, [forward] returns N x T x (B * D). *)
Lemma forward_returns (N T : nat) (dr di : list R) (eps : R) :
  (0 < N)%nat -> (0 < T)%nat -> (0 < F0)%nat -> (0 < C0)%nat -> (0 < B0)%nat ->
  Conv.TimeInvariantEnh.norm_accepts self (N * T * D) ->
  exists y,
    Conv.TimeInvariantEnh.forward self
      (ComplexTensor.Complex (Tensor [N; C0; F0; T] dr) (Tensor [N; C0; F0; T] di))
      eps = Ok y /\
    shape y = [N; T; (B0 * D)%nat].
Proof.
  intros HN HT HF HC0 HB Hnorm.
  destruct Hbuilt as ((Hw & Hg) & (Hw' & Hg') & Hproj & Hbn & HB0 & HC).
  unfold Conv.TimeInvariantEnh.forward, ComplexTensor.shape.
  cbn [ComplexTensor.real shape].
  rewrite decide_False by (intros Hne; now apply Hne).
  unfold ComplexTensor.transpose. cbn [ComplexTensor.real ComplexTensor.imag].
  destruct (transpose_1_3_of_4 0%R N C0 F0 T dr) as [dr1 ->].
  destruct (transpose_1_3_of_4 0%R N C0 F0 T di) as [di1 ->].
  cbn [rbind]. unfold ComplexTensor.contiguous, contiguous, ComplexTensor.view.
  cbn [ComplexTensor.real ComplexTensor.imag].
  assert (V1 : forall d : list R, view [(-1)%Z; Z.of_nat F0; Z.of_nat C0] (Tensor [N; T; F0; C0] d)
                         = Ok (Tensor [(N * T)%nat; F0; C0] d)).
  { intros d. apply (view_infer (N * T) [] [F0; C0]); cbn; nia. }
  rewrite !V1. cbn [rbind].
  (* the complex convolution *)
  unfold Conv.ComplexConvXd.forward. cbn [ComplexTensor.real ComplexTensor.imag].
  unfold module_forward, Conv.Conv1d.nn_module.
  destruct (conv1d_to_one_frame (Conv.ComplexConvXd.real (Conv.TimeInvariantEnh.conv self))
              (N * T) F0 C0 B0 dr1) as [rr ->]; try assumption.
  destruct (conv1d_to_one_frame (Conv.ComplexConvXd.imag (Conv.TimeInvariantEnh.conv self))
              (N * T) F0 C0 B0 di1) as [ii ->]; try assumption.
  cbn [rbind].
  destruct (map2_shape 0%R Rminus [(N * T)%nat; (B0 * F0)%nat; 1%nat] rr ii) as [br ->].
  cbn [rbind].
  destruct (conv1d_to_one_frame (Conv.ComplexConvXd.real (Conv.TimeInvariantEnh.conv self))
              (N * T) F0 C0 B0 di1) as [ri ->]; try assumption.
  destruct (conv1d_to_one_frame (Conv.ComplexConvXd.imag (Conv.TimeInvariantEnh.conv self))
              (N * T) F0 C0 B0 dr1) as [ir ->]; try assumption.
  cbn [rbind].
  destruct (map2_shape 0%R Rplus [(N * T)%nat; (B0 * F0)%nat; 1%nat] ri ir) as [bi ->].
  cbn [rbind negb]. unfold map1. cbn [shape data].
  destruct (map2_shape 0%R Rplus [(N * T)%nat; (B0 * F0)%nat; 1%nat]
              (map (fun v => v ^ 2)%R br) (map (fun v => v ^ 2)%R bi)) as [sq ->].
  cbn [rbind Conv.TimeInvariantEnh.magnitude shape data].
  (* NT x F x B, NT x B x F, NT x B x D *)
  rewrite HB0.
  assert (V2 : forall d : list R, view [(-1)%Z; Z.of_nat F0; Z.of_nat B0]
                           (Tensor [(N * T)%nat; (B0 * F0)%nat; 1%nat] d)
                         = Ok (Tensor [(N * T)%nat; F0; B0] d)).
  { intros d. apply (view_infer (N * T) [] [F0; B0]); cbn; nia. }
  rewrite V2. cbn [rbind].
  destruct (transpose_1_2_of_3 0%R (N * T) F0 B0
              (map sqrt (map (fun v => (v + eps)%R) sq))) as [b ->].
  cbn [rbind].
  destruct (linear_shape (Conv.TimeInvariantEnh.proj self) [(N * T)%nat; B0] F0 D b
              Hproj) as [f Hf].
  cbn [app] in Hf. rewrite Hf. cbn [rbind].
  set (f' := if Conv.TimeInvariantEnh.log_applied self then _ else _).
  assert (Hf' : exists d, f' = Tensor [(N * T)%nat; B0; D] d).
  { unfold f'. destruct (Conv.TimeInvariantEnh.log_applied self);
      unfold map1; cbn [shape data]; eexists; reflexivity. }
  destruct Hf' as [fd ->].
  (* N x T x B x D, N x B x T x D *)
  assert (V3 : forall d : list R, view [Z.of_nat N; Z.of_nat T; Z.of_nat B0; (-1)%Z]
                           (Tensor [(N * T)%nat; B0; D] d)
                         = Ok (Tensor [N; T; B0; D] d)).
  { intros d. apply (view_infer D [N; T; B0] []); cbn; nia. }
  rewrite V3. cbn [rbind].
  destruct (transpose_1_2_of_4 0%R N T B0 D fd) as [g ->]. cbn [rbind].
  assert (Hn : exists h,
             match Conv.TimeInvariantEnh.norm self with
             | Some bn => Conv.BatchNorm2d.forward bn (Tensor [N; B0; T; D] g)
             | None => Ok (Tensor [N; B0; T; D] g)
             end = Ok (Tensor [N; B0; T; D] h)).
  { destruct (Conv.TimeInvariantEnh.norm self) as [bn |] eqn:En.
    - apply batchnorm_shape; [symmetry; now apply Hbn | now apply Hnorm].
    - eexists. reflexivity. }
  destruct Hn as [h ->]. cbn [rbind].
  destruct (transpose_1_2_of_4 0%R N B0 T D h) as [y ->]. cbn [rbind].
  assert (V4 : forall d : list R, view [Z.of_nat N; Z.of_nat T; (-1)%Z] (Tensor [N; T; B0; D] d)
                         = Ok (Tensor [N; T; (B0 * D)%nat] d)).
  { intros d. apply (view_infer (B0 * D) [N; T] []); cbn; nia. }
  rewrite V4. eexists. split; reflexivity.
Qed.

End EnhFacts.

(** C9, amended.  On a front-end built for [F0] bins, [C0] channels and
    [B0] spatial filters, whose projection weight has [D] rows, and a complex
    input of shape N x C x F x T: when [C] differs from [C0], [forward]
    raises the [RuntimeError] of its channel guard; when [C] matches but [F]
    differs from [F0] it raises a [RuntimeError] as well; when both match,
    the sizes [F0], [C0], [B0], [N] and [T] are positive and batch
    normalisation accepts its input, it returns a real tensor of shape
    N x T x (B0 * D). *)
Theorem forward_error_and_shape
    (self : Conv.TimeInvariantEnh.t) (F0 C0 B0 D N C_ F T : nat)
    (dr di : list R) (eps : R) :
  Conv.TimeInvariantEnh.built_with self F0 C0 B0 D ->
  let x := ComplexTensor.Complex (Tensor.Tensor [N; C_; F; T] dr)
                                 (Tensor.Tensor [N; C_; F; T] di) in
  (C_ <> C0 ->
   Conv.TimeInvariantEnh.forward self x eps
   = Raise (RuntimeError
              ("Expect input channel " ++ pretty (Conv.TimeInvariantEnh.C self)
               ++ ", but " ++ pretty C_))) /\
  (C_ = C0 -> F <> F0 ->
   is_runtime_error (Conv.TimeInvariantEnh.forward self x eps) = true) /\
  (C_ = C0 -> F = F0 ->
   (0 < F0)%nat -> (0 < C0)%nat -> (0 < B0)%nat -> (0 < N)%nat -> (0 < T)%nat ->
   Conv.TimeInvariantEnh.norm_accepts self (N * T * D) ->
   exists y,
     Conv.TimeInvariantEnh.forward self x eps = Ok y /\
     Tensor.shape y = [N; T; (B0 * D)%nat]).
Proof.
  intros Hbuilt x. unfold x. split; [| split].
  - intros Hc. apply forward_channel_guard.
    destruct Hbuilt as (_ & _ & _ & _ & _ & ->). lia.
  - intros -> HF. now apply (forward_rejects_bins self F0 C0 B0 D).
  - intros -> -> HF0 HC0 HB0 HN HT Hn. now apply (forward_returns self F0 C0 B0 D).
Qed.

Lemma demo_enh_built : Conv.TimeInvariantEnh.built_with ConvDemo.enh 2 1 1 1.
Proof.
  repeat split; try reflexivity. intros bn [= <-]. reflexivity.
Qed.

(** C9 as stated fails: the demo front-end is built for one channel and two
    bins; an input 1 x 1 x 3 x 1 has the configured channel count and is
    rejected with a [RuntimeError] all the same. *)
Lemma runtime_error_with_matching_channels :
  Z.of_nat 1 = Conv.TimeInvariantEnh.C ConvDemo.enh /\
  is_runtime_error
    (Conv.TimeInvariantEnh.forward ConvDemo.enh (ConvDemo.input 1 1 3 1)
       (/ 100000)%R) = true /\
  ~ (is_runtime_error
       (Conv.TimeInvariantEnh.forward ConvDemo.enh (ConvDemo.input 1 1 3 1)
          (/ 100000)%R) = true
     <-> Z.of_nat 1 <> Conv.TimeInvariantEnh.C ConvDemo.enh).
Proof.
  assert (H : is_runtime_error
                (Conv.TimeInvariantEnh.forward ConvDemo.enh (ConvDemo.input 1 1 3 1)
                   (/ 100000)%R) = true).
  { apply (forward_rejects_bins ConvDemo.enh 2 1 1 1 demo_enh_built 1 3 1). lia. }
  split; [reflexivity | split; [exact H |]].
  intros [Hiff _]. now apply (Hiff H).
Qed.

Lemma forward_error_and_shape_witness :
  Conv.TimeInvariantEnh.forward ConvDemo.enh (ConvDemo.input 1 2 2 1) (/ 100000)%R
  = Raise (RuntimeError "Expect input channel 1, but 2") /\
  is_runtime_error
    (Conv.TimeInvariantEnh.forward ConvDemo.enh (ConvDemo.input 1 1 3 1)
       (/ 100000)%R) = true /\
  exists y,
    Conv.TimeInvariantEnh.forward ConvDemo.enh (ConvDemo.input 2 1 2 3)
      (/ 100000)%R = Ok y /\
    Tensor.shape y = [2; 3; 1]%nat.
Proof.
  split; [| split].
  - refine (proj1 (forward_error_and_shape ConvDemo.enh 2 1 1 1 1 2 2 1
                     _ _ (/ 100000)%R demo_enh_built) _); lia.
  - refine (proj1 (proj2 (forward_error_and_shape ConvDemo.enh 2 1 1 1 1 1 3 1
                            _ _ (/ 100000)%R demo_enh_built))
                  eq_refl _); lia.
  - refine (proj2 (proj2 (forward_error_and_shape ConvDemo.enh 2 1 1 1 2 1 2 3
                            _ _ (/ 100000)%R demo_enh_built))
                  eq_refl eq_refl _ _ _ _ _ _); try lia.
    intros bn [= <-]. left. reflexivity.
Defined.

(** ** aps/asr/enh/conv.py: [ComplexConvXd.forward] *)

Lemma map_zip_with_maps {B C D E F : Type}
    (h : E -> F) (f : C -> D -> E) (g : B -> C) (g' : B -> D) (a b : list B) :
  map h (zip_with f (map g a) (map g' b))
  = zip_with (fun x y => h (f (g x) (g' y))) a b.
Proof.
  revert b. induction a as [| x a IH]; intros [| y b]; cbn; try reflexivity.
  now rewrite IH.
Qed.

Section ComplexConvFacts.

Import Tensor.

Context {M : Type} `{NNModule M}.

(** C4.  On a complex input whose four real convolutions succeed with one
    output shape, [ComplexConvXd.forward] returns the complex tensor with
    real part [real(xr) - imag(xi)] and imaginary part [real(xi) + imag(xr)],
    entry by entry; with [add_abs] it returns instead the entries
    [sqrt(br^2 + bi^2 + eps)]. *)
Theorem complex_conv_forward
    (self : Conv.ComplexConvXd.t M) (x : ComplexTensor.t) (eps : R)
    (rr ii ri ir : rtensor) :
  module_forward (Conv.ComplexConvXd.real self) (ComplexTensor.real x) = Ok rr ->
  module_forward (Conv.ComplexConvXd.imag self) (ComplexTensor.imag x) = Ok ii ->
  module_forward (Conv.ComplexConvXd.real self) (ComplexTensor.imag x) = Ok ri ->
  module_forward (Conv.ComplexConvXd.imag self) (ComplexTensor.real x) = Ok ir ->
  well_formed rr -> well_formed ii -> well_formed ri -> well_formed ir ->
  shape ii = shape rr -> shape ri = shape rr -> shape ir = shape rr ->
  let br := Tensor (shape rr) (zip_with Rminus (data rr) (data ii)) in
  let bi := Tensor (shape rr) (zip_with Rplus (data ri) (data ir)) in
  Conv.ComplexConvXd.forward self (PyComplexTensor x) false eps
  = Ok (Conv.OutComplex (ComplexTensor.Complex br bi)) /\
  Conv.ComplexConvXd.forward self (PyComplexTensor x) true eps
  = Ok (Conv.OutReal
          (Tensor (shape rr)
             (zip_with (fun r i => sqrt (r ^ 2 + i ^ 2 + eps))%R
                       (data br) (data bi)))).
Proof.
  intros Hrr Hii Hri Hir Wrr Wii Wri Wir Sii Sri Sir br bi.
  assert (Ebr : map2 0%R Rminus rr ii = Ok br)
    by (now apply map2_same_shape).
  assert (Ebi : map2 0%R Rplus ri ir = Ok bi).
  { rewrite (map2_same_shape 0%R Rplus ri ir Wri Wir) by congruence.
    unfold bi. now rewrite Sri. }
  unfold Conv.ComplexConvXd.forward.
  rewrite Hrr, Hii, Hri, Hir. cbn [rbind]. rewrite Ebr, Ebi. cbn [rbind negb].
  split; [reflexivity |].
  assert (Lbr : length (data br) = numel (shape rr)).
  { unfold br, well_formed in *. cbn. rewrite length_zip_with. rewrite Sii in Wii. lia. }
  assert (Lbi : length (data bi) = numel (shape rr)).
  { unfold bi, well_formed in *. cbn. rewrite length_zip_with.
    rewrite Sri in Wri. rewrite Sir in Wir. lia. }
  rewrite map2_same_shape.
  - cbn [rbind]. do 2 f_equal. unfold map1. cbn [shape data]. f_equal.
    rewrite map_map. apply map_zip_with_maps.
  - unfold well_formed, map1. cbn [shape data]. now rewrite length_map.
  - unfold well_formed, map1. cbn [shape data]. now rewrite length_map.
  - reflexivity.
Qed.

End ComplexConvFacts.

Lemma complex_conv_forward_witness :
  exists br bi,
    Conv.ComplexConvXd.forward
      (Conv.ComplexConvXd.Make ConvDemo.conv1d ConvDemo.conv1d)
      (PyComplexTensor
         (ComplexTensor.Complex (ConvDemo.ones [1; 2; 1]%nat)
                                (ConvDemo.ones [1; 2; 1]%nat)))
      false 0%R
    = Ok (Conv.OutComplex (ComplexTensor.Complex br bi)) /\
    Tensor.shape br = [1; 2; 1]%nat /\ Tensor.shape bi = [1; 2; 1]%nat.
Proof.
  eexists _, _. split.
  - refine (proj1 (complex_conv_forward
                     (Conv.ComplexConvXd.Make ConvDemo.conv1d ConvDemo.conv1d)
                     (ComplexTensor.Complex (ConvDemo.ones [1; 2; 1]%nat)
                                            (ConvDemo.ones [1; 2; 1]%nat))
                     0%R _ _ _ _ eq_refl eq_refl eq_refl eq_refl
                     eq_refl eq_refl eq_refl eq_refl eq_refl eq_refl eq_refl)).
  - split; reflexivity.
Defined.

(** Closes [x ∉ l] or [x ∈ l] for an explicit list [l] of calls. *)
Ltac not_among :=
  let Hin := fresh "Hin" in
  cbn; intros Hin;
  repeat (apply elem_of_cons in Hin as [Hin | Hin]; [discriminate |]);
  now apply elem_of_nil in Hin.

(** The condition the left-hand side of an equation is waiting on: the
    innermost scrutinee at the head of nested matches. *)
Ltac head_scrutinee e :=
  lazymatch e with
  | match ?x with _ => _ end => head_scrutinee x
  | (match ?x with _ => _ end) _ => head_scrutinee x
  | _ => e
  end.

(** Case analysis on that condition in hypothesis [H], dropping the cases
    in which [H] equates distinct results. *)
Ltac branch_in H :=
  match type of H with
  | ?lhs = _ =>
      let c := head_scrutinee lhs in
      lazymatch c with
      | lhs => fail "no condition left"
      | _ => destruct c eqn:?; cbn in H |- *; try discriminate H
      end
  end.

Section ApexFacts.

#[local] Arguments is_finite : simpl never.
#[local] Arguments Apex.truthy : simpl never.

Context {Egs Buffers OptimInner SchedState AmpState Rng : Type}.
Variable rt : Apex.runtime Egs Buffers OptimInner SchedState AmpState Rng.

Abbreviation trainer := (Apex.trainer Buffers OptimInner SchedState AmpState Rng).

Lemma task_nnet_set_nnet (n : Apex.nnet Buffers) (k : Apex.task_obj Buffers) :
  Apex.task_nnet (Apex.task_set_nnet n k) = n.
Proof. induction k as [m | k IH]; simpl; [reflexivity | exact IH]. Qed.

Lemma model_params_set_buffers (b : Buffers) (t : trainer) :
  Apex.model_params (Apex.set_buffers b t) = Apex.model_params t.
Proof.
  unfold Apex.model_params, Apex.set_buffers. simpl.
  now rewrite task_nnet_set_nnet.
Qed.

Lemma model_params_set_params (p : list float) (t : trainer) :
  Apex.model_params (Apex.set_params p t) = p.
Proof.
  unfold Apex.model_params, Apex.set_params. simpl.
  now rewrite task_nnet_set_nnet.
Qed.

(** C2.  A step whose forward loss is not finite returns [False], never
    calls [optimizer.step] and leaves every model parameter as it was;
    the same holds when clipping is enabled and the norm returned by
    [clip_grad_norm_] is not finite. *)
Theorem train_one_step_skips_non_finite (egs : Egs) (t : trainer) (loss : float) :
  Apex.forward_stats rt egs t !! "loss" = Some loss ->
  (is_finite loss = false ->
   exists t' new,
     Apex.train_one_step rt egs t = (Ok false, t') /\
     Apex.model_params t' = Apex.model_params t /\
     Apex.calls t' = (Apex.calls t ++ new)%list /\
     Apex.OptimizerStep ∉ new) /\
  (forall c : float,
     is_finite loss = true ->
     Apex.clip_gradient t = Some c ->
     Apex.truthy (Some c) = true ->
     is_finite
       (snd (Apex.clip_grad_norm_ rt (Apex.grads (Apex.backward_done rt egs t)) c))
       = false ->
     exists t' new,
       Apex.train_one_step rt egs t = (Ok false, t') /\
       Apex.model_params t' = Apex.model_params t /\
       Apex.calls t' = (Apex.calls t ++ new)%list /\
       Apex.OptimizerStep ∉ new).
Proof.
  unfold Apex.forward_stats. intros Hloss. split.
  - intros Hnf.
    unfold Apex.train_one_step, Apex.bind, Apex.optimizer_zero_grad,
      Apex.task_call, Apex.lift, Apex.getitem.
    cbn.
    destruct (Apex.task_forward rt _ egs _) as [stats b] eqn:Hf.
    cbn in Hloss |- *. rewrite Hloss, Hnf. cbn.
    eexists _, _. split; [reflexivity |]. split; [| split].
    + unfold Apex.model_params. cbn. now rewrite task_nnet_set_nnet.
    + cbn. rewrite <- !app_assoc. reflexivity.
    + not_among.
  - intros c Hfin Hc Htr Hnorm.
    unfold Apex.backward_done in Hnorm.
    unfold Apex.train_one_step, Apex.bind, Apex.optimizer_zero_grad,
      Apex.task_call, Apex.lift, Apex.getitem, Apex.amp_scale_loss_backward,
      Apex.get, Apex.clip_grad_norm in *.
    cbn in Hnorm |- *.
    destruct (Apex.task_forward rt _ egs _) as [stats b] eqn:Hf.
    cbn in Hloss, Hnorm |- *.
    rewrite Hloss, Hfin. cbn.
    destruct (Apex.scaled_backward rt _ stats _ _) as [a g] eqn:Hb.
    cbn in Hnorm |- *.
    rewrite Hc, Htr. cbn.
    destruct (Apex.clip_grad_norm_ rt g c) as [g' norm] eqn:Hcl.
    cbn in Hnorm |- *. rewrite Hnorm. cbn.
    eexists _, _. split; [reflexivity |]. split; [| split].
    + unfold Apex.model_params. cbn. now rewrite task_nnet_set_nnet.
    + cbn. rewrite <- !app_assoc. reflexivity.
    + not_among.
Qed.

(** C5, amended.  When Gaussian noise is disabled ([gaussian_noise_std] is
    [None] or zero), a step that returns [True] leaves in the model exactly
    the parameter values stored by [optimizer.step]: no call that writes
    parameters follows or precedes it.  When noise is enabled the call of
    [add_gaussian_noise] comes right after [optimizer.step]. *)
Theorem params_after_successful_step (egs : Egs) (t t' : trainer) :
  Apex.train_one_step rt egs t = (Ok true, t') ->
  (Apex.truthy (Apex.gaussian_noise_std t) = false ->
   Apex.model_params t' = Apex.stepped_params rt egs t /\
   exists pre post,
     Apex.calls t' = (Apex.calls t ++ pre ++ Apex.OptimizerStep :: post)%list /\
     Forall (fun c => Apex.writes_params c = false) pre /\
     Forall (fun c => Apex.writes_params c = false) post) /\
  (Apex.truthy (Apex.gaussian_noise_std t) = true ->
   exists pre post,
     Apex.calls t' =
       (Apex.calls t ++ pre
          ++ Apex.OptimizerStep :: Apex.AddGaussianNoise :: post)%list /\
     Forall (fun c => Apex.writes_params c = false) pre /\
     Forall (fun c => Apex.writes_params c = false) post).
Proof.
  intros H.
  unfold Apex.stepped_params, Apex.step_grads, Apex.backward_done.
  unfold Apex.train_one_step, Apex.after_optimizer_step, Apex.bind,
    Apex.optimizer_zero_grad, Apex.task_call, Apex.lift, Apex.getitem,
    Apex.amp_scale_loss_backward, Apex.get, Apex.clip_grad_norm,
    Apex.optimizer_step, Apex.add_gaussian_noise, Apex.reporter_update,
    Apex.reporter_log, Apex.lr_scheduler_step, Apex.current_lr, Apex.getitem,
    Apex.ret in *.
  cbn in H |- *.
  repeat branch_in H.
  all: injection H as <-.
  all: unfold Apex.model_params; cbn; rewrite ?task_nnet_set_nnet; cbn.
  all: split; intros Hstd; try discriminate Hstd.
  all: try (split; [reflexivity |]).
  all: rewrite <- ?app_assoc; cbn.
  all: first
    [ exists [Apex.ZeroGrad; Apex.TaskForward; Apex.ScaledBackward; Apex.ClipGradNorm];
      eexists; split; [reflexivity |]
    | exists [Apex.ZeroGrad; Apex.TaskForward; Apex.ScaledBackward];
      eexists; split; [reflexivity |] ].
  all: split; repeat constructor.
Qed.

(** [setup_distributed], the last step of the constructor, leaves the flag
    [distributed] in agreement with the wrapping of the task. *)
Lemma setup_distributed_wrapped_as_flagged
    (opt_level : string) (t t' : trainer) (n : Apex.nnet Buffers) r :
  Apex.task t = Apex.TaskModule n ->
  Apex.setup_distributed rt opt_level t = (r, t') ->
  Apex.wrapped_as_flagged t' = true.
Proof.
  intros Ht. unfold Apex.setup_distributed, Apex.bind, Apex.get, Apex.reporter_log.
  cbn. rewrite Ht. cbn.
  destruct (2 <=? Apex.cuda_devices t)%Z; cbn;
    (destruct (Apex.cpt_stats t) as [d |]; cbn;
     [ destruct (decide (d = ∅)); cbn;
       [ | destruct (d !! "amp_state_dict") as [[] |]; cbn ] | ]);
    intros [= _ <-]; reflexivity.
Qed.

(** C6.  On a trainer whose [distributed] flag agrees with its task,
    [checkpoint_states] returns a dictionary with exactly the five keys
    [epoch], [amp_state_dict], [model_state_dict], [optim_state_dict] and
    [lr_scheduler_dict], bound to the epoch and to the four states. *)
Theorem checkpoint_states_five_entries (epoch : Z) (t : trainer) :
  Apex.wrapped_as_flagged t = true ->
  exists d,
    Apex.checkpoint_states epoch t = Ok d /\
    dom d = list_to_set
              ["epoch"; "amp_state_dict"; "model_state_dict";
               "optim_state_dict"; "lr_scheduler_dict"] /\
    size d = 5 /\
    d !! "epoch" = Some (Apex.CptEpoch epoch) /\
    d !! "amp_state_dict" = Some (Apex.CptAmp (Apex.amp t)) /\
    d !! "model_state_dict" = Some (Apex.CptModel (Apex.task_nnet (Apex.task t))) /\
    d !! "optim_state_dict" = Some (Apex.CptOptim (Apex.optimizer t)) /\
    d !! "lr_scheduler_dict" = Some (Apex.CptSched (Apex.lr_scheduler t)).
Proof.
  intros Hw.
  assert (Hm : (if Apex.distributed t
                then rbind (Apex.get_module (Apex.task t)) (fun m => Apex.get_nnet m)
                else Apex.get_nnet (Apex.task t))
               = Ok (Apex.task_nnet (Apex.task t))).
  { unfold Apex.wrapped_as_flagged in Hw.
    destruct (Apex.task t) as [n | [n | k]], (Apex.distributed t);
      try discriminate; reflexivity. }
  unfold Apex.checkpoint_states. rewrite Hm. cbn [rbind].
  eexists. split; [reflexivity |].
  match goal with |- dom ?m = ?ks /\ _ => assert (Hdom : dom m = ks) end.
  { rewrite !dom_insert_L, dom_empty_L. cbn. set_solver. }
  split; [exact Hdom | split].
  - rewrite <- size_dom, Hdom, size_list_to_set; [reflexivity |].
    apply (bool_decide_unpack _). vm_compute. reflexivity.
  - repeat split; by simplify_map_eq.
Qed.

End ApexFacts.

Lemma train_one_step_skips_non_finite_witness :
  (exists t' new,
     Apex.train_one_step (ApexDemo.demo_rt nan 0) tt (ApexDemo.demo_trainer None None)
       = (Ok false, t') /\
     Apex.model_params t' = [2%float] /\
     Apex.calls t' = new /\
     Apex.OptimizerStep ∉ new) /\
  (exists t' new,
     Apex.train_one_step (ApexDemo.demo_rt 1 infinity) tt
       (ApexDemo.demo_trainer (Some 5%float) None)
       = (Ok false, t') /\
     Apex.model_params t' = [2%float] /\
     Apex.calls t' = new /\
     Apex.OptimizerStep ∉ new).
Proof.
  split.
  - exact (proj1 (train_one_step_skips_non_finite (ApexDemo.demo_rt nan 0) tt
                    (ApexDemo.demo_trainer None None) nan eq_refl) eq_refl).
  - exact (proj2 (train_one_step_skips_non_finite (ApexDemo.demo_rt 1 infinity) tt
                    (ApexDemo.demo_trainer (Some 5%float) None) 1%float eq_refl)
                 5%float eq_refl eq_refl eq_refl eq_refl).
Defined.

(** C5 as stated fails: with [gaussian_noise_std = 0.5] the step succeeds,
    [optimizer.step] stores [1.5] and [add_gaussian_noise] then overwrites
    the parameter with [2.0] before [True] is returned. *)
Lemma noise_rewrites_params_after_optimizer_step :
  fst (Apex.train_one_step (ApexDemo.demo_rt 1 0) tt
         (ApexDemo.demo_trainer None (Some 0.5%float))) = Ok true /\
  Apex.stepped_params (ApexDemo.demo_rt 1 0) tt
    (ApexDemo.demo_trainer None (Some 0.5%float)) = [1.5%float] /\
  Apex.model_params
    (snd (Apex.train_one_step (ApexDemo.demo_rt 1 0) tt
            (ApexDemo.demo_trainer None (Some 0.5%float)))) = [2%float] /\
  Apex.model_params
    (snd (Apex.train_one_step (ApexDemo.demo_rt 1 0) tt
            (ApexDemo.demo_trainer None (Some 0.5%float))))
  <> Apex.stepped_params (ApexDemo.demo_rt 1 0) tt
       (ApexDemo.demo_trainer None (Some 0.5%float)) /\
  Apex.calls
    (snd (Apex.train_one_step (ApexDemo.demo_rt 1 0) tt
            (ApexDemo.demo_trainer None (Some 0.5%float))))
  = [Apex.ZeroGrad; Apex.TaskForward; Apex.ScaledBackward; Apex.OptimizerStep;
     Apex.AddGaussianNoise; Apex.ReporterUpdate; Apex.LrSchedulerStep].
Proof.
  repeat split; try (vm_compute; reflexivity).
  intros H.
  apply (f_equal (fun l => match l with
                           | x :: _ => PrimFloat.eqb x 2
                           | [] => false
                           end)) in H.
  vm_compute in H. discriminate H.
Qed.

Lemma params_after_successful_step_witness :
  Apex.model_params
    (snd (Apex.train_one_step (ApexDemo.demo_rt 1 0) tt
            (ApexDemo.demo_trainer None None)))
  = Apex.stepped_params (ApexDemo.demo_rt 1 0) tt
      (ApexDemo.demo_trainer None None).
Proof.
  refine (proj1 (proj1 (params_after_successful_step (ApexDemo.demo_rt 1 0) tt
                          (ApexDemo.demo_trainer None None) _ _) _)).
  - vm_compute. reflexivity.
  - reflexivity.
Defined.

Lemma checkpoint_states_five_entries_witness :
  exists d,
    Apex.checkpoint_states 3 (ApexDemo.demo_trainer None None) = Ok d /\
    size d = 5.
Proof.
  destruct (checkpoint_states_five_entries 3 (ApexDemo.demo_trainer None None)
              eq_refl) as (d & Hd & _ & Hsize & _).
  exists d. split; [exact Hd | exact Hsize].
Defined.

(** Added to the content term of shape 2 x 1 x 1 x 2, that single column is
    broadcast along the key axis: no shape error reveals the loss. *)
Example rel_shift_term_is_broadcast :
  rbind (Impl._rel_shift 0%Z (Tensor.Tensor [2; 1; 1; 2]%nat [1; 2; 3; 4]%Z))
        (fun term_bd =>
           Tensor.map2 0%Z Z.add
             (Tensor.Tensor [2; 1; 1; 2]%nat [10; 20; 30; 40]%Z) term_bd)
  = Ok (Tensor.Tensor [2; 1; 1; 2]%nat [11; 21; 32; 42]%Z).
Proof. vm_compute. reflexivity. Qed.

(** * Further properties *)

(** ** Tensors: broadcasting, conversion and rows *)

Section BroadcastFacts.

Import Tensor.

Lemma zip_broadcast_tabulate {A B C : Type} (za : A) (zb : B) (f : A -> B -> C)
    (a : tensor A) (b : tensor B) (s : list nat) :
  broadcast_shape (shape a) (shape b) = Some s ->
  zip_broadcast za zb f a b
  = Ok (tabulate s
          (fun idx =>
             f (nth (offset (broadcast_strides (shape a) s) idx) (data a) za)
               (nth (offset (broadcast_strides (shape b) s) idx) (data b) zb))).
Proof. intros H. unfold zip_broadcast. rewrite H. reflexivity. Qed.

Lemma offset_in_range (s idx : list nat) :
  valid_index s idx -> (offset (strides s) idx < numel s)%nat.
Proof.
  intros H. apply indices_lookup in H. apply lookup_lt_Some in H.
  now rewrite length_indices in H.
Qed.

Lemma get_tmap {A C : Type} (za : A) (zc : C) (f : A -> C) (t : tensor A)
    (idx : list nat) :
  well_formed t -> valid_index (shape t) idx ->
  get zc (tmap f t) idx = f (get za t idx).
Proof.
  intros Hw Hv. unfold get, tmap. cbn [shape data].
  apply offset_in_range in Hv. rewrite <- Hw in Hv.
  rewrite nth_indep with (d' := f za) by now rewrite length_map.
  apply map_nth.
Qed.

Lemma well_formed_tmap {A C : Type} (f : A -> C) (t : tensor A) :
  well_formed t -> well_formed (tmap f t).
Proof. unfold well_formed, tmap. cbn. now rewrite length_map. Qed.

Lemma get_zip_same {A B C : Type} (za : A) (zb : B) (zc : C) (f : A -> B -> C)
    (a : tensor A) (b : tensor B) :
  shape b = shape a ->
  exists r,
    zip_broadcast za zb f a b = Ok r /\ shape r = shape a /\ well_formed r /\
    forall idx, valid_index (shape a) idx ->
      get zc r idx = f (get za a idx) (get zb b idx).
Proof.
  intros Hs.
  erewrite zip_broadcast_tabulate by (rewrite Hs; apply broadcast_shape_same).
  eexists. split; [reflexivity |]. split; [reflexivity |].
  split; [apply well_formed_tabulate |].
  intros idx Hv.
  rewrite (get_tabulate _ _ _ _ Hv). unfold get. rewrite Hs, broadcast_strides_same.
  rewrite (offset_broadcast_strides _ _ _ Hv). reflexivity.
Qed.

Lemma nth_repeat_in {A : Type} (a d : A) (n m : nat) :
  (n < m)%nat -> nth n (repeat a m) d = a.
Proof.
  intros H. rewrite nth_indep with (d' := a) by now rewrite repeat_length.
  apply nth_repeat.
Qed.

Lemma prep_sub_mask_entries (T : nat) :
  exists mask,
    Impl.prep_sub_mask (Z.of_nat T) = Ok mask /\
    shape mask = [T; T] /\
    forall i j, (i < T)%nat -> (j < T)%nat ->
      get Impl.NegInf mask [i; j]
      = if decide (i < j)%nat then Impl.NegInf else Impl.Finite 0.
Proof.
  unfold Impl.prep_sub_mask, Impl.ones.
  rewrite decide_False.
  2:{ intros HE. apply Exists_exists in HE as (d & Hd & Hlt).
      repeat (apply elem_of_cons in Hd as [-> | Hd]; [lia |]).
      now apply elem_of_nil in Hd. }
  cbn [map rbind]. rewrite Nat2Z.id.
  unfold Impl.triu. cbn [shape length]. rewrite decide_True by lia.
  cbn [rbind Nat.sub].
  set (g := fun idx : list nat => _).
  set (u := tabulate [T; T] g).
  set (mask := Impl.to_float (Impl.eq_scalar 1 u)).
  assert (Hwu : well_formed u) by apply well_formed_tabulate.
  assert (Hwm : well_formed mask).
  { unfold mask, Impl.to_float, Impl.eq_scalar. now do 2 apply well_formed_tmap. }
  assert (Hentry : forall i j, (i < T)%nat -> (j < T)%nat ->
            get 0%R mask [i; j] = if decide (i < j)%nat then 1%R else 0%R).
  { intros i j Hi Hj.
    assert (Hv : valid_index [T; T] [i; j]) by (repeat constructor; lia).
    unfold mask, Impl.to_float, Impl.eq_scalar.
    rewrite (get_tmap false) by (try apply well_formed_tmap; assumption).
    rewrite (get_tmap 0%R) by assumption.
    unfold u. rewrite (get_tabulate _ _ _ _ Hv). unfold g. cbn [nth].
    destruct (decide (i + 1 <= j)%nat).
    - rewrite decide_True by lia.
      unfold get. cbn [shape data strides numel fold_right].
      rewrite nth_repeat_in.
      + destruct (Req_dec_T 1 1); [reflexivity | congruence].
      + apply (offset_in_range [T; T] [i; j] Hv).
    - rewrite decide_False by lia.
      destruct (Req_dec_T 0 1); [lra | reflexivity]. }
  unfold Impl.masked_fill.
  destruct (get_zip_same Impl.NegInf false Impl.NegInf
              (fun x (m : bool) => if m then Impl.NegInf else x)
              (tmap Impl.Finite mask) (Impl.eq_scalar 1 mask) eq_refl)
    as (r & -> & Hs & _ & Hget).
  cbn [rbind]. rewrite decide_True by exact Hs.
  eexists. split; [reflexivity |]. split; [exact Hs |].
  intros i j Hi Hj.
  assert (Hv : valid_index [T; T] [i; j]) by (repeat constructor; lia).
  rewrite (Hget _ Hv).
  rewrite (get_tmap 0%R) by assumption.
  unfold Impl.eq_scalar. rewrite (get_tmap 0%R) by assumption.
  rewrite (Hentry i j Hi Hj).
  destruct (decide (i < j)%nat).
  - destruct (Req_dec_T 1 1); [reflexivity | congruence].
  - destruct (Req_dec_T 0 1); [lra | reflexivity].
Qed.


Lemma nth_concat_repeat {A : Type} (l : list A) (n i j : nat) (d : A) :
  (i < n)%nat -> (j < length l)%nat ->
  nth (i * length l + j) (concat (repeat l n)) d = nth j l d.
Proof.
  revert i. induction n as [| n IH]; intros i Hi Hj; [lia |].
  cbn [repeat concat]. destruct i as [| i].
  - cbn. now apply app_nth1.
  - rewrite app_nth2 by lia.
    replace (S i * length l + j - length l)%nat with (i * length l + j)%nat by lia.
    apply IH; lia.
Qed.

Lemma fold_right_max_spec (v : Z) (vs : list Z) :
  In (fold_right Z.max v vs) (v :: vs) /\
  Forall (fun x => x <= fold_right Z.max v vs)%Z (v :: vs).
Proof.
  induction vs as [| x vs [IHin IHle]].
  - cbn. split; [now left |]. constructor; [lia | constructor].
  - cbn [fold_right]. split.
    + destruct (Z.max_spec x (fold_right Z.max v vs)) as [[_ ->] | [_ ->]].
      * destruct IHin as [<- | Hin]; [now left | right; now right].
      * right; now left.
    + inversion IHle as [| ? ? Hv Hvs]; subst.
      constructor; [lia |]. constructor; [lia |].
      eapply Forall_impl; [exact Hvs |]. cbn. intros; lia.
Qed.

Lemma padding_mask_entries (vec : list Z) (M : Z) :
  In M vec -> Forall (fun v => v <= M)%Z vec -> (0 <= M)%Z ->
  exists mask,
    Impl.padding_mask (Tensor [length vec] vec) = Ok mask /\
    shape mask = [length vec; Z.to_nat M] /\
    forall n m, (n < length vec)%nat -> (m < Z.to_nat M)%nat ->
      get false mask [n; m] = (nth n vec 0 <=? Z.of_nat m)%Z.
Proof.
  intros Hin Hle HM.
  assert (Hmax : Impl.tensor_max (Tensor [length vec] vec) = Ok M).
  { unfold Impl.tensor_max. cbn [data].
    destruct vec as [| v vs]; [destruct Hin |].
    destruct (fold_right_max_spec v vs) as [Hin' Hle'].
    f_equal. apply Z.le_antisymm.
    - rewrite Forall_forall in Hle. apply Hle. now apply list_elem_of_In.
    - rewrite Forall_forall in Hle'. apply Hle'. now apply list_elem_of_In. }
  unfold Impl.padding_mask. rewrite Hmax. cbn [rbind shape numel fold_right].
  rewrite Nat.mul_1_r.
  unfold Impl.arange. rewrite decide_False by lia. cbn [rbind].
  unfold Impl.repeat_rows. cbn [shape data rbind unsqueeze_axis1].
  set (N := length vec). set (K := Z.to_nat M).
  assert (Hb : broadcast_shape [N; K] [N; 1%nat] = Some [N; K]).
  { unfold broadcast_shape. cbn. rewrite decide_True by lia.
    destruct (decide (K = 1%nat)) as [-> | HK]; [reflexivity |].
    rewrite decide_True by reflexivity. reflexivity. }
  erewrite zip_broadcast_tabulate by exact Hb.
  eexists. split; [reflexivity |]. split; [reflexivity |].
  intros n m Hn Hm.
  assert (Hv : valid_index [N; K] [n; m]) by (repeat constructor; lia).
  rewrite (get_tabulate _ _ _ _ Hv). cbn [shape data].
  rewrite Z.geb_leb. unfold broadcast_strides. cbn [length Nat.sub repeat app strides numel fold_right zip_with].
  f_equal.
  - unfold offset. cbn [zip_with fold_right]. f_equal.
    destruct (decide (1 = 1)%nat); [| congruence].
    destruct (decide (N = 1%nat)); lia.
  - unfold offset. cbn [zip_with fold_right].
    assert (Hlen : length (map Z.of_nat (seq 0 K)) = K)
      by now rewrite length_map, length_seq.
    transitivity (nth (n * length (map Z.of_nat (seq 0 K)) + m)
                      (concat (repeat (map Z.of_nat (seq 0 K)) N)) 0%Z).
    + f_equal. rewrite Hlen.
      destruct (decide (N = 1)%nat), (decide (K = 1%nat)); nia.
    + rewrite nth_concat_repeat by lia.
      rewrite nth_indep with (d' := Z.of_nat 0) by lia.
      rewrite map_nth, seq_nth by lia. reflexivity.
Qed.

End BroadcastFacts.

(** ** aps/asr/transformer/impl.py: softmax, masks and attention weights *)

Section SoftmaxFacts.

Import Tensor.
Local Open Scope R_scope.

(** Softmax of one row *)

Lemma score_exp_nonneg (a : Impl.score) : 0 <= Impl.score_exp a.
Proof. destruct a; cbn; try lra. left. apply exp_pos. Qed.

Lemma Rsum_map_nonneg {B : Type} (f : B -> R) (l : list B) :
  (forall x, 0 <= f x) -> 0 <= Rsum (map f l).
Proof.
  intros Hf. unfold Rsum. induction l as [| x l IH]; cbn; [lra |].
  specialize (Hf x). lra.
Qed.

Lemma Rsum_map_ge {B : Type} (f : B -> R) (l : list B) (x : B) :
  (forall y, 0 <= f y) -> In x l -> f x <= Rsum (map f l).
Proof.
  intros Hf. induction l as [| y l IH]; intros Hin; [destruct Hin |].
  pose proof (Rsum_map_nonneg f l Hf) as Hn.
  unfold Rsum in *. cbn. destruct Hin as [-> | Hin].
  - lra.
  - specialize (IH Hin). specialize (Hf y). lra.
Qed.

Lemma Rsum_map_pos {B : Type} (f : B -> R) (l : list B) (x : B) :
  (forall y, 0 <= f y) -> In x l -> 0 < f x -> 0 < Rsum (map f l).
Proof.
  intros Hf Hin Hx. pose proof (Rsum_map_ge f l x Hf Hin). lra.
Qed.

Lemma Rsum_map_div {B : Type} (f : B -> R) (z : R) (l : list B) :
  Rsum (map (fun x => f x / z) l) = Rsum (map f l) / z.
Proof.
  unfold Rsum. induction l as [| x l IH]; cbn; [lra |]. rewrite IH. lra.
Qed.

Lemma Rsum_map_ext {B : Type} (f g : B -> R) (l : list B) :
  (forall x, In x l -> f x = g x) -> Rsum (map f l) = Rsum (map g l).
Proof.
  intros H. f_equal. apply map_ext_in. exact H.
Qed.

(** Sums of values that may be NaN *)

Lemma Vsum_numbers {B : Type} (f : B -> Impl.val) (l : list B) :
  (forall x, In x l -> exists r, f x = Impl.Num r) ->
  Impl.Vsum (map f l) = Impl.Num (Rsum (map (fun x => Impl.number (f x)) l)).
Proof.
  unfold Impl.Vsum, Rsum. induction l as [| x l IH]; intros Hf; [reflexivity |].
  cbn [map fold_right]. rewrite IH by (intros y Hy; apply Hf; now right).
  destruct (Hf x (or_introl eq_refl)) as [r ->]. reflexivity.
Qed.

Lemma Vsum_nan {B : Type} (f : B -> Impl.val) (l : list B) (x : B) :
  In x l -> f x = Impl.NaN -> Impl.Vsum (map f l) = Impl.NaN.
Proof.
  unfold Impl.Vsum. induction l as [| y l IH]; intros Hin Hx; [destruct Hin |].
  cbn [map fold_right]. destruct Hin as [-> | Hin].
  - rewrite Hx. reflexivity.
  - rewrite (IH Hin Hx). now destruct (f y).
Qed.

(** Rows of a list *)

Lemma length_rows {A : Type} (k c : nat) (l : list A) : length (rows k c l) = k.
Proof. revert l. induction k as [| k IH]; intros l; cbn; [reflexivity | now rewrite IH]. Qed.

Lemma rows_lookup {A : Type} (k c r : nat) (l : list A) :
  (r < k)%nat -> rows k c l !! r = Some (take c (drop (r * c) l)).
Proof.
  revert r l. induction k as [| k IH]; intros r l Hr; [lia |].
  destruct r as [| r]; cbn [rows].
  - reflexivity.
  - change (rows k c (drop c l) !! r = Some (take c (drop (S r * c) l))).
    rewrite IH by lia. rewrite drop_drop. reflexivity.
Qed.

Lemma rows_full {A : Type} (k c : nat) (l : list A) :
  (k * c <= length l)%nat -> Forall (fun x => length x = c) (rows k c l).
Proof.
  revert l. induction k as [| k IH]; intros l Hl; cbn [rows]; constructor.
  - rewrite length_take. lia.
  - apply IH. rewrite length_drop. lia.
Qed.

Lemma nth_concat_uniform {A : Type} (ls : list (list A)) (c r j : nat) (d : A) :
  Forall (fun x => length x = c) ls -> (r < length ls)%nat -> (j < c)%nat ->
  nth (r * c + j) (concat ls) d = nth j (nth r ls []) d.
Proof.
  intros H. revert r. induction H as [| x ls Hx _ IH]; intros r Hr Hj; [cbn in Hr; lia |].
  cbn [concat]. destruct r as [| r].
  - cbn. apply app_nth1. lia.
  - rewrite app_nth2 by lia. cbn [nth].
    replace (S r * c + j - length x)%nat with (r * c + j)%nat by lia.
    apply IH; [cbn in Hr; lia | exact Hj].
Qed.

Lemma nth_take_drop {A : Type} (l : list A) (c o j : nat) (d : A) :
  (j < c)%nat -> nth j (take c (drop o l)) d = nth (o + j) l d.
Proof.
  intros Hj. rewrite !nth_lookup. rewrite lookup_take_lt by exact Hj.
  now rewrite lookup_drop.
Qed.

Lemma list_as_map_nth {A : Type} (l : list A) (c : nat) (d : A) :
  length l = c -> l = map (fun i => nth i l d) (seq 0 c).
Proof. intros <-. symmetry. apply map_nth_seq_all. Qed.

Lemma numel_rev (s : list nat) : numel (rev s) = numel s.
Proof.
  induction s as [| d s IH]; [reflexivity |].
  cbn [rev]. rewrite numel_app, IH. unfold numel. cbn. nia.
Qed.

Lemma length_softmax_row (row : list Impl.score) :
  length (Impl.softmax_row row) = length row.
Proof. unfold Impl.softmax_row. destruct (_ && _); now rewrite length_map. Qed.

Lemma softmax_row_nth (row : list Impl.score) (s : nat) :
  (s < length row)%nat ->
  nth s (Impl.softmax_row row) (Impl.Num 0)
  = if forallb Impl.is_number_or_neg_inf row && negb (forallb Impl.is_neg_inf row)
    then Impl.Num (Impl.score_exp (nth s row Impl.NegInf)
                   / Rsum (map Impl.score_exp row))
    else Impl.NaN.
Proof.
  intros Hs. unfold Impl.softmax_row.
  destruct (lookup_lt_is_Some_2 row s Hs) as [a Ha].
  destruct (_ && _); rewrite !nth_lookup, list_lookup_fmap, Ha; reflexivity.
Qed.

(** [th.softmax(t, dim=-1)] entry by entry, for a tensor with four axes. *)
Lemma softmax_last_entries (t : tensor Impl.score) (L N H S_ : nat) :
  shape t = [L; N; H; S_] -> well_formed t ->
  exists w,
    Impl.softmax_last t = Ok w /\ shape w = [L; N; H; S_] /\
    forall l n h s, (l < L)%nat -> (n < N)%nat -> (h < H)%nat -> (s < S_)%nat ->
      let row := map (fun s' => get Impl.NegInf t [l; n; h; s']) (seq 0 S_) in
      get (Impl.Num 0) w [l; n; h; s]
      = if forallb Impl.is_number_or_neg_inf row && negb (forallb Impl.is_neg_inf row)
        then Impl.Num (Impl.score_exp (get Impl.NegInf t [l; n; h; s])
                       / Rsum (map Impl.score_exp row))
        else Impl.NaN.
Proof.
  intros Hs Hw. unfold Impl.softmax_last. rewrite Hs. cbn [rev app].
  eexists. split; [reflexivity |]. split; [reflexivity |].
  intros l n h s Hl Hn Hh Hs'.
  unfold well_formed in Hw. rewrite Hs in Hw. cbn [numel fold_right] in Hw.
  set (r := ((l * N + n) * H + h)%nat).
  assert (Hr : (r < L * N * H)%nat).
  { assert (l * N + n + 1 <= L * N)%nat by nia.
    assert ((l * N + n + 1) * H <= L * N * H)%nat by (apply Nat.mul_le_mono_r; lia).
    unfold r. nia. }
  assert (Hoff : forall s', offset (strides [L; N; H; S_]) [l; n; h; s'] = (r * S_ + s')%nat).
  { intros s'. unfold offset, r. cbn. lia. }
  cbv zeta. unfold get at 1. cbn [shape data]. rewrite Hoff.
  assert (Hk : numel [H; N; L] = (L * N * H)%nat) by (cbn; lia).
  rewrite Hk.
  rewrite nth_concat_uniform.
  2:{ apply Forall_map. eapply Forall_impl; [apply rows_full; nia |].
      cbn. intros x Hx. now rewrite length_softmax_row. }
  2:{ now rewrite length_map, length_rows. }
  2:{ exact Hs'. }
  assert (Hrow : nth r (map Impl.softmax_row (rows (L * N * H) S_ (data t))) []
                 = Impl.softmax_row (take S_ (drop (r * S_) (data t)))).
  { rewrite nth_lookup, list_lookup_fmap, rows_lookup by exact Hr. reflexivity. }
  rewrite Hrow. clear Hrow.
  set (row := take S_ (drop (r * S_) (data t))).
  assert (Hlen : length row = S_).
  { unfold row. rewrite length_take, length_drop. nia. }
  assert (Hnth : forall s', (s' < S_)%nat ->
             nth s' row Impl.NegInf = get Impl.NegInf t [l; n; h; s']).
  { intros s' Hlt. unfold row, get. rewrite nth_take_drop by exact Hlt.
    rewrite Hs, Hoff. reflexivity. }
  assert (Heq : row = map (fun s' => get Impl.NegInf t [l; n; h; s']) (seq 0 S_)).
  { rewrite (list_as_map_nth row S_ Impl.NegInf Hlen) at 1.
    apply map_ext_in. intros s' Hin. apply in_seq in Hin. apply Hnth. lia. }
  rewrite softmax_row_nth by lia. rewrite Hnth by exact Hs'.
  rewrite <- Heq. reflexivity.
Qed.

End SoftmaxFacts.

Section MaskShapes.

Import Tensor.

Lemma broadcast_shape_key_mask (L N H S_ : nat) :
  broadcast_shape [L; N; H; S_] [1; N; 1; S_]%nat = Some [L; N; H; S_].
Proof.
  unfold broadcast_shape. cbn.
  repeat (destruct (decide _)); subst; try congruence; reflexivity.
Qed.

Lemma broadcast_shape_attn_mask (L N H S_ : nat) :
  broadcast_shape [L; N; H; S_] [L; 1; 1; S_]%nat = Some [L; N; H; S_].
Proof.
  unfold broadcast_shape. cbn.
  repeat (destruct (decide _)); subst; try congruence; reflexivity.
Qed.

End MaskShapes.

Section MaskSteps.

Import Tensor.
Local Open Scope R_scope.

Variables L N H S_ : nat.

Lemma key_padding_mask_applied (logit : tensor Impl.score)
    (key_padding_mask : option (tensor bool)) :
  shape logit = [L; N; H; S_] ->
  match key_padding_mask with Some m => shape m = [N; S_] | None => True end ->
  exists logit',
    match key_padding_mask with
    | Some m => rbind (Impl.index_none_colon_none_colon m)
                  (fun m => Impl.masked_fill logit m Impl.NegInf)
    | None => Ok logit
    end = Ok logit' /\
    shape logit' = [L; N; H; S_] /\
    (well_formed logit -> well_formed logit') /\
    forall l n h s, (l < L)%nat -> (n < N)%nat -> (h < H)%nat -> (s < S_)%nat ->
      get Impl.NegInf logit' [l; n; h; s]
      = match key_padding_mask with
        | Some m =>
            if get false m [n; s] then Impl.NegInf
            else get Impl.NegInf logit [l; n; h; s]
        | None => get Impl.NegInf logit [l; n; h; s]
        end.
Proof.
  intros Hs Hm. destruct key_padding_mask as [m |].
  2:{ exists logit. repeat split; auto. }
  unfold Impl.index_none_colon_none_colon. rewrite Hm. cbn [rbind].
  unfold Impl.masked_fill.
  erewrite zip_broadcast_tabulate
    by (cbn [shape]; rewrite Hs; apply broadcast_shape_key_mask).
  cbn [rbind shape tabulate]. rewrite decide_True by (now rewrite Hs).
  eexists. split; [reflexivity |]. split; [reflexivity |].
  split; [intros _; apply (well_formed_tabulate [L; N; H; S_]) |].
  intros l n h s Hl Hn Hh Hs'.
  assert (Hv : valid_index [L; N; H; S_] [l; n; h; s]) by (repeat constructor; lia).
  change (Tensor [L; N; H; S_] (map ?g (indices [L; N; H; S_])))
    with (tabulate [L; N; H; S_] g).
  rewrite (get_tabulate _ _ _ _ Hv). cbn [shape data].
  rewrite Hs, broadcast_strides_same, (offset_broadcast_strides _ _ _ Hv).
  replace (offset (broadcast_strides [1; N; 1; S_]%nat [L; N; H; S_]) [l; n; h; s])
    with (offset (strides (shape m)) [n; s]).
  - unfold get. rewrite Hs. reflexivity.
  - rewrite Hm. unfold broadcast_strides, offset. cbn.
    repeat (destruct (decide _)); subst; try congruence; lia.
Qed.

Lemma attn_mask_applied (logit : tensor Impl.score)
    (attn_mask : option (tensor Impl.score)) :
  shape logit = [L; N; H; S_] ->
  match attn_mask with Some a => shape a = [L; S_] | None => True end ->
  exists logit',
    match attn_mask with
    | Some m => rbind (Impl.index_colon_none_none_colon m)
                  (fun m => Impl.add_ logit m)
    | None => Ok logit
    end = Ok logit' /\
    shape logit' = [L; N; H; S_] /\
    (well_formed logit -> well_formed logit') /\
    forall l n h s, (l < L)%nat -> (n < N)%nat -> (h < H)%nat -> (s < S_)%nat ->
      get Impl.NegInf logit' [l; n; h; s]
      = match attn_mask with
        | Some a =>
            Impl.score_add (get Impl.NegInf logit [l; n; h; s])
                           (get Impl.NegInf a [l; s])
        | None => get Impl.NegInf logit [l; n; h; s]
        end.
Proof.
  intros Hs Hm. destruct attn_mask as [m |].
  2:{ exists logit. repeat split; auto. }
  unfold Impl.index_colon_none_none_colon. rewrite Hm. cbn [rbind].
  unfold Impl.add_.
  erewrite zip_broadcast_tabulate
    by (cbn [shape]; rewrite Hs; apply broadcast_shape_attn_mask).
  cbn [rbind shape tabulate]. rewrite decide_True by (now rewrite Hs).
  eexists. split; [reflexivity |]. split; [reflexivity |].
  split; [intros _; apply (well_formed_tabulate [L; N; H; S_]) |].
  intros l n h s Hl Hn Hh Hs'.
  assert (Hv : valid_index [L; N; H; S_] [l; n; h; s]) by (repeat constructor; lia).
  change (Tensor [L; N; H; S_] (map ?g (indices [L; N; H; S_])))
    with (tabulate [L; N; H; S_] g).
  rewrite (get_tabulate _ _ _ _ Hv). cbn [shape data].
  rewrite Hs, broadcast_strides_same, (offset_broadcast_strides _ _ _ Hv).
  replace (offset (broadcast_strides [L; 1; 1; S_]%nat [L; N; H; S_]) [l; n; h; s])
    with (offset (strides (shape m)) [l; s]).
  - unfold get. rewrite Hs. reflexivity.
  - rewrite Hm. unfold broadcast_strides, offset. cbn.
    repeat (destruct (decide _)); subst; try congruence; lia.
Qed.

End MaskSteps.

Section ContextWeightFacts.

Import Tensor.
Local Open Scope R_scope.

Variable drop : float -> tensor Impl.val -> tensor Impl.val.
Variable self : Impl.ApsMultiheadAttention.t.

Lemma dropout_is_identity (x : tensor Impl.val) :
  Impl.dropout_inactive self ->
  Impl.ApsMultiheadAttention.dropout drop self x = Ok x.
Proof.
  unfold Impl.dropout_inactive, Impl.ApsMultiheadAttention.dropout.
  intros [-> [-> | ->]]; [reflexivity |].
  cbn. now rewrite orb_true_r.
Qed.

Lemma einsum_lnhs_snhd_shape (w : tensor Impl.val) (v : rtensor) (L N H S_ D : nat) :
  shape w = [L; N; H; S_] -> shape v = [S_; N; H; D] ->
  exists c, Impl.einsum_lnhs_snhd w v = Ok c /\ shape c = [L; N; H; D] /\ well_formed c.
Proof.
  intros Hw Hv. unfold Impl.einsum_lnhs_snhd. rewrite Hw, Hv.
  unfold Impl.bdim. rewrite !decide_True by reflexivity.
  eexists. split; [reflexivity |]. split; [reflexivity |].
  apply well_formed_tabulate.
Qed.

Lemma context_weight_spec (logit value : rtensor)
    (key_padding_mask : option (tensor bool))
    (attn_mask : option (tensor Impl.score)) (L N H S_ D : nat) :
  Impl.dropout_inactive self ->
  (0 < Impl.ApsMultiheadAttention.head_dim self)%Z ->
  shape logit = [L; N; H; S_] -> well_formed logit ->
  shape value = [S_; N; H; D] ->
  match key_padding_mask with Some m => shape m = [N; S_] | None => True end ->
  match attn_mask with Some a => shape a = [L; S_] | None => True end ->
  exists context weight,
    Impl.ApsMultiheadAttention.context_weight drop self logit value
      key_padding_mask attn_mask = Ok (context, weight) /\
    shape context = [L; N; H; D] /\ well_formed context /\
    shape weight = [L; N; H; S_] /\
    forall l n h, (l < L)%nat -> (n < N)%nat -> (h < H)%nat ->
      Impl.additive attn_mask l S_ ->
      ((exists s, (s < S_)%nat /\ ~ Impl.hidden key_padding_mask attn_mask l n s) ->
       (forall s, (s < S_)%nat ->
          exists r, get (Impl.Num 0) weight [l; n; h; s] = Impl.Num r /\
                    0 <= r <= 1 /\
                    (Impl.hidden key_padding_mask attn_mask l n s -> r = 0)) /\
       Impl.Vsum (map (fun s => get (Impl.Num 0) weight [l; n; h; s]) (seq 0 S_))
       = Impl.Num 1) /\
      ((forall s, (s < S_)%nat -> Impl.hidden key_padding_mask attn_mask l n s) ->
       forall s, (s < S_)%nat -> get (Impl.Num 0) weight [l; n; h; s] = Impl.NaN).
Proof.
  intros Hdrop Hd Hs Hw Hv Hk Ha.
  unfold Impl.ApsMultiheadAttention.context_weight.
  set (logit0 := tmap _ logit).
  assert (Hs0 : shape logit0 = [L; N; H; S_]) by exact Hs.
  assert (Hw0 : well_formed logit0) by now apply well_formed_tmap.
  destruct (key_padding_mask_applied L N H S_ logit0 key_padding_mask Hs0 Hk)
    as (logit1 & -> & Hs1 & Hw1 & Hget1).
  cbn [rbind].
  destruct (attn_mask_applied L N H S_ logit1 attn_mask Hs1 Ha)
    as (logit2 & -> & Hs2 & Hw2 & Hget2).
  cbn [rbind].
  rewrite decide_False by lia.
  destruct (softmax_last_entries logit2 L N H S_ Hs2 (Hw2 (Hw1 Hw0)))
    as (w & -> & Hsw & Hgetw).
  cbn [rbind]. rewrite (dropout_is_identity w Hdrop). cbn [rbind].
  destruct (einsum_lnhs_snhd_shape w value L N H S_ D Hsw Hv) as (c & -> & Hsc & Hwc).
  cbn [rbind].
  exists c, w. split; [reflexivity |]. split; [exact Hsc |]. split; [exact Hwc |].
  split; [exact Hsw |].
  intros l n h Hl Hn Hh Hadd.
  set (g := fun s => get Impl.NegInf logit2 [l; n; h; s]).
  set (row := map g (seq 0 S_)).
  set (e := fun s => Impl.score_exp (g s)).
  set (z := Rsum (map e (seq 0 S_))).
  assert (Hz_eq : Rsum (map Impl.score_exp row) = z).
  { unfold row, z, e. now rewrite map_map. }
  assert (He : forall s, 0 <= e s) by (intros s; apply score_exp_nonneg).
  (* the logit of a key after the scaling and after the padding mask *)
  assert (H0 : forall s, (s < S_)%nat ->
            exists x, get Impl.NegInf logit0 [l; n; h; s] = Impl.Finite x).
  { intros s Hlt. unfold logit0.
    assert (Hvi : valid_index (shape logit) [l; n; h; s])
      by (rewrite Hs; repeat constructor; lia).
    rewrite (get_tmap 0) by assumption. unfold Impl.scale.
    rewrite decide_True by exact Hd. eauto. }
  assert (H1 : forall s, (s < S_)%nat ->
            get Impl.NegInf logit1 [l; n; h; s] = Impl.NegInf \/
            exists x, get Impl.NegInf logit1 [l; n; h; s] = Impl.Finite x).
  { intros s Hlt. rewrite Hget1 by assumption.
    destruct key_padding_mask as [m |]; [| right; now apply H0].
    destruct (get false m [n; s]); [now left | right; now apply H0]. }
  assert (Hhidden : forall s, (s < S_)%nat ->
            Impl.hidden key_padding_mask attn_mask l n s -> g s = Impl.NegInf).
  { intros s Hlt Hh'. unfold g. rewrite Hget2 by assumption.
    destruct Hh' as [Hh' | Hh'].
    - assert (Hn1 : get Impl.NegInf logit1 [l; n; h; s] = Impl.NegInf).
      { rewrite Hget1 by assumption.
        destruct key_padding_mask as [m |]; [| destruct Hh']. now rewrite Hh'. }
      rewrite Hn1. destruct attn_mask as [a |]; [| reflexivity].
      specialize (Hadd s Hlt). now destruct (get Impl.NegInf a [l; s]).
    - destruct attn_mask as [a |]; [| destruct Hh'].
      rewrite Hh'. destruct (H1 s Hlt) as [-> | [x ->]]; reflexivity. }
  assert (Hshown : forall s, (s < S_)%nat ->
            ~ Impl.hidden key_padding_mask attn_mask l n s ->
            exists x, g s = Impl.Finite x).
  { intros s Hlt Hnh. unfold g. rewrite Hget2 by assumption.
    unfold Impl.hidden in Hnh.
    assert (Hx : exists x, get Impl.NegInf logit1 [l; n; h; s] = Impl.Finite x).
    { rewrite Hget1 by assumption.
      destruct key_padding_mask as [m |]; [| now apply H0].
      destruct (get false m [n; s]) eqn:Em; [| now apply H0].
      exfalso. apply Hnh. now left. }
    destruct Hx as [x ->].
    destruct attn_mask as [a |]; [| eauto].
    specialize (Hadd s Hlt).
    destruct (get Impl.NegInf a [l; s]) eqn:Ea; try discriminate Hadd.
    - cbn. eauto.
    - exfalso. apply Hnh. now right. }
  assert (Hregular : forallb Impl.is_number_or_neg_inf row = true).
  { apply forallb_forall. intros a Hin. unfold row in Hin.
    apply in_map_iff in Hin as (s & <- & Hin). apply in_seq in Hin.
    unfold g. rewrite Hget2 by (assumption || lia).
    destruct (H1 s ltac:(lia)) as [-> | [x ->]];
      (destruct attn_mask as [a |]; [| reflexivity]);
      specialize (Hadd s ltac:(lia));
      now destruct (get Impl.NegInf a [l; s]). }
  assert (Hentry : forall s, (s < S_)%nat ->
            get (Impl.Num 0) w [l; n; h; s]
            = if negb (forallb Impl.is_neg_inf row)
              then Impl.Num (e s / z) else Impl.NaN).
  { intros s Hlt. rewrite Hgetw by assumption. cbv zeta. fold g. fold row.
    rewrite Hregular, Hz_eq. reflexivity. }
  split.
  - intros (s0 & Hlt0 & Hnh0).
    assert (Hsome : forallb Impl.is_neg_inf row = false).
    { destruct (forallb Impl.is_neg_inf row) eqn:Eall; [| reflexivity].
      exfalso. rewrite forallb_forall in Eall.
      destruct (Hshown s0 Hlt0 Hnh0) as [x Hx].
      specialize (Eall (g s0)). rewrite Hx in Eall.
      assert (Hin : In (Impl.Finite x) row).
      { unfold row. rewrite <- Hx. apply in_map, in_seq. lia. }
      specialize (Eall Hin). discriminate Eall. }
    rewrite Hsome in Hentry. cbn [negb] in Hentry.
    assert (Hzpos : 0 < z).
    { apply (Rsum_map_pos e (seq 0 S_) s0 He); [apply in_seq; lia |].
      unfold e. destruct (Hshown s0 Hlt0 Hnh0) as [x ->]. cbn. apply exp_pos. }
    split.
    + intros s Hlt. exists (e s / z). split; [now apply Hentry |]. split.
      * assert (e s <= z).
        { apply (Rsum_map_ge e (seq 0 S_) s He). apply in_seq. lia. }
        split.
        -- apply Rmult_le_pos; [apply He | left; now apply Rinv_0_lt_compat].
        -- apply Rmult_le_reg_r with (r := z); [assumption |].
           unfold Rdiv. rewrite Rmult_assoc, Rinv_l by lra. lra.
      * intros Hh'. unfold e. rewrite (Hhidden s Hlt Hh'). cbn. unfold Rdiv. lra.
    + rewrite (Vsum_numbers (fun s => get (Impl.Num 0) w [l; n; h; s])).
      2:{ intros s Hin. apply in_seq in Hin. rewrite Hentry by lia. eauto. }
      f_equal.
      rewrite (Rsum_map_ext _ (fun s => e s / z)).
      2:{ intros s Hin. apply in_seq in Hin. rewrite Hentry by lia. reflexivity. }
      rewrite Rsum_map_div. fold z. unfold Rdiv. apply Rinv_r. lra.
  - intros Hall s Hlt.
    assert (Hnone : forallb Impl.is_neg_inf row = true).
    { apply forallb_forall. intros a Hin. unfold row in Hin.
      apply in_map_iff in Hin as (s' & <- & Hin). apply in_seq in Hin.
      rewrite (Hhidden s') by (try apply Hall; lia). reflexivity. }
    rewrite Hentry by exact Hlt. now rewrite Hnone.
Qed.

End ContextWeightFacts.

Section LinearFacts.

Import Tensor.

Lemma linear_shape_3 (x W b : rtensor) (T N I O : nat) :
  shape x = [T; N; I] -> shape W = [O; I] -> shape b = [O] ->
  exists y, Impl.linear x W (Some b) = Ok y /\ shape y = [T; N; O] /\ well_formed y.
Proof.
  intros Hx HW Hb. unfold Impl.linear. rewrite Hx, HW. cbn [rev app].
  rewrite decide_False by (intros Hne; now apply Hne).
  unfold map2. cbn [shape]. rewrite Hb.
  assert (Hbs : broadcast_shape [T; N; O] [O] = Some [T; N; O]).
  { unfold broadcast_shape. cbn. now rewrite decide_True. }
  rewrite Hbs. eexists. split; [reflexivity |]. split; [reflexivity |].
  apply (well_formed_tabulate [T; N; O]).
Qed.

Lemma vlinear_shape_3 (x : tensor Impl.val) (W b : rtensor) (T N I O : nat) :
  shape x = [T; N; I] -> shape W = [O; I] -> shape b = [O] ->
  exists y, Impl.vlinear x W (Some b) = Ok y /\ shape y = [T; N; O] /\ well_formed y.
Proof.
  intros Hx HW Hb. unfold Impl.vlinear. rewrite Hx, HW. cbn [rev app].
  rewrite decide_False by (intros Hne; now apply Hne).
  unfold zip_broadcast. cbn [shape]. rewrite Hb.
  assert (Hbs : broadcast_shape [T; N; O] [O] = Some [T; N; O]).
  { unfold broadcast_shape. cbn. now rewrite decide_True. }
  rewrite Hbs. eexists. split; [reflexivity |]. split; [reflexivity |].
  apply (well_formed_tabulate [T; N; O]).
Qed.

Lemma slice_bound_inside (i : nat) (d : nat) :
  (i <= d)%nat -> Impl.slice_bound (Z.of_nat i) d = i.
Proof.
  intros Hi. unfold Impl.slice_bound. rewrite decide_False by lia. lia.
Qed.

End LinearFacts.

Section ForwardFacts.

Import Tensor.
Local Open Scope R_scope.

Variable drop : float -> tensor Impl.val -> tensor Impl.val.
Variable self : Impl.ApsMultiheadAttention.t.
Variables E H D : nat.

Import Impl.ApsMultiheadAttention.

Hypothesis Hsized : Impl.sized self E H D.

Lemma proj_shape (base T N : nat) (mat : rtensor) :
  (base < 3)%nat -> (0 < T)%nat -> (0 < E)%nat ->
  shape mat = [T; N; E] ->
  exists y,
    _proj self (Z.of_nat base) mat = Ok y /\
    shape y = [T; N; H; D] /\ well_formed y.
Proof.
  intros Hbase HT HE Hm.
  destruct Hsized as (HEs & HHs & HDs & HHD & HW & (b & Hb & Hbs) & _ & _).
  unfold _proj. rewrite HEs, HHs, HDs.
  replace (Z.of_nat base * Z.of_nat E)%Z with (Z.of_nat (base * E)) by lia.
  replace ((Z.of_nat base + 1) * Z.of_nat E)%Z with (Z.of_nat ((base + 1) * E)) by lia.
  unfold Impl.slice at 1. rewrite HW.
  rewrite !slice_bound_inside by nia.
  unfold slice_rows at 1. rewrite HW. cbn [rbind].
  rewrite Hb. unfold Impl.subscript, Impl.slice. rewrite Hbs.
  rewrite !slice_bound_inside by nia.
  unfold slice_rows. rewrite Hbs. cbn [rbind].
  assert (Hn : (Nat.min ((base + 1) * E) (3 * E) - Nat.min (base * E) (3 * E) = E)%nat).
  { assert (base = 0 \/ base = 1 \/ base = 2)%nat as [-> | [-> | ->]] by lia; lia. }
  rewrite Hn.
  edestruct (linear_shape_3 mat) as (y & -> & Hy & Hwy);
    [exact Hm | reflexivity | reflexivity |].
  cbn [rbind]. unfold Impl.size0. rewrite Hy. cbn [rbind].
  destruct y as [sy dy]. cbn [shape] in Hy. subst sy.
  change [Z.of_nat T; (-1)%Z; Z.of_nat H; Z.of_nat D]
    with (map Z.of_nat [T] ++ (-1)%Z :: map Z.of_nat [H; D])%list.
  rewrite (view_infer N [T] [H; D]).
  - eexists. split; [reflexivity |]. split; [reflexivity |].
    unfold well_formed in *. cbn [shape data numel fold_right] in *.
    rewrite Hwy, HHD. cbn. lia.
  - cbn [numel fold_right]. rewrite HHD. lia.
  - cbn [numel fold_right]. rewrite HHD in HE. lia.
Qed.

Lemma einsum_lnhd_snhd_shape (q k : rtensor) (L N H' D' S_ : nat) :
  shape q = [L; N; H'; D'] -> shape k = [S_; N; H'; D'] ->
  exists c, Impl.einsum_lnhd_snhd q k = Ok c /\ shape c = [L; N; H'; S_] /\ well_formed c.
Proof.
  intros Hq Hk. unfold Impl.einsum_lnhd_snhd. rewrite Hq, Hk.
  unfold Impl.bdim. rewrite !decide_True by reflexivity.
  eexists. split; [reflexivity |]. split; [reflexivity |].
  apply well_formed_tabulate.
Qed.

Lemma mean_penultimate_entries (w : tensor Impl.val) (L N H' S_ : nat) :
  shape w = [L; N; H'; S_] ->
  exists wm,
    Impl.mean_penultimate w = Ok wm /\ shape wm = [L; N; S_] /\
    forall l n s, (l < L)%nat -> (n < N)%nat -> (s < S_)%nat ->
      get (Impl.Num 0) wm [l; n; s]
      = Impl.vdiv
          (Impl.Vsum (map (fun h => get (Impl.Num 0) w [l; n; h; s]) (seq 0 H')))
          H'.
Proof.
  intros Hw. unfold Impl.mean_penultimate. rewrite Hw. cbn [rev app].
  eexists. split; [reflexivity |]. split; [reflexivity |].
  intros l n s Hl Hn Hs.
  assert (Hv : valid_index [L; N; S_] [l; n; s]) by (repeat constructor; lia).
  rewrite (get_tabulate _ _ _ _ Hv). reflexivity.
Qed.

Lemma transpose_0_1_entries {A : Type} (zero : A) (t : tensor A) (L N S_ : nat) :
  shape t = [L; N; S_] ->
  exists t',
    transpose zero 0 1 t = Ok t' /\ shape t' = [N; L; S_] /\
    forall n l s, (n < N)%nat -> (l < L)%nat -> (s < S_)%nat ->
      get zero t' [n; l; s] = get zero t [l; n; s].
Proof.
  intros Ht. unfold transpose. rewrite Ht. cbn [length].
  rewrite decide_True by lia.
  assert (Hsw : swap_axes 0 1 3 = [1; 0; 2]%nat) by reflexivity.
  rewrite Hsw. unfold permute. rewrite Ht. cbn [map nth strides].
  eexists. split; [reflexivity |]. split; [reflexivity |].
  intros n l s Hn Hl Hs.
  assert (Hv : valid_index [N; L; S_] [n; l; s]) by (repeat constructor; lia).
  change (Tensor [N; L; S_] (map ?g (indices [N; L; S_])))
    with (tabulate [N; L; S_] g).
  rewrite (get_tabulate _ _ _ _ Hv). unfold get. rewrite Ht.
  f_equal. unfold offset. cbn. lia.
Qed.

Lemma Rsum_map_swap {B C : Type} (f : B -> C -> R) (bs : list B) (cs : list C) :
  Rsum (map (fun b => Rsum (map (fun c => f b c) cs)) bs)
  = Rsum (map (fun c => Rsum (map (fun b => f b c) bs)) cs).
Proof.
  unfold Rsum. induction bs as [| b bs IH]; cbn.
  - induction cs as [| c cs IHc]; cbn; [reflexivity | rewrite <- IHc; lra].
  - rewrite IH. clear IH. induction cs as [| c cs IHc]; cbn; [lra |].
    rewrite <- IHc. lra.
Qed.

Lemma Rsum_map_const {B : Type} (c : R) (l : list B) :
  Rsum (map (fun _ => c) l) = INR (length l) * c.
Proof.
  unfold Rsum. induction l as [| x l IH]; [cbn; lra |].
  cbn [map fold_right length]. rewrite IH, S_INR. lra.
Qed.

Lemma Rsum_map_bounds {B : Type} (f : B -> R) (l : list B) :
  (forall x, In x l -> 0 <= f x <= 1) ->
  0 <= Rsum (map f l) <= INR (length l).
Proof.
  unfold Rsum. induction l as [| x l IH]; intros Hf; [cbn; lra |].
  cbn [map fold_right length]. rewrite S_INR.
  assert (0 <= f x <= 1) by (apply Hf; now left).
  assert (0 <= fold_right Rplus 0 (map f l) <= INR (length l))
    by (apply IH; intros y Hy; apply Hf; now right).
  lra.
Qed.

Lemma wrap_out_spec (context weight : tensor Impl.val) (L N S_ : nat) :
  (0 < L)%nat -> (0 < E)%nat ->
  shape context = [L; N; H; D] ->
  shape weight = [L; N; H; S_] ->
  exists c w,
    wrap_out self context weight = Ok (c, w) /\
    shape c = [L; N; E] /\ shape w = [N; L; S_] /\
    forall n l s, (n < N)%nat -> (l < L)%nat -> (s < S_)%nat ->
      get (Impl.Num 0) w [n; l; s]
      = Impl.vdiv
          (Impl.Vsum (map (fun h => get (Impl.Num 0) weight [l; n; h; s]) (seq 0 H)))
          H.
Proof.
  intros HL HE Hc Hw.
  destruct Hsized as (HEs & _ & _ & HHD & _ & _ & HWo & Hbo).
  unfold wrap_out. rewrite Hc, HEs. unfold contiguous.
  destruct context as [sc dc]. cbn [shape] in Hc. subst sc.
  change [Z.of_nat L; (-1)%Z; Z.of_nat E]
    with (map Z.of_nat [L] ++ (-1)%Z :: map Z.of_nat [E])%list.
  rewrite (view_infer N [L] [E]).
  2:{ cbn. rewrite HHD. lia. }
  2:{ cbn. lia. }
  cbn [rbind app].
  edestruct (vlinear_shape_3 (Tensor [L; N; E] dc))
    as (y & -> & Hy & _); [reflexivity | exact HWo | exact Hbo |].
  cbn [rbind].
  destruct (mean_penultimate_entries weight L N H S_ Hw)
    as (wm & -> & Hwm & Hgm).
  cbn [rbind].
  destruct (transpose_0_1_entries (Impl.Num 0) wm L N S_ Hwm) as (wt & -> & Hwt & Hgt).
  cbn [rbind].
  exists y, wt. split; [reflexivity |]. split; [exact Hy |]. split; [exact Hwt |].
  intros n l s Hn Hl Hs. rewrite Hgt, Hgm by assumption. reflexivity.
Qed.

Lemma forward_spec (query key value : rtensor)
    (key_padding_mask : option (tensor bool))
    (attn_mask : option (tensor Impl.score)) (L N S_ : nat) :
  Impl.dropout_inactive self ->
  (0 < L)%nat -> (0 < S_)%nat -> (0 < E)%nat ->
  shape query = [L; N; E] ->
  shape key = [S_; N; E] ->
  shape value = [S_; N; E] ->
  match key_padding_mask with Some m => shape m = [N; S_] | None => True end ->
  match attn_mask with Some a => shape a = [L; S_] | None => True end ->
  exists context weight,
    forward drop self query key value key_padding_mask attn_mask
    = Ok (context, weight) /\
    shape context = [L; N; E] /\
    shape weight = [N; L; S_] /\
    forall n l, (n < N)%nat -> (l < L)%nat ->
      Impl.additive attn_mask l S_ ->
      ((exists s, (s < S_)%nat /\ ~ Impl.hidden key_padding_mask attn_mask l n s) ->
       (forall s, (s < S_)%nat ->
          exists r, get (Impl.Num 0) weight [n; l; s] = Impl.Num r /\
                    0 <= r <= 1 /\
                    (Impl.hidden key_padding_mask attn_mask l n s -> r = 0)) /\
       Impl.Vsum (map (fun s => get (Impl.Num 0) weight [n; l; s]) (seq 0 S_))
       = Impl.Num 1) /\
      ((forall s, (s < S_)%nat -> Impl.hidden key_padding_mask attn_mask l n s) ->
       forall s, (s < S_)%nat -> get (Impl.Num 0) weight [n; l; s] = Impl.NaN).
Proof.
  intros Hdrop HL HS HE Hq Hk Hv Hkm Ham.
  pose proof Hsized as (HEs & HHs & HDs & HHD & _).
  assert (HH : (0 < H)%nat) by nia.
  assert (HD : (0 < D)%nat) by nia.
  unfold forward, inp_proj.
  destruct (proj_shape 0 L N query) as (q & Hpq & Hsq & _); try assumption; [lia |].
  destruct (proj_shape 1 S_ N key) as (k & Hpk & Hsk & _); try assumption; [lia |].
  destruct (proj_shape 2 S_ N value) as (v & Hpv & Hsv & _); try assumption; [lia |].
  change (Z.of_nat 0) with 0%Z in Hpq. change (Z.of_nat 1) with 1%Z in Hpk.
  change (Z.of_nat 2) with 2%Z in Hpv.
  rewrite Hpq. cbn [rbind]. rewrite Hpk. cbn [rbind]. rewrite Hpv.
  cbn [rbind fst snd].
  destruct (einsum_lnhd_snhd_shape q k _ _ _ _ _ Hsq Hsk) as (logit & -> & Hsl & Hwl).
  cbn [rbind].
  destruct (context_weight_spec drop self logit v key_padding_mask attn_mask
              L N H S_ D Hdrop ltac:(lia) Hsl Hwl Hsv Hkm Ham)
    as (c & w & -> & Hsc & _ & Hsw & Hrows).
  cbn [rbind fst snd].
  destruct (wrap_out_spec c w L N S_ HL HE Hsc Hsw) as (c' & w' & -> & Hsc' & Hsw' & Hg).
  exists c', w'. split; [reflexivity |]. split; [exact Hsc' |]. split; [exact Hsw' |].
  intros n l Hn Hl Hadd.
  assert (HHR : 0 < INR H) by (apply lt_0_INR; lia).
  split.
  - intros Hex.
    assert (Hnum : forall h s, (h < H)%nat -> (s < S_)%nat ->
              get (Impl.Num 0) w [l; n; h; s]
              = Impl.Num (Impl.number (get (Impl.Num 0) w [l; n; h; s])) /\
              0 <= Impl.number (get (Impl.Num 0) w [l; n; h; s]) <= 1 /\
              (Impl.hidden key_padding_mask attn_mask l n s ->
               Impl.number (get (Impl.Num 0) w [l; n; h; s]) = 0)).
    { intros h s Hh Hs.
      destruct (Hrows l n h Hl Hn Hh Hadd) as ((Hr & _) & _); [exact Hex |].
      destruct (Hr s Hs) as (r & -> & Hb & Hz). cbn. auto. }
    assert (Hmean : forall s, (s < S_)%nat ->
              get (Impl.Num 0) w' [n; l; s]
              = Impl.Num (Rsum (map (fun h => Impl.number (get (Impl.Num 0) w [l; n; h; s]))
                                    (seq 0 H)) / INR H)).
    { intros s Hs. rewrite (Hg n l s Hn Hl Hs).
      rewrite (Vsum_numbers (fun h => get (Impl.Num 0) w [l; n; h; s])).
      2:{ intros h Hin. apply in_seq in Hin.
          destruct (Hnum h s ltac:(lia) Hs) as (-> & _). eauto. }
      cbn [Impl.vdiv]. rewrite decide_False by lia. reflexivity. }
    split.
    + intros s Hs. eexists. split; [apply (Hmean s Hs) |]. split.
      * pose proof (Rsum_map_bounds
                      (fun h => Impl.number (get (Impl.Num 0) w [l; n; h; s]))
                      (seq 0 H)) as Hb.
        rewrite length_seq in Hb.
        destruct Hb as [Hb0 Hb1].
        { intros h Hin. apply in_seq in Hin.
          now destruct (Hnum h s ltac:(lia) Hs) as (_ & Hb & _). }
        split.
        -- apply Rmult_le_pos; [exact Hb0 | left; now apply Rinv_0_lt_compat].
        -- apply Rmult_le_reg_r with (r := INR H); [exact HHR |].
           unfold Rdiv. rewrite Rmult_assoc, Rinv_l by lra. lra.
      * intros Hh.
        rewrite (Rsum_map_ext _ (fun _ => 0)).
        -- rewrite Rsum_map_const. unfold Rdiv. lra.
        -- intros h Hin. apply in_seq in Hin.
           destruct (Hnum h s ltac:(lia) Hs) as (_ & _ & Hz). now apply Hz.
    + rewrite (Vsum_numbers (fun s => get (Impl.Num 0) w' [n; l; s])).
      2:{ intros s Hin. apply in_seq in Hin. rewrite Hmean by lia. eauto. }
      f_equal.
      rewrite (Rsum_map_ext _
                 (fun s => Rsum (map (fun h => Impl.number (get (Impl.Num 0) w [l; n; h; s]))
                                     (seq 0 H))
                           / INR H)).
      2:{ intros s Hin. apply in_seq in Hin. rewrite Hmean by lia. reflexivity. }
      rewrite Rsum_map_div.
      rewrite (Rsum_map_swap
                 (fun s h => Impl.number (get (Impl.Num 0) w [l; n; h; s]))).
      rewrite (Rsum_map_ext _ (fun _ => 1)).
      * rewrite Rsum_map_const, length_seq. unfold Rdiv.
        rewrite Rmult_1_r. apply Rinv_r. lra.
      * intros h Hin. apply in_seq in Hin.
        destruct (Hrows l n h Hl Hn ltac:(lia) Hadd) as ((_ & Hone) & _);
          [exact Hex |].
        rewrite (Vsum_numbers (fun s => get (Impl.Num 0) w [l; n; h; s])) in Hone.
        -- now injection Hone.
        -- intros s Hin'. apply in_seq in Hin'.
           destruct (Hnum h s ltac:(lia) ltac:(lia)) as (-> & _). eauto.
  - intros Hall s Hs. rewrite (Hg n l s Hn Hl Hs).
    rewrite (Vsum_nan (fun h => get (Impl.Num 0) w [l; n; h; s]) (seq 0 H) 0%nat).
    + reflexivity.
    + apply in_seq. lia.
    + destruct (Hrows l n 0%nat Hl Hn HH Hadd) as (_ & Hnan). now apply Hnan.
Qed.

End ForwardFacts.

(** ** aps/asr/transformer/impl.py: what the masks and the layer guarantee *)

Section AttentionGuarantees.

Import Tensor.
Local Open Scope R_scope.

Variable xavier_uniform_ : nat -> nat -> list R.
Variable linear_init : nat -> nat -> list R * list R.
Variable drop : float -> tensor Impl.val -> tensor Impl.val.

Lemma init_sized (embed_dim num_heads : nat) (p : float)
    (self : Impl.ApsMultiheadAttention.t) :
  Impl.ApsMultiheadAttention.__init__ xavier_uniform_ linear_init
    (Z.of_nat embed_dim) (Z.of_nat num_heads) p true = Ok self ->
  exists D,
    Impl.sized self embed_dim num_heads D /\ (0 < embed_dim)%nat /\
    Impl.ApsMultiheadAttention.bad_probability p = false /\
    Impl.ApsMultiheadAttention.dropout_p self = p.
Proof.
  unfold Impl.ApsMultiheadAttention.__init__. intros Hinit.
  destruct (decide (Z.of_nat num_heads = 0%Z)); [discriminate Hinit |].
  destruct (decide _) as [| Hdiv]; [discriminate Hinit |].
  destruct (decide _) as [| Hneg]; [discriminate Hinit |].
  destruct (decide _) as [| Hzero]; [discriminate Hinit |].
  destruct (Impl.ApsMultiheadAttention.bad_probability p) eqn:Hp;
    [discriminate Hinit |].
  injection Hinit as <-. apply dec_stable in Hdiv.
  exists (embed_dim / num_heads)%nat. unfold Impl.sized. cbn.
  rewrite Nat2Z.id.
  assert (Hq : (Z.of_nat embed_dim / Z.of_nat num_heads)%Z
               = Z.of_nat (embed_dim / num_heads)) by (symmetry; apply Nat2Z.inj_div).
  split; [| split; [lia | split; reflexivity]].
  split; [reflexivity |]. split; [reflexivity |]. split; [exact Hq |].
  split; [rewrite Hq in Hdiv; lia |]. split; [reflexivity |].
  split; [eexists; split; reflexivity |]. split; reflexivity.
Qed.

(** X1.  [padding_mask] of a vector of lengths whose largest entry [M] is
    not negative returns a Boolean matrix with one row per length and [M]
    columns; the entry of row [n] and column [m] is [True] exactly when
    [m >= vec[n]], so that the first [vec[n]] positions of each row are left
    unmasked. *)
Theorem padding_mask_marks_padding (vec : list Z) (M : Z) :
  In M vec -> Forall (fun v => v <= M)%Z vec -> (0 <= M)%Z ->
  exists mask,
    Impl.padding_mask (Tensor [length vec] vec) = Ok mask /\
    shape mask = [length vec; Z.to_nat M] /\
    forall n m, (n < length vec)%nat -> (m < Z.to_nat M)%nat ->
      get false mask [n; m] = (nth n vec 0 <=? Z.of_nat m)%Z.
Proof. exact (padding_mask_entries vec M). Qed.

(** X2.  [prep_sub_mask(T)] returns a [T x T] matrix whose entry [(i, j)]
    is [-inf] when [j > i] and [0] otherwise: added to the logits it hides
    from each position exactly the later ones. *)
Theorem prep_sub_mask_hides_later_positions (T : nat) :
  exists mask,
    Impl.prep_sub_mask (Z.of_nat T) = Ok mask /\
    shape mask = [T; T] /\
    forall i j, (i < T)%nat -> (j < T)%nat ->
      get Impl.NegInf mask [i; j]
      = if decide (i < j)%nat then Impl.NegInf else Impl.Finite 0.
Proof. exact (prep_sub_mask_entries T). Qed.

(** X3.  The constructor of [ApsMultiheadAttention] returns a layer exactly
    when [num_heads] is not zero and divides [embed_dim], [embed_dim] is
    positive and the dropout probability is not below 0 nor above 1; the
    layer then has [head_dim * num_heads = embed_dim] and a bias exactly
    when [bias] is set.  Otherwise it raises: [ZeroDivisionError] for
    [num_heads = 0], else [AssertionError] for an indivisible [embed_dim],
    else [RuntimeError] for a negative [embed_dim] and [ZeroDivisionError]
    for [embed_dim = 0], else [ValueError] for the probability. *)
Theorem attention_init_outcome
    (embed_dim num_heads : Z) (p : float) (bias : bool) :
  match Impl.ApsMultiheadAttention.__init__ xavier_uniform_ linear_init
          embed_dim num_heads p bias with
  | Ok self =>
      num_heads <> 0%Z /\ (embed_dim mod num_heads = 0)%Z /\ (0 < embed_dim)%Z /\
      Impl.ApsMultiheadAttention.bad_probability p = false /\
      Impl.ApsMultiheadAttention.embed_dim self = embed_dim /\
      Impl.ApsMultiheadAttention.num_heads self = num_heads /\
      (Impl.ApsMultiheadAttention.head_dim self * num_heads = embed_dim)%Z /\
      Impl.ApsMultiheadAttention.dropout_p self = p /\
      Impl.ApsMultiheadAttention.training self = true /\
      (Impl.ApsMultiheadAttention.in_proj_bias self = None <-> bias = false)
  | Raise e =>
      (num_heads = 0%Z /\
       e = ZeroDivisionError "integer division or modulo by zero") \/
      (num_heads <> 0%Z /\ (embed_dim mod num_heads <> 0)%Z /\
       e = AssertionError "embed_dim must be divisible by num_heads") \/
      (num_heads <> 0%Z /\ (embed_dim mod num_heads = 0)%Z /\ (embed_dim < 0)%Z /\
       exists msg, e = RuntimeError msg) \/
      (num_heads <> 0%Z /\ embed_dim = 0%Z /\
       e = ZeroDivisionError "float division by zero") \/
      (num_heads <> 0%Z /\ (embed_dim mod num_heads = 0)%Z /\ (0 < embed_dim)%Z /\
       Impl.ApsMultiheadAttention.bad_probability p = true /\
       e = ValueError "dropout probability has to be between 0 and 1")
  end.
Proof.
  unfold Impl.ApsMultiheadAttention.__init__.
  destruct (decide (num_heads = 0%Z)) as [-> | Hn]; [left; now split |].
  pose proof (Z.div_mod embed_dim num_heads Hn) as Hdm.
  destruct (decide _) as [Hdiv | Hdiv].
  { right. left. repeat split; try assumption. intros Hz.
    apply Hdiv. rewrite Hz in Hdm. lia. }
  apply dec_stable in Hdiv.
  assert (Hmod : (embed_dim mod num_heads = 0)%Z) by lia.
  destruct (decide _) as [Hneg | Hneg].
  { right. right. left. repeat split; try assumption. eauto. }
  destruct (decide _) as [Hzero | Hzero].
  { right. right. right. left. now repeat split. }
  destruct (Impl.ApsMultiheadAttention.bad_probability p) eqn:Hp.
  { right. right. right. right. repeat split; try assumption. lia. }
  cbn. repeat split; try assumption; try lia.
  - now destruct bias.
  - intros ->. reflexivity.
Qed.

(** X4.  With dropout inactive and a positive [head_dim], [context_weight]
    on logits [L x N x H x S] returns weights of that shape.  For a query
    position, utterance and head for which the additive mask holds numbers
    and [-inf]: when some key is not hidden, the weights are a probability
    distribution over the keys, every weight a number in [[0, 1]], zero on
    the keys hidden by the padding mask or by the additive mask, and their
    sum is one; when every key is hidden, every weight is NaN. *)
Theorem context_weight_rows_are_distributions
    (self : Impl.ApsMultiheadAttention.t) (logit value : rtensor)
    (key_padding_mask : option (tensor bool))
    (attn_mask : option (tensor Impl.score)) (L N H S_ D : nat) :
  Impl.dropout_inactive self ->
  (0 < Impl.ApsMultiheadAttention.head_dim self)%Z ->
  shape logit = [L; N; H; S_] -> well_formed logit ->
  shape value = [S_; N; H; D] ->
  match key_padding_mask with Some m => shape m = [N; S_] | None => True end ->
  match attn_mask with Some a => shape a = [L; S_] | None => True end ->
  exists context weight,
    Impl.ApsMultiheadAttention.context_weight drop self logit value
      key_padding_mask attn_mask = Ok (context, weight) /\
    shape context = [L; N; H; D] /\
    shape weight = [L; N; H; S_] /\
    forall l n h, (l < L)%nat -> (n < N)%nat -> (h < H)%nat ->
      Impl.additive attn_mask l S_ ->
      ((exists s, (s < S_)%nat /\ ~ Impl.hidden key_padding_mask attn_mask l n s) ->
       (forall s, (s < S_)%nat ->
          exists r, get (Impl.Num 0) weight [l; n; h; s] = Impl.Num r /\
                    0 <= r <= 1 /\
                    (Impl.hidden key_padding_mask attn_mask l n s -> r = 0)) /\
       Impl.Vsum (map (fun s => get (Impl.Num 0) weight [l; n; h; s]) (seq 0 S_))
       = Impl.Num 1) /\
      ((forall s, (s < S_)%nat -> Impl.hidden key_padding_mask attn_mask l n s) ->
       forall s, (s < S_)%nat -> get (Impl.Num 0) weight [l; n; h; s] = Impl.NaN).
Proof.
  intros Hdrop Hd Hs Hw Hv Hk Ha.
  destruct (context_weight_spec drop self logit value key_padding_mask attn_mask
              L N H S_ D Hdrop Hd Hs Hw Hv Hk Ha)
    as (c & w & Hcw & Hsc & _ & Hsw & Hrows).
  exists c, w. auto.
Qed.

(** X5.  A layer built with its bias and without dropout maps a query
    [L x N x E] and keys and values [S x N x E] (with [L] and [S] positive
    and masks of sizes [N x S] and [L x S]) to a context [L x N x E] and
    head-averaged weights [N x L x S].  For an utterance and a query
    position for which the additive mask holds numbers and [-inf]: when
    some key is not hidden, the weights are numbers in [[0, 1]], zero on the
    hidden keys, and their sum is one; when every key is hidden, as for an
    utterance that is all padding, every weight is NaN. *)
Theorem forward_with_bias_returns_distributions
    (embed_dim num_heads : nat) (self : Impl.ApsMultiheadAttention.t)
    (query key value : rtensor)
    (key_padding_mask : option (tensor bool))
    (attn_mask : option (tensor Impl.score)) (L N S_ : nat) :
  Impl.ApsMultiheadAttention.__init__ xavier_uniform_ linear_init
    (Z.of_nat embed_dim) (Z.of_nat num_heads) 0%float true = Ok self ->
  (0 < L)%nat -> (0 < S_)%nat ->
  shape query = [L; N; embed_dim] ->
  shape key = [S_; N; embed_dim] ->
  shape value = [S_; N; embed_dim] ->
  match key_padding_mask with Some m => shape m = [N; S_] | None => True end ->
  match attn_mask with Some a => shape a = [L; S_] | None => True end ->
  exists context weight,
    Impl.ApsMultiheadAttention.forward drop self query key value
      key_padding_mask attn_mask = Ok (context, weight) /\
    shape context = [L; N; embed_dim] /\
    shape weight = [N; L; S_] /\
    forall n l, (n < N)%nat -> (l < L)%nat ->
      Impl.additive attn_mask l S_ ->
      ((exists s, (s < S_)%nat /\ ~ Impl.hidden key_padding_mask attn_mask l n s) ->
       (forall s, (s < S_)%nat ->
          exists r, get (Impl.Num 0) weight [n; l; s] = Impl.Num r /\
                    0 <= r <= 1 /\
                    (Impl.hidden key_padding_mask attn_mask l n s -> r = 0)) /\
       Impl.Vsum (map (fun s => get (Impl.Num 0) weight [n; l; s]) (seq 0 S_))
       = Impl.Num 1) /\
      ((forall s, (s < S_)%nat -> Impl.hidden key_padding_mask attn_mask l n s) ->
       forall s, (s < S_)%nat -> get (Impl.Num 0) weight [n; l; s] = Impl.NaN).
Proof.
  intros Hinit HL HS Hq Hk Hv Hkm Ham.
  destruct (init_sized _ _ _ _ Hinit) as (D & Hsized & HE & Hbad & Hp).
  apply (forward_spec drop self embed_dim num_heads D Hsized); try assumption.
  split; [now rewrite Hp |]. left. now rewrite Hp.
Qed.

(** X6.  Self-attention under both masks, as [check_self_attn] sets it up:
    for utterances of lengths [lens] (each at least one, the longest of
    length [T]) the layer is given [padding_mask(lens)] and
    [prep_sub_mask(T)].  The weight a query position [l] of utterance [n]
    gives to a key position [s] is zero when [s] lies after [l] or beyond
    the length of the utterance, and the weights of every query position
    sum to one. *)
Theorem masked_self_attention_is_causal
    (embed_dim num_heads : nat) (self : Impl.ApsMultiheadAttention.t)
    (lens : list Z) (query key value : rtensor) (T : nat) :
  Impl.ApsMultiheadAttention.__init__ xavier_uniform_ linear_init
    (Z.of_nat embed_dim) (Z.of_nat num_heads) 0%float true = Ok self ->
  (0 < T)%nat -> (0 < embed_dim)%nat ->
  In (Z.of_nat T) lens ->
  Forall (fun v => 1 <= v <= Z.of_nat T)%Z lens ->
  shape query = [T; length lens; embed_dim] ->
  shape key = [T; length lens; embed_dim] ->
  shape value = [T; length lens; embed_dim] ->
  exists key_padding_mask attn_mask context weight,
    Impl.padding_mask (Tensor [length lens] lens) = Ok key_padding_mask /\
    Impl.prep_sub_mask (Z.of_nat T) = Ok attn_mask /\
    Impl.ApsMultiheadAttention.forward drop self query key value
      (Some key_padding_mask) (Some attn_mask) = Ok (context, weight) /\
    shape context = [T; length lens; embed_dim] /\
    shape weight = [length lens; T; T] /\
    forall n l, (n < length lens)%nat -> (l < T)%nat ->
      (forall s, (s < T)%nat ->
                 (l < s)%nat \/ (nth n lens 0 <= Z.of_nat s)%Z ->
                 get (Impl.Num 0) weight [n; l; s] = Impl.Num 0) /\
      Impl.Vsum (map (fun s => get (Impl.Num 0) weight [n; l; s]) (seq 0 T))
      = Impl.Num 1.
Proof.
  intros Hinit HT HE Hin Hlens Hq Hk Hv.
  destruct (padding_mask_entries lens (Z.of_nat T)) as (kpm & Hkpm & Hsk & Hgk);
    [exact Hin | | lia |].
  { eapply Forall_impl; [exact Hlens |]. cbn. intros; lia. }
  rewrite Nat2Z.id in Hsk, Hgk.
  destruct (prep_sub_mask_entries T) as (am & Ham & Hsa & Hga).
  destruct (init_sized _ _ _ _ Hinit) as (D & Hsized & _ & Hbad & Hp).
  assert (Hdrop : Impl.dropout_inactive self).
  { split; [now rewrite Hp |]. left. now rewrite Hp. }
  destruct (forward_spec drop self embed_dim num_heads D Hsized
              query key value (Some kpm) (Some am)
              T (length lens) T Hdrop HT HT HE Hq Hk Hv Hsk Hsa)
    as (c & w & Hf & Hsc & Hsw & Hrows).
  exists kpm, am, c, w. repeat (split; [assumption |]).
  intros n l Hn Hl.
  assert (Hadd : Impl.additive (Some am) l T).
  { intros s Hs. rewrite Hga by assumption. now destruct (decide _). }
  destruct (Hrows n l Hn Hl Hadd) as (Hsome & _).
  destruct Hsome as (Hnum & Hone).
  { exists 0%nat. split; [exact HT |].
    unfold Impl.hidden. rewrite Hgk, Hga by assumption.
    rewrite decide_False by lia.
    assert (Hnth : (1 <= nth n lens 0)%Z).
    { rewrite Forall_forall in Hlens.
      apply (Hlens (nth n lens 0%Z)), list_elem_of_In, nth_In. exact Hn. }
    intros [Hleb | Hneg]; [| discriminate Hneg].
    apply Z.leb_le in Hleb. lia. }
  split; [| exact Hone].
  intros s Hs Hcase. destruct (Hnum s Hs) as (r & -> & _ & Hz).
  f_equal. apply Hz.
  unfold Impl.hidden. destruct Hcase as [Hls | Hlen].
  - right. rewrite Hga by assumption. now rewrite decide_True.
  - left. rewrite Hgk by assumption. now apply Z.leb_le.
Qed.

End AttentionGuarantees.

Lemma padding_mask_marks_padding_witness :
  exists mask,
    Impl.padding_mask (Tensor.Tensor [2%nat] [2; 1]%Z) = Ok mask /\
    Tensor.shape mask = [2; 2]%nat /\
    Tensor.get false mask [1; 1]%nat = true.
Proof.
  destruct (padding_mask_marks_padding [2; 1]%Z 2%Z) as (mask & Hm & Hs & Hg).
  - now left.
  - repeat constructor; lia.
  - lia.
  - exists mask. split; [exact Hm |]. split; [exact Hs |].
    exact (Hg 1%nat 1%nat ltac:(simpl; lia) ltac:(simpl; lia)).
Defined.

Lemma context_weight_rows_are_distributions_witness :
  exists context weight,
    Impl.ApsMultiheadAttention.context_weight AttentionDemo.no_drop
      MaskedAttentionDemo.layer MaskedAttentionDemo.logit
      MaskedAttentionDemo.value (Some MaskedAttentionDemo.all_padding) None
    = Ok (context, weight) /\
    Tensor.shape weight = [2; 1; 1; 2]%nat /\
    Tensor.get (Impl.Num 0) weight [0; 0; 0; 0]%nat = Impl.NaN.
Proof.
  destruct (context_weight_rows_are_distributions AttentionDemo.no_drop
              MaskedAttentionDemo.layer MaskedAttentionDemo.logit
              MaskedAttentionDemo.value
              (Some MaskedAttentionDemo.all_padding) None
              2 1 1 2 2 (conj eq_refl (or_introl eq_refl)) eq_refl
              eq_refl eq_refl eq_refl eq_refl I)
    as (c & w & Hcw & _ & Hsw & Hrows).
  exists c, w. split; [exact Hcw |]. split; [exact Hsw |].
  destruct (Hrows 0%nat 0%nat 0%nat ltac:(lia) ltac:(lia) ltac:(lia) I) as (_ & Hnan).
  apply Hnan; [| lia].
  intros s Hs. left.
  assert (s = 0 \/ s = 1)%nat as [-> | ->] by lia; reflexivity.
Defined.

Lemma forward_with_bias_returns_distributions_witness :
  exists context weight,
    Impl.ApsMultiheadAttention.forward AttentionDemo.no_drop
      MaskedAttentionDemo.layer MaskedAttentionDemo.tokens
      MaskedAttentionDemo.tokens MaskedAttentionDemo.tokens None None
    = Ok (context, weight) /\
    Tensor.shape context = [2; 1; 2]%nat /\
    Tensor.shape weight = [1; 2; 2]%nat.
Proof.
  destruct (forward_with_bias_returns_distributions AttentionDemo.ones_init
              AttentionDemo.linear_ones AttentionDemo.no_drop 2 1
              MaskedAttentionDemo.layer MaskedAttentionDemo.tokens
              MaskedAttentionDemo.tokens MaskedAttentionDemo.tokens None None
              2 1 2 eq_refl ltac:(lia) ltac:(lia)
              eq_refl eq_refl eq_refl I I)
    as (c & w & Hf & Hsc & Hsw & _).
  exists c, w. split; [exact Hf |]. split; [exact Hsc | exact Hsw].
Defined.

Lemma masked_self_attention_is_causal_witness :
  exists weight,
    rbind (Impl.padding_mask (Tensor.Tensor [1%nat] [2%Z]))
      (fun key_padding_mask =>
         rbind (Impl.prep_sub_mask 2)
           (fun attn_mask =>
              rbind (Impl.ApsMultiheadAttention.forward AttentionDemo.no_drop
                       MaskedAttentionDemo.layer MaskedAttentionDemo.tokens
                       MaskedAttentionDemo.tokens MaskedAttentionDemo.tokens
                       (Some key_padding_mask) (Some attn_mask))
                (fun out => Ok (snd out))))
    = Ok weight /\
    Tensor.get (Impl.Num 0) weight [0; 0; 1]%nat = Impl.Num 0%R.
Proof.
  destruct (masked_self_attention_is_causal AttentionDemo.ones_init
              AttentionDemo.linear_ones AttentionDemo.no_drop 2 1
              MaskedAttentionDemo.layer [2%Z] MaskedAttentionDemo.tokens
              MaskedAttentionDemo.tokens MaskedAttentionDemo.tokens 2
              eq_refl ltac:(lia) ltac:(lia) ltac:(now left)
              ltac:(repeat constructor; lia) eq_refl eq_refl eq_refl)
    as (kpm & am & c & w & Hk & Ha & Hf & _ & _ & Hrows).
  exists w. split.
  - change (Z.of_nat 2) with 2%Z in Ha. cbn [length] in Hk.
    rewrite Hk. cbn [rbind]. rewrite Ha. cbn [rbind]. rewrite Hf. reflexivity.
  - destruct (Hrows 0%nat 0%nat ltac:(simpl; lia) ltac:(lia)) as (Hzero & _).
    apply Hzero; [lia | left; lia].
Defined.

(** ** aps/asr/enh/conv.py: what [TimeInvariantEnh.__init__] builds *)

Section EnhInitFacts.

Import Tensor.
Import Conv.

Variable new_Conv1d : Z -> Z -> Z -> Z -> result Conv1d.t.
Variable new_Linear : Z -> Z -> result Linear.t.
Variable new_BatchNorm2d : Z -> result BatchNorm2d.t.
Variable th_load : string -> result rtensor.
Variable init_melfilter : Z -> result rtensor.
Variable strided_view : list Z -> rtensor -> result rtensor.

(** The layers have the sizes they are asked for: a convolution has a
    non-zero number of groups and a weight out x (in // groups) x kernel, a
    linear layer a weight out x in, a normalisation its features. *)
Hypothesis new_Conv1d_sizes : forall i o k g m,
  new_Conv1d i o k g = Ok m ->
  (g <> 0 /\ 0 <= o /\ 0 <= k)%Z /\
  shape (Conv1d.weight m) = [Z.to_nat o; Z.to_nat (i / g); Z.to_nat k] /\
  Conv1d.groups m = Z.to_nat g.
Hypothesis new_Linear_sizes : forall i o m,
  new_Linear i o = Ok m ->
  (0 <= i /\ 0 <= o)%Z /\ shape (Linear.weight m) = [Z.to_nat o; Z.to_nat i].
Hypothesis new_BatchNorm2d_sizes : forall n bn,
  new_BatchNorm2d n = Ok bn -> BatchNorm2d.num_features bn = Z.to_nat n.

Lemma load_weight_keeps_weights (a : TimeInvariantEnh.kwargs)
    (conv conv' : ComplexConvXd.t Conv1d.t) :
  TimeInvariantEnh.load_weight th_load strided_view a conv = Ok conv' ->
  Conv1d.weight (ComplexConvXd.real conv') = Conv1d.weight (ComplexConvXd.real conv) /\
  Conv1d.groups (ComplexConvXd.real conv') = Conv1d.groups (ComplexConvXd.real conv) /\
  Conv1d.weight (ComplexConvXd.imag conv') = Conv1d.weight (ComplexConvXd.imag conv) /\
  Conv1d.groups (ComplexConvXd.imag conv') = Conv1d.groups (ComplexConvXd.imag conv).
Proof.
  unfold TimeInvariantEnh.load_weight. intros Hl.
  repeat match type of Hl with
         | rbind ?r _ = _ => destruct r; cbn [rbind] in Hl; [| discriminate Hl]
         | (if ?c then _ else _) = _ => destruct c; [discriminate Hl |]
         end.
  injection Hl as <-. cbn. auto.
Qed.

(** X7.  When [TimeInvariantEnh.__init__] returns a front-end, [num_bins]
    is positive, [num_channels] and [spatial_filters] are not negative, the
    two convolutions have a weight
    [spatial_filters * num_bins x 1 x num_channels] in [num_bins] groups
    (the pretrained filters of [weight] are stored in an attribute [data] of
    the layers and leave the weights as they are), and the projection has
    the weight [spectra_filters x num_bins] under ["random"] and the filter
    bank of [init_melfilter] under ["mel"]. *)
Theorem time_invariant_init_sizes (a : TimeInvariantEnh.kwargs)
    (self : TimeInvariantEnh.t) :
  TimeInvariantEnh.__init__ new_Conv1d new_Linear new_BatchNorm2d th_load
    init_melfilter strided_view a = Ok self ->
  let F0 := Z.to_nat (TimeInvariantEnh.num_bins a) in
  let C0 := Z.to_nat (TimeInvariantEnh.num_channels a) in
  let B0 := Z.to_nat (TimeInvariantEnh.spatial_filters a) in
  (0 < TimeInvariantEnh.num_bins a)%Z /\
  (0 <= TimeInvariantEnh.num_channels a)%Z /\
  (0 <= TimeInvariantEnh.spatial_filters a)%Z /\
  (TimeInvariantEnh.spectra_init a = "random" ->
   TimeInvariantEnh.built_with self F0 C0 B0
     (Z.to_nat (TimeInvariantEnh.spectra_filters a))) /\
  (TimeInvariantEnh.spectra_init a = "mel" ->
   exists mel,
     init_melfilter (TimeInvariantEnh.num_bins a) = Ok mel /\
     Linear.weight (TimeInvariantEnh.proj self) = mel /\
     forall M, shape mel = [M; F0] -> TimeInvariantEnh.built_with self F0 C0 B0 M).
Proof.
  unfold TimeInvariantEnh.__init__. intros Hinit.
  destruct (negb _) eqn:Hini; [discriminate Hinit |].
  destruct (new_Conv1d _ _ _ _) as [re |] eqn:Ere; cbn [rbind] in Hinit;
    [| discriminate Hinit].
  destruct (new_Conv1d_sizes _ _ _ _ _ Ere) as ((Hg & Ho & Hk) & Hw & Hgr).
  set (conv0 := ComplexConvXd.Make re re) in *.
  destruct (if TimeInvariantEnh.path_given (TimeInvariantEnh.weight a)
            then TimeInvariantEnh.load_weight th_load strided_view a conv0
            else Ok conv0) as [conv |] eqn:Econv; cbn [rbind] in Hinit;
    [| discriminate Hinit].
  assert (Hconv : Conv1d.weight (ComplexConvXd.real conv) = Conv1d.weight re /\
                  Conv1d.groups (ComplexConvXd.real conv) = Conv1d.groups re /\
                  Conv1d.weight (ComplexConvXd.imag conv) = Conv1d.weight re /\
                  Conv1d.groups (ComplexConvXd.imag conv) = Conv1d.groups re).
  { destruct (TimeInvariantEnh.path_given _).
    - exact (load_weight_keeps_weights a conv0 conv Econv).
    - injection Econv as <-. cbn. auto. }
  destruct Hconv as (Hwr & Hgr' & Hwi & Hgi).
  destruct (new_Linear _ _) as [proj |] eqn:Eproj; cbn [rbind] in Hinit;
    [| discriminate Hinit].
  destruct (new_Linear_sizes _ _ _ Eproj) as ((Hi & Hos) & Hpw).
  set (F := TimeInvariantEnh.num_bins a) in *.
  set (B := TimeInvariantEnh.spatial_filters a) in *.
  set (C := TimeInvariantEnh.num_channels a) in *.
  assert (HF : (0 < F)%Z) by lia.
  assert (HB : (0 <= B)%Z) by nia.
  assert (Hsh : [Z.to_nat (B * F); Z.to_nat (F / F); Z.to_nat C]
                = [(Z.to_nat B * Z.to_nat F)%nat; 1%nat; Z.to_nat C]).
  { rewrite Z.div_same by lia. rewrite Z2Nat.inj_mul by lia. reflexivity. }
  rewrite Hsh in Hw.
  assert (Hbuilt : forall proj' norm D,
             shape (Linear.weight proj') = [D; Z.to_nat F] ->
             (forall bn, norm = Some bn -> BatchNorm2d.num_features bn = Z.to_nat B) ->
             TimeInvariantEnh.built_with
               (TimeInvariantEnh.Make conv proj' norm B C (TimeInvariantEnh.apply_log a))
               (Z.to_nat F) (Z.to_nat C) (Z.to_nat B) D).
  { intros proj' norm D Hp Hn. unfold TimeInvariantEnh.built_with. cbn.
    rewrite Hwr, Hgr', Hwi, Hgi, Hw, Hgr.
    repeat split; try assumption; try reflexivity; lia. }
  split; [exact HF |]. split; [exact Hk |]. split; [exact HB |].
  destruct (bool_decide (TimeInvariantEnh.spectra_init a = "mel")) eqn:Hmel.
  - apply bool_decide_eq_true in Hmel.
    destruct (init_melfilter F) as [mel |] eqn:Emel; cbn [rbind] in Hinit;
      [| discriminate Hinit].
    destruct (TimeInvariantEnh.batchnorm a).
    + destruct (new_BatchNorm2d B) as [bn |] eqn:Ebn; cbn [rbind] in Hinit;
        [| discriminate Hinit].
      injection Hinit as <-. split.
      * intros Hr. rewrite Hr in Hmel. discriminate Hmel.
      * intros _. exists mel. split; [reflexivity |]. split; [reflexivity |].
        intros M HM. apply Hbuilt; [exact HM |].
        intros bn' [= <-]. now apply new_BatchNorm2d_sizes.
    + cbn [rbind] in Hinit. injection Hinit as <-. split.
      * intros Hr. rewrite Hr in Hmel. discriminate Hmel.
      * intros _. exists mel. split; [reflexivity |]. split; [reflexivity |].
        intros M HM. apply Hbuilt; [exact HM |]. intros bn' [=].
  - apply bool_decide_eq_false in Hmel. cbn [rbind] in Hinit.
    destruct (TimeInvariantEnh.batchnorm a).
    + destruct (new_BatchNorm2d B) as [bn |] eqn:Ebn; cbn [rbind] in Hinit;
        [| discriminate Hinit].
      injection Hinit as <-. split.
      * intros _. apply Hbuilt; [exact Hpw |].
        intros bn' [= <-]. now apply new_BatchNorm2d_sizes.
      * intros Hm. contradiction.
    + cbn [rbind] in Hinit. injection Hinit as <-. split.
      * intros _. apply Hbuilt; [exact Hpw |]. intros bn' [=].
      * intros Hm. contradiction.
Qed.

End EnhInitFacts.

Lemma demo_new_Conv1d_sizes (i o k g : Z) (m : Conv.Conv1d.t) :
  ConvDemo.new_Conv1d i o k g = Ok m ->
  (g <> 0 /\ 0 <= o /\ 0 <= k)%Z /\
  Tensor.shape (Conv.Conv1d.weight m) = [Z.to_nat o; Z.to_nat (i / g); Z.to_nat k] /\
  Conv.Conv1d.groups m = Z.to_nat g.
Proof.
  unfold ConvDemo.new_Conv1d. intros Hm.
  repeat (destruct (decide _); [discriminate Hm |]).
  injection Hm as <-. cbn. repeat split; lia.
Qed.

Lemma demo_new_Linear_sizes (i o : Z) (m : Conv.Linear.t) :
  ConvDemo.new_Linear i o = Ok m ->
  (0 <= i /\ 0 <= o)%Z /\
  Tensor.shape (Conv.Linear.weight m) = [Z.to_nat o; Z.to_nat i].
Proof.
  unfold ConvDemo.new_Linear. intros Hm.
  destruct (decide _); [discriminate Hm |].
  injection Hm as <-. cbn. repeat split; lia.
Qed.

Lemma demo_new_BatchNorm2d_sizes (n : Z) (bn : Conv.BatchNorm2d.t) :
  ConvDemo.new_BatchNorm2d n = Ok bn ->
  Conv.BatchNorm2d.num_features bn = Z.to_nat n.
Proof.
  unfold ConvDemo.new_BatchNorm2d. intros Hm.
  destruct (decide _); [discriminate Hm |].
  now injection Hm as <-.
Qed.

Lemma time_invariant_init_sizes_witness :
  exists self,
    Conv.TimeInvariantEnh.__init__ ConvDemo.new_Conv1d ConvDemo.new_Linear
      ConvDemo.new_BatchNorm2d ConvDemo.th_load ConvDemo.init_melfilter
      (fun _ t => Ok t)
      (Conv.TimeInvariantEnh.Kwargs 2 None 1 1 5 "mel" true true) = Ok self /\
    Conv.TimeInvariantEnh.built_with self 2 1 1 3.
Proof.
  eexists. split; [reflexivity |].
  destruct (time_invariant_init_sizes ConvDemo.new_Conv1d ConvDemo.new_Linear
              ConvDemo.new_BatchNorm2d ConvDemo.th_load ConvDemo.init_melfilter
              (fun _ t => Ok t)
              demo_new_Conv1d_sizes demo_new_Linear_sizes demo_new_BatchNorm2d_sizes
              (Conv.TimeInvariantEnh.Kwargs 2 None 1 1 5 "mel" true true) _ eq_refl)
    as (_ & _ & _ & _ & Hmel).
  destruct (Hmel eq_refl) as (mel & Hload & _ & Hb).
  injection Hload as <-. exact (Hb 3%nat eq_refl).
Defined.
